(** * A shallow embedding of the three-tier stack assembly

    The TypeScript sources declare AWS resources through CDK constructs.
    The embedding follows the code call by call:

    - [new X(scope, id, props)] appends a descriptor of [X] to the scope's
      store and returns a reference to it (its position in the store, which
      plays the role of the JavaScript object identity);
    - a method that mutates a construct ([addIngressRule], [addEgressRule],
      [addUserData], the CloudFormation overrides) rewrites the descriptor
      the reference points to, so that every holder of the reference sees
      the change;
    - [fs.readFileSync] reads from a file system given as a partial
      function, and throws when nothing is at the path or a directory is;
    - [path.join] joins and normalises as Node's POSIX [path] does.

    Of the CDK library the embedding keeps what shapes the descriptors: a
    construct id has its path separators escaped, a security group created
    with [allowAllOutbound] ignores [addEgressRule], and a rule is not added
    to a group that holds one with the same peer and port. The checks the
    library makes on what it is handed (the syntax of an address range, an
    id already used in the scope, the bounds of a capacity, the sign of a
    duration) are not embedded: where the library throws on such a value
    the embedding returns. What is stated of the result of a run is
    therefore stated of the runs that return. *)

From stdpp Require Import base option list strings numbers pretty.
From Stdlib Require Import ZArith Ascii.

Local Open Scope Z_scope.

(** ** JavaScript operators used by the constructs *)

Module Js.

(** [a || d] on [string | undefined]: the empty string is falsy. *)
Definition or (a : option string) (d : string) : string :=
  match a with
  | Some s => if decide (s = EmptyString) then d else s
  | None => d
  end.

(** [a ?? d]: only [undefined] is replaced. *)
Definition nullish {A : Type} (a : option A) (d : A) : A :=
  match a with
  | Some x => x
  | None => d
  end.

(** Truthiness of [string | undefined], as tested by [if (s)]. *)
Definition truthy (a : option string) : option string :=
  match a with
  | Some s => if decide (s = EmptyString) then None else Some s
  | None => None
  end.

End Js.

(** ** Results of an assembly step *)

Inductive Result (A : Type) : Type :=
| Ok (a : A)
| Err (msg : string).
Arguments Ok {A} a.
Arguments Err {A} msg.

(** ** Node's [path], POSIX flavour *)

Module Path.

(** The segments of a path, between its separators. *)
Fixpoint split (path : string) : list string :=
  match path with
  | EmptyString => [EmptyString]
  | String c rest =>
      if Ascii.eqb c "/"%char then EmptyString :: split rest
      else match split rest with
           | segment :: segments => String c segment :: segments
           | [] => [String c EmptyString]
           end
  end.

(** One segment met by [normalizeString], the segments kept so far being
    [res], last first: an empty segment and [.] are dropped; [..] removes
    the segment before it, and where there is none, or it is [..] itself,
    [..] is kept if the path may climb above its start. *)
Definition step (allowAboveRoot : bool) (res : list string) (segment : string)
    : list string :=
  if String.eqb segment "" || String.eqb segment "." then res
  else if String.eqb segment ".." then
    match res with
    | last :: before =>
        if String.eqb last ".." then (if allowAboveRoot then ".." :: res else res)
        else before
    | [] => if allowAboveRoot then [".."] else []
    end
  else segment :: res.

Definition normalizeString (path : string) (allowAboveRoot : bool) : string :=
  String.concat "/" (rev (fold_left (step allowAboveRoot) (split path) [])).

Fixpoint endsWithSeparator (path : string) : bool :=
  match path with
  | EmptyString => false
  | String c EmptyString => Ascii.eqb c "/"%char
  | String _ rest => endsWithSeparator rest
  end.

(** [path.normalize(path)]. *)
Definition normalize (path : string) : string :=
  if String.eqb path "" then "."
  else
    let isAbsolute := String.prefix "/" path in
    let trailingSeparator := endsWithSeparator path in
    let body := normalizeString path (negb isAbsolute) in
    if String.eqb body "" then
      if isAbsolute then "/" else if trailingSeparator then "./" else "."
    else
      (if isAbsolute then "/" else "") +:+ body
      +:+ (if trailingSeparator then "/" else "").

(** [path.join(...segments)]: the segments that are not empty, separated by
    [/], then normalised. *)
Definition join (segments : list string) : string :=
  match List.filter (fun s => negb (String.eqb s "")) segments with
  | [] => "."
  | parts => normalize (String.concat "/" parts)
  end.

End Path.

(** ** Descriptors of the CDK library *)

Module Cdk.

(** References are positions in the store of the enclosing scope. *)
Abbreviation Ref := nat (only parsing).

Inductive SubnetType := PUBLIC | PRIVATE_WITH_EGRESS | PRIVATE_ISOLATED.

(** [ec2.Peer]: an address range or another security group. *)
Inductive Peer :=
| CidrIPv4 (cidr : string)
| SecurityGroupPeer (sg : Ref).

Definition Peer_ipv4 (cidr : string) : Peer := CidrIPv4 cidr.
Definition Peer_anyIpv4 : Peer := CidrIPv4 "0.0.0.0/0".

(** [ec2.Port.tcp(n)]. *)
Inductive Port :=
| Port_tcp (port : Z).

Record Rule := mkRule {
  rulePeer : Peer;
  ruleConnection : Port;
  ruleDescription : string;
}.

(** [sgIngress] and [sgEgress] hold the rules the group has taken from
    [addIngressRule] and [addEgressRule], in the order of the calls. The
    rule that allows all outbound traffic is the flag [sgAllowAllOutbound],
    not a member of [sgEgress]. *)
Record SecurityGroup := mkSecurityGroup {
  sgId : string;
  sgVpc : Ref;
  sgDescription : string;
  sgAllowAllOutbound : bool;
  sgIngress : list Rule;
  sgEgress : list Rule;
}.

Record BlockDevice := mkBlockDevice {
  bdDeviceName : string;
  bdVolumeSize : Z;
  bdVolumeType : string;
  bdEncrypted : bool;
  bdDeleteOnTermination : bool;
  bdIops : Z;
}.

Record AutoScalingGroup := mkAutoScalingGroup {
  asgId : string;
  asgVpc : Ref;
  asgInstanceType : string * string;
  asgMachineImage : string;
  asgSecurityGroup : Ref;
  asgMinCapacity : Z;
  asgMaxCapacity : Z;
  asgDesiredCapacity : Z;
  asgVpcSubnets : SubnetType;
  asgCooldown : Z;
  asgRequireImdsv2 : bool;
  asgBlockDevices : list BlockDevice;
  asgUserData : list string;
  asgTargetGroups : list Ref;
  asgHealthCheckGracePeriod : option Z;
  asgHealthCheckType : option string;
}.

(** The target-tracking policy made by [scaleOnCpuUtilization(id, ...)];
    [spId] is the id the method is handed. *)
Record CpuScalingPolicy := mkCpuScalingPolicy {
  spId : string;
  spGroup : Ref;
  spTargetUtilizationPercent : Z;
  spCooldown : Z;
}.

Record Vpc := mkVpc {
  vpcId : string;
  vpcCidr : string;
  vpcMaxAzs : Z;
  vpcSubnetCidrMask : Z;
}.

Record Subnet := mkSubnet {
  subnetVpc : Ref;
  subnetGroup : string;
  subnetType : SubnetType;
  subnetZone : nat;
}.

Record NatGateway := mkNatGateway {
  natVpc : Ref;
  natZone : nat;
}.

Record FlowLog := mkFlowLog {
  flId : string;
  flVpc : Ref;
  flLogGroup : string;
  flRetentionDays : Z;
  flTrafficType : string;
  flRemovalPolicy : string;
}.

Inductive Direction := INGRESS | EGRESS.

Record NetworkAclEntry := mkNetworkAclEntry {
  naclRuleNumber : Z;
  naclCidr : string;
  naclPorts : option (Z * Z);
  naclDirection : Direction;
}.

Record NetworkAcl := mkNetworkAcl {
  naclId : string;
  naclVpc : Ref;
  naclSubnets : SubnetType;
  naclEntries : list NetworkAclEntry;
}.

Record LoadBalancer := mkLoadBalancer {
  lbId : string;
  lbVpc : Ref;
  lbSecurityGroup : Ref;
  lbInternetFacing : bool;
  lbDeletionProtection : bool;
  lbIdleTimeout : Z;
  lbHttp2Enabled : bool;
}.

Record TargetGroup := mkTargetGroup {
  tgId : string;
  tgVpc : Ref;
  tgPort : Z;
  tgProtocol : string;
  tgTargetType : string;
  tgDeregistrationDelay : Z;
  tgHealthCheck : list (string * string);
}.

Record Listener := mkListener {
  lsId : string;
  lsLoadBalancer : Ref;
  lsPort : Z;
  lsProtocol : string;
  lsDefaultTargetGroups : list Ref;
}.

Record Secret := mkSecret {
  secId : string;
  secUsername : string;
  secPasswordLength : Z;
  secExcludePunctuation : bool;
  secIncludeSpace : bool;
  secReaders : list Ref;
}.

Record DatabaseInstance := mkDatabaseInstance {
  dbId : string;
  dbVpc : Ref;
  dbSubnets : SubnetType;
  dbSubnetGroupName : option string;
  dbSecurityGroup : Ref;
  dbEngine : string;
  dbEngineVersion : string;
  dbInstanceType : string * string;
  dbAllocatedStorage : Z;
  dbMaxAllocatedStorage : Z;
  dbMultiAz : bool;
  dbDatabaseName : string;
  dbBackupRetention : Z;
  dbPreferredBackupWindow : string;
  dbPreferredMaintenanceWindow : string;
  dbDeletionProtection : bool;
  dbRemovalPolicy : string;
  dbStorageEncrypted : bool;
  dbAutoMinorVersionUpgrade : bool;
  dbCredentials : Ref;
  dbCloudWatchLogsExports : list string;
  dbCloudWatchLogsRetention : Z;
}.

(** [ROutput] is a [cdk.CfnOutput]: its construct id, value, description and
    export name. *)
Inductive Resource :=
| RVpc (v : Vpc)
| RSubnet (s : Subnet)
| RNatGateway (n : NatGateway)
| RFlowLog (f : FlowLog)
| RNetworkAcl (a : NetworkAcl)
| RSecurityGroup (g : SecurityGroup)
| RLoadBalancer (l : LoadBalancer)
| RTargetGroup (t : TargetGroup)
| RListener (l : Listener)
| RAutoScalingGroup (a : AutoScalingGroup)
| RScalingPolicy (p : CpuScalingPolicy)
| RDatabaseInstance (d : DatabaseInstance)
| RSecret (s : Secret)
| ROutput (id value description : string) (exportName : option string).

(** The constructs created so far in a scope, in creation order. *)
Abbreviation Store := (list Resource) (only parsing).

(** What is found at a path of the file system. *)
Inductive Entry :=
| File (content : string)
| Directory.

(** What an assembly step can read besides its arguments: [__dirname] and
    the file system. *)
Record Env := mkEnv {
  dirname : string;
  files : string -> option Entry;
}.

(** Assembly steps: they read the environment, thread the store and may
    throw. *)
Definition M (A : Type) : Type := Env -> Store -> Result (A * Store).

Definition ret {A : Type} (a : A) : M A :=
  fun _ s => Ok (a, s).

Definition bind {A B : Type} (m : M A) (k : A -> M B) : M B :=
  fun e s =>
    match m e s with
    | Ok (a, s') => k a e s'
    | Err msg => Err msg
    end.

Definition ask : M Env :=
  fun e s => Ok (e, s).

(** [new X(scope, ...)]: the descriptor is appended, its position is the
    reference. *)
Definition create (r : Resource) : M Ref :=
  fun _ s => Ok (length s, s ++ [r]).

(** Several constructs created in a row, by a loop over zones or outputs. *)
Definition createAll (rs : list Resource) : M unit :=
  fun _ s => Ok (tt, s ++ rs).

(** A mutating method call on the construct behind [ref]. *)
Definition mutate (ref : Ref) (f : Resource -> Resource) : M unit :=
  fun _ s => Ok (tt, alter f ref s).

(** [fs.readFileSync(path, 'utf8')]. *)
Definition readFileSync (path : string) : M string :=
  fun e s =>
    match files e path with
    | Some (File content) => Ok (content, s)
    | Some Directory => Err "EISDIR: illegal operation on a directory, read"
    | None => Err ("ENOENT: no such file or directory, open '" +:+ path +:+ "'")
    end.

(** The id a construct goes by in its scope: the library escapes the path
    separator of the id it is handed. *)
Fixpoint sanitizeId (id : string) : string :=
  match id with
  | EmptyString => EmptyString
  | String c rest =>
      if Ascii.eqb c "/"%char then String "-"%char (String "-"%char (sanitizeId rest))
      else String c (sanitizeId rest)
  end.

(** An attribute of a construct that is known at deployment only: during
    the assembly it is a placeholder, which names the construct and the
    attribute. *)
Definition attribute (construct : Ref) (name : string) : string :=
  "${Token[" +:+ pretty construct +:+ "." +:+ name +:+ "]}".

(** [new ec2.SecurityGroup(scope, id, { vpc, description, allowAllOutbound })]. *)
Definition new_SecurityGroup (id : string) (vpc : Ref) (description : string)
    (allowAllOutbound : bool) : M Ref :=
  create (RSecurityGroup
            (mkSecurityGroup (sanitizeId id) vpc description allowAllOutbound [] [])).

Definition samePeer (a b : Peer) : bool :=
  match a, b with
  | CidrIPv4 x, CidrIPv4 y => String.eqb x y
  | SecurityGroupPeer x, SecurityGroupPeer y => Nat.eqb x y
  | _, _ => false
  end.

Definition samePort (a b : Port) : bool :=
  match a, b with
  | Port_tcp x, Port_tcp y => Z.eqb x y
  end.

(** The library tells two rules of a group apart by their peer and their
    port, not by their description. *)
Definition sameRule (r held : Rule) : bool :=
  samePeer (rulePeer r) (rulePeer held)
  && samePort (ruleConnection r) (ruleConnection held).

Definition push_ingress (r : Rule) (x : Resource) : Resource :=
  match x with
  | RSecurityGroup g =>
      if existsb (sameRule r) (sgIngress g) then x
      else
        RSecurityGroup (mkSecurityGroup (sgId g) (sgVpc g) (sgDescription g)
                          (sgAllowAllOutbound g) (sgIngress g ++ [r]) (sgEgress g))
  | _ => x
  end.

(** A group that allows all outbound traffic takes no egress rule: its one
    rule covers every other. *)
Definition push_egress (r : Rule) (x : Resource) : Resource :=
  match x with
  | RSecurityGroup g =>
      if sgAllowAllOutbound g then x
      else if existsb (sameRule r) (sgEgress g) then x
      else
        RSecurityGroup (mkSecurityGroup (sgId g) (sgVpc g) (sgDescription g)
                          (sgAllowAllOutbound g) (sgIngress g) (sgEgress g ++ [r]))
  | _ => x
  end.

(** [group.addIngressRule(peer, connection, description)]. *)
Definition addIngressRule (group : Ref) (peer : Peer) (connection : Port)
    (description : string) : M unit :=
  mutate group (push_ingress (mkRule peer connection description)).

(** [group.addEgressRule(peer, connection, description)]. *)
Definition addEgressRule (group : Ref) (peer : Peer) (connection : Port)
    (description : string) : M unit :=
  mutate group (push_egress (mkRule peer connection description)).

End Cdk.

Notation "'let*' x ':=' m 'in' k" := (Cdk.bind m (fun x => k))
  (at level 10, x pattern, m at level 100, k at level 200).
Notation "m ';;' k" := (Cdk.bind m (fun _ => k))
  (at level 100, k at level 200, right associativity).

(** ** lib/constructs/networking/security-group-construct.ts

    The class [SecurityGroupsConstruct], kept in the sources beside the
    application-tier construct. *)

Module SecurityGroups.
Import Cdk.

Record SecurityGroupsConstructProps := mkProps {
  vpc : Ref;
  allowHttpFrom : string;
  httpPort : Z;
  httpsPort : Z;
  appTierPort : Z;
  dbPort : Z;
  albAllowAllOutbound : option bool;
  webTierAllowAllOutbound : option bool;
  appTierAllowAllOutbound : option bool;
  dbAllowAllOutbound : option bool;
  allowPackageDownloads : option bool;
  albSecurityGroupName : option string;
  webTierSecurityGroupName : option string;
  appTierSecurityGroupName : option string;
  databaseSecurityGroupName : option string;
}.

(** The public fields of the construct. *)
Record SecurityGroupsConstructT := mkConstruct {
  albSecurityGroup : Ref;
  webTierSecurityGroup : Ref;
  appTierSecurityGroup : Ref;
  dbSecurityGroup : Ref;
}.

Definition SecurityGroupsConstruct (props : SecurityGroupsConstructProps)
    : M SecurityGroupsConstructT :=
  let* alb :=
    new_SecurityGroup (Js.or (albSecurityGroupName props) "AlbSecurityGroup")
      (vpc props) "Security group for Application Load Balancer"
      (Js.nullish (albAllowAllOutbound props) false) in
  addIngressRule alb (Peer_ipv4 (allowHttpFrom props)) (Port_tcp (httpPort props))
    "Allow HTTP traffic from internet" ;;
  let* web :=
    new_SecurityGroup (Js.or (webTierSecurityGroupName props) "WebTierSecurityGroup")
      (vpc props) "Security group for Web Tier instances"
      (Js.nullish (webTierAllowAllOutbound props) false) in
  addIngressRule web (SecurityGroupPeer alb) (Port_tcp (httpPort props))
    "Allow HTTP traffic from ALB only" ;;
  addEgressRule alb (SecurityGroupPeer web) (Port_tcp (httpPort props))
    "Allow outbound to Web Tier instances" ;;
  let* app :=
    new_SecurityGroup (Js.or (appTierSecurityGroupName props) "AppTierSecurityGroup")
      (vpc props) "Security group for Application Tier instances"
      (Js.nullish (appTierAllowAllOutbound props) false) in
  addIngressRule app (SecurityGroupPeer web) (Port_tcp (appTierPort props))
    "Allow traffic from Web Tier only" ;;
  addEgressRule web (SecurityGroupPeer app) (Port_tcp (appTierPort props))
    "Allow outbound to App Tier instances" ;;
  let* db :=
    new_SecurityGroup (Js.or (databaseSecurityGroupName props) "DatabaseSecurityGroup")
      (vpc props) "Security group for RDS database"
      (Js.nullish (dbAllowAllOutbound props) false) in
  addIngressRule db (SecurityGroupPeer app) (Port_tcp (dbPort props))
    "Allow MySQL/MariaDB traffic from App Tier instances only" ;;
  addEgressRule app (SecurityGroupPeer db) (Port_tcp (dbPort props))
    "Allow outbound to database" ;;
  (if Js.nullish (allowPackageDownloads props) true then
     addEgressRule web Peer_anyIpv4 (Port_tcp (httpPort props))
       "Allow HTTP for package downloads" ;;
     addEgressRule web Peer_anyIpv4 (Port_tcp (httpsPort props))
       "Allow HTTPS for package downloads" ;;
     addEgressRule app Peer_anyIpv4 (Port_tcp (httpPort props))
       "Allow HTTP for package downloads" ;;
     addEgressRule app Peer_anyIpv4 (Port_tcp (httpsPort props))
       "Allow HTTPS for package downloads"
   else ret tt) ;;
  ret (mkConstruct alb web app db).

End SecurityGroups.

(** ** lib/constructs/compute/app-tier-asg-construct.ts *)

Module AppTierAsg.
Import Cdk.

Record AppTierAsgConstructProps := mkProps {
  vpc : Ref;
  securityGroup : Ref;
  minCapacity : Z;
  maxCapacity : Z;
  desiredCapacity : Z;
  instanceClass : string;
  instanceSize : string;
  machineImage : string;
  healthCheckType : string;
  healthCheckGracePeriod : Z;
  cooldown : Z;
  targetCpuUtilization : Z;
  volumeSize : Z;
  volumeType : string;
  encrypted : bool;
  deleteOnTermination : bool;
  iops : Z;
  deviceName : string;
  requireImdsv2 : option bool;
  subnetType : option string;
  autoScalingGroupName : option string;
  cpuScalingPolicyName : option string;
  userDataScriptPath : option string;
}.

Record AppTierAsgConstructT := mkConstruct {
  autoScalingGroup : Ref;
}.

(** The nested conditional that picks the subnet type. *)
Definition subnetTypeOf (keyword : option string) : SubnetType :=
  if decide (keyword = Some "PUBLIC") then PUBLIC
  else if decide (keyword = Some "PRIVATE_ISOLATED") then PRIVATE_ISOLATED
  else PRIVATE_WITH_EGRESS.

Definition with_userData (script : string) (x : Resource) : Resource :=
  match x with
  | RAutoScalingGroup a =>
      RAutoScalingGroup
        (mkAutoScalingGroup (asgId a) (asgVpc a) (asgInstanceType a) (asgMachineImage a)
           (asgSecurityGroup a) (asgMinCapacity a) (asgMaxCapacity a)
           (asgDesiredCapacity a) (asgVpcSubnets a) (asgCooldown a) (asgRequireImdsv2 a)
           (asgBlockDevices a) (asgUserData a ++ [script]) (asgTargetGroups a)
           (asgHealthCheckGracePeriod a) (asgHealthCheckType a))
  | _ => x
  end.

Definition with_healthCheckGracePeriod (period : Z) (x : Resource) : Resource :=
  match x with
  | RAutoScalingGroup a =>
      RAutoScalingGroup
        (mkAutoScalingGroup (asgId a) (asgVpc a) (asgInstanceType a) (asgMachineImage a)
           (asgSecurityGroup a) (asgMinCapacity a) (asgMaxCapacity a)
           (asgDesiredCapacity a) (asgVpcSubnets a) (asgCooldown a) (asgRequireImdsv2 a)
           (asgBlockDevices a) (asgUserData a) (asgTargetGroups a)
           (Some period) (asgHealthCheckType a))
  | _ => x
  end.

Definition with_healthCheckType (type : string) (x : Resource) : Resource :=
  match x with
  | RAutoScalingGroup a =>
      RAutoScalingGroup
        (mkAutoScalingGroup (asgId a) (asgVpc a) (asgInstanceType a) (asgMachineImage a)
           (asgSecurityGroup a) (asgMinCapacity a) (asgMaxCapacity a)
           (asgDesiredCapacity a) (asgVpcSubnets a) (asgCooldown a) (asgRequireImdsv2 a)
           (asgBlockDevices a) (asgUserData a) (asgTargetGroups a)
           (asgHealthCheckGracePeriod a) (Some type))
  | _ => x
  end.

Definition AppTierAsgConstruct (props : AppTierAsgConstructProps)
    : M AppTierAsgConstructT :=
  let subnetType := subnetTypeOf (subnetType props) in
  let* asg :=
    create (RAutoScalingGroup
      (mkAutoScalingGroup
         (sanitizeId (Js.or (autoScalingGroupName props) "AppTierAutoScalingGroup"))
         (vpc props)
         (instanceClass props, instanceSize props)
         (machineImage props)
         (securityGroup props)
         (minCapacity props)
         (maxCapacity props)
         (desiredCapacity props)
         subnetType
         (cooldown props)
         (Js.nullish (requireImdsv2 props) true)
         [mkBlockDevice (deviceName props) (volumeSize props) (volumeType props)
            (encrypted props) (deleteOnTermination props) (iops props)]
         [] [] None None)) in
  match Js.truthy (userDataScriptPath props) with
  | Some path =>
      let* userDataScript := readFileSync path in
      mutate asg (with_userData userDataScript)
  | None => ret tt
  end ;;
  mutate asg (with_healthCheckGracePeriod (healthCheckGracePeriod props)) ;;
  mutate asg (with_healthCheckType (healthCheckType props)) ;;
  let* _ :=
    create (RScalingPolicy
      (mkCpuScalingPolicy (Js.or (cpuScalingPolicyName props) "AppTierCpuScaling")
         asg (targetCpuUtilization props) (cooldown props))) in
  ret (mkConstruct asg).

End AppTierAsg.

(** ** Constructs of the repository whose source is not at hand

    [stack.ts] instantiates them; their props are the ones it passes. *)

Module VpcNetwork.
Import Cdk.

Record VpcConstructProps := mkProps {
  cidr : string;
  maxAzs : Z;
  natGatewaysCount : Z;
  subnetCidrMask : Z;
  enableFlowLogs : bool;
  flowLogsRetentionDays : Z;
  publicSubnetName : string;
  privateSubnetName : string;
  flowLogsTrafficType : string;
  flowLogsRemovalPolicy : string;
  vpcName : option string;
  flowLogsGroupName : option string;
  flowLogName : option string;
}.

Record VpcConstructT := mkConstruct {
  vpc : Ref;
}.

(** The zones in use, numbered from 0. *)
Definition zones (maxAzs : Z) : list nat := seq 0 (Z.to_nat maxAzs).

Definition subnetGroup (vpc : Ref) (name : string) (type : SubnetType)
    (zs : list nat) : list Resource :=
  map (fun z => RSubnet (mkSubnet vpc name type z)) zs.

(** The zones that get a NAT egress point: the first [natGatewaysCount] of
    the zones in use. *)
Definition natZones (props : VpcConstructProps) : list nat :=
  take (Z.to_nat (natGatewaysCount props)) (zones (maxAzs props)).

(** Modelled from the spec: lib/constructs/networking/vpc-construct.ts is
    missing. The network has an address block, a set of zones and three
    subnet groups (public, private with egress, isolated), each replicated
    per zone, NAT egress points, and traffic-flow logging when it is
    enabled. The spec derives one NAT egress point per zone; the stack
    hands the construct a [natGatewaysCount] beside [maxAzs], which the
    README lists as a setting of its own, so the construct declares that
    many, at most one per zone. The zones in use are as many as [maxAzs]
    asks for. *)
Definition VpcConstruct (props : VpcConstructProps) : M VpcConstructT :=
  let zs := zones (maxAzs props) in
  let* vpc :=
    create (RVpc (mkVpc (Js.or (vpcName props) "Vpc") (cidr props) (maxAzs props)
                    (subnetCidrMask props))) in
  createAll (subnetGroup vpc (publicSubnetName props) PUBLIC zs) ;;
  createAll (subnetGroup vpc (privateSubnetName props) PRIVATE_WITH_EGRESS zs) ;;
  createAll (subnetGroup vpc "Isolated" PRIVATE_ISOLATED zs) ;;
  createAll (map (fun z => RNatGateway (mkNatGateway vpc z)) (natZones props)) ;;
  (if enableFlowLogs props then
     let* _ :=
       create (RFlowLog
         (mkFlowLog (Js.or (flowLogName props) "VpcFlowLog") vpc
            (Js.or (flowLogsGroupName props) "VpcFlowLogsGroup")
            (flowLogsRetentionDays props) (flowLogsTrafficType props)
            (flowLogsRemovalPolicy props))) in
     ret tt
   else ret tt) ;;
  ret (mkConstruct vpc).

End VpcNetwork.

Module NetworkAcls.
Import Cdk.

Record NetworkAclConstructProps := mkProps {
  vpc : Ref;
  vpcCidr : string;
  httpPort : Z;
  httpsPort : Z;
  dbPort : Z;
  httpInboundRuleNumber : Z;
  enableHttpInbound : bool;
  httpsInboundRuleNumber : Z;
  enableHttpsInbound : bool;
  ephemeralInboundRuleNumber : Z;
  enableEphemeralInbound : bool;
  allOutboundRuleNumber : Z;
  enableAllOutbound : bool;
  privateHttpRuleNumber : Z;
  enablePrivateHttpInbound : bool;
  privateDatabaseRuleNumber : Z;
  enablePrivateDatabaseInbound : bool;
  privateEphemeralRuleNumber : Z;
  enablePrivateEphemeralInbound : bool;
  enablePrivateAllOutbound : bool;
  ephemeralPortStart : Z;
  ephemeralPortEnd : Z;
  publicNetworkAclName : option string;
  privateNetworkAclName : option string;
}.

Definition entry (enabled : bool) (number : Z) (cidr : string)
    (ports : option (Z * Z)) (direction : Direction) : list NetworkAclEntry :=
  if enabled then [mkNetworkAclEntry number cidr ports direction] else [].

(** The rule list of the public subnets. *)
Definition publicAcl (props : NetworkAclConstructProps) : NetworkAcl :=
  let ephemeral := Some (ephemeralPortStart props, ephemeralPortEnd props) in
  mkNetworkAcl (Js.or (publicNetworkAclName props) "PublicNetworkAcl")
    (vpc props) PUBLIC
    (entry (enableHttpInbound props) (httpInboundRuleNumber props) "0.0.0.0/0"
       (Some (httpPort props, httpPort props)) INGRESS
     ++ entry (enableHttpsInbound props) (httpsInboundRuleNumber props) "0.0.0.0/0"
          (Some (httpsPort props, httpsPort props)) INGRESS
     ++ entry (enableEphemeralInbound props) (ephemeralInboundRuleNumber props)
          "0.0.0.0/0" ephemeral INGRESS
     ++ entry (enableAllOutbound props) (allOutboundRuleNumber props) "0.0.0.0/0"
          None EGRESS).

(** The rule list of the private subnets. *)
Definition privateAcl (props : NetworkAclConstructProps) : NetworkAcl :=
  let ephemeral := Some (ephemeralPortStart props, ephemeralPortEnd props) in
  mkNetworkAcl (Js.or (privateNetworkAclName props) "PrivateNetworkAcl")
    (vpc props) PRIVATE_WITH_EGRESS
    (entry (enablePrivateHttpInbound props) (privateHttpRuleNumber props)
       (vpcCidr props) (Some (httpPort props, httpPort props)) INGRESS
     ++ entry (enablePrivateDatabaseInbound props) (privateDatabaseRuleNumber props)
          (vpcCidr props) (Some (dbPort props, dbPort props)) INGRESS
     ++ entry (enablePrivateEphemeralInbound props)
          (privateEphemeralRuleNumber props) "0.0.0.0/0" ephemeral INGRESS
     ++ entry (enablePrivateAllOutbound props) (allOutboundRuleNumber props)
          "0.0.0.0/0" None EGRESS).

(** Modelled from the spec: lib/constructs/networking/network-acl-construct.ts
    is missing. Stateless, ordered rule lists per subnet tier: each rule has
    a priority number, a port range and a direction, and is declared when
    its toggle is on. *)
Definition NetworkAclConstruct (props : NetworkAclConstructProps) : M unit :=
  let* _ := create (RNetworkAcl (publicAcl props)) in
  let* _ := create (RNetworkAcl (privateAcl props)) in
  ret tt.

End NetworkAcls.

Module Alb.
Import Cdk.

Record AlbConstructProps := mkProps {
  vpc : Ref;
  securityGroup : Ref;
  internetFacing : bool;
  deletionProtection : bool;
  idleTimeout : Z;
  http2Enabled : bool;
  targetGroupPort : Z;
  targetGroupProtocol : string;
  targetType : string;
  listenerPort : Z;
  listenerProtocol : string;
  deregistrationDelay : Z;
  healthCheck : list (string * string);
  loadBalancerName : option string;
  targetGroupName : option string;
  listenerName : option string;
}.

Record AlbConstructT := mkConstruct {
  loadBalancer : Ref;
  targetGroup : Ref;
}.

(** Modelled from the spec: lib/constructs/load-balancing/alb-construct.ts is
    missing. The component declares a load balancer, a health-checked target
    group and a listener that forwards to that target group. *)
Definition AlbConstruct (props : AlbConstructProps) : M AlbConstructT :=
  let* lb :=
    create (RLoadBalancer
      (mkLoadBalancer (Js.or (loadBalancerName props) "ApplicationLoadBalancer")
         (vpc props) (securityGroup props) (internetFacing props)
         (deletionProtection props) (idleTimeout props) (http2Enabled props))) in
  let* tg :=
    create (RTargetGroup
      (mkTargetGroup (Js.or (targetGroupName props) "WebTierTargetGroup") (vpc props)
         (targetGroupPort props) (targetGroupProtocol props) (targetType props)
         (deregistrationDelay props) (healthCheck props))) in
  let* _ :=
    create (RListener
      (mkListener (Js.or (listenerName props) "HttpListener") lb (listenerPort props)
         (listenerProtocol props) [tg])) in
  ret (mkConstruct lb tg).

End Alb.

Module WebTierAsg.
Import Cdk.

Record WebTierAsgConstructProps := mkProps {
  vpc : Ref;
  securityGroup : Ref;
  targetGroup : Ref;
  minCapacity : Z;
  maxCapacity : Z;
  desiredCapacity : Z;
  instanceClass : string;
  instanceSize : string;
  machineImage : string;
  healthCheckType : string;
  healthCheckGracePeriod : Z;
  cooldown : Z;
  targetCpuUtilization : Z;
  requireImdsv2 : option bool;
  subnetType : option string;
  volumeSize : Z;
  volumeType : string;
  encrypted : bool;
  deleteOnTermination : bool;
  iops : Z;
  deviceName : string;
  autoScalingGroupName : option string;
  cpuScalingPolicyName : option string;
  userDataScriptPath : option string;
}.

Record WebTierAsgConstructT := mkConstruct {
  autoScalingGroup : Ref;
}.

Definition with_targetGroup (tg : Ref) (x : Resource) : Resource :=
  match x with
  | RAutoScalingGroup a =>
      RAutoScalingGroup
        (mkAutoScalingGroup (asgId a) (asgVpc a) (asgInstanceType a) (asgMachineImage a)
           (asgSecurityGroup a) (asgMinCapacity a) (asgMaxCapacity a)
           (asgDesiredCapacity a) (asgVpcSubnets a) (asgCooldown a) (asgRequireImdsv2 a)
           (asgBlockDevices a) (asgUserData a) (asgTargetGroups a ++ [tg])
           (asgHealthCheckGracePeriod a) (asgHealthCheckType a))
  | _ => x
  end.

(** Modelled from the spec: lib/constructs/compute/web-tier-asg-construct.ts
    is missing. A compute group has capacity bounds (min, desired, max), an
    instance shape, a boot script, an attached security identity, a
    load-balancer target attachment (presentation tier only) and a CPU-target
    scaling policy with a cooldown; the steps follow the application-tier
    construct, which is the same component for the other tier. *)
Definition WebTierAsgConstruct (props : WebTierAsgConstructProps)
    : M WebTierAsgConstructT :=
  let subnetType := AppTierAsg.subnetTypeOf (subnetType props) in
  let* asg :=
    create (RAutoScalingGroup
      (mkAutoScalingGroup
         (sanitizeId (Js.or (autoScalingGroupName props) "WebTierAutoScalingGroup"))
         (vpc props)
         (instanceClass props, instanceSize props)
         (machineImage props)
         (securityGroup props)
         (minCapacity props)
         (maxCapacity props)
         (desiredCapacity props)
         subnetType
         (cooldown props)
         (Js.nullish (requireImdsv2 props) true)
         [mkBlockDevice (deviceName props) (volumeSize props) (volumeType props)
            (encrypted props) (deleteOnTermination props) (iops props)]
         [] [] None None)) in
  match Js.truthy (userDataScriptPath props) with
  | Some path =>
      let* userDataScript := readFileSync path in
      mutate asg (AppTierAsg.with_userData userDataScript)
  | None => ret tt
  end ;;
  mutate asg (with_targetGroup (targetGroup props)) ;;
  mutate asg (AppTierAsg.with_healthCheckGracePeriod (healthCheckGracePeriod props)) ;;
  mutate asg (AppTierAsg.with_healthCheckType (healthCheckType props)) ;;
  let* _ :=
    create (RScalingPolicy
      (mkCpuScalingPolicy (Js.or (cpuScalingPolicyName props) "WebTierCpuScaling")
         asg (targetCpuUtilization props) (cooldown props))) in
  ret (mkConstruct asg).

End WebTierAsg.

Module Rds.
Import Cdk.

Record RdsConstructProps := mkProps {
  vpc : Ref;
  securityGroup : Ref;
  engine : string;
  engineVersion : string;
  instanceClass : string;
  instanceSize : string;
  allocatedStorage : Z;
  maxAllocatedStorage : Z;
  multiAz : bool;
  databaseName : string;
  backupRetention : Z;
  preferredBackupWindow : string;
  preferredMaintenanceWindow : string;
  deletionProtection : bool;
  removalPolicy : string;
  storageEncrypted : bool;
  autoMinorVersionUpgrade : bool;
  credentialsUsername : string;
  credentialsPasswordLength : Z;
  credentialsExcludePunctuation : bool;
  credentialsIncludeSpace : bool;
  cloudWatchLogsExports : list string;
  cloudWatchLogsRetention : Z;
  resourceName : option string;
  subnetGroupName : option string;
  credentialsSecretName : option string;
}.

Record RdsConstructT := mkConstruct {
  database : Ref;
  secret : Ref;
}.

(** [secret.grantRead(grantee)]. *)
Definition grantRead (grantee : Ref) (x : Resource) : Resource :=
  match x with
  | RSecret s =>
      RSecret (mkSecret (secId s) (secUsername s) (secPasswordLength s)
                 (secExcludePunctuation s) (secIncludeSpace s)
                 (secReaders s ++ [grantee]))
  | _ => x
  end.

(** Modelled from the spec: lib/constructs/database/database-instance-construct.ts
    is missing. The component declares one managed relational database
    (engine and version, instance shape, storage bounds, replication mode,
    backup retention, encryption flag) in the isolated subnets, with a
    generated credential kept in a secret store. *)
Definition RdsConstruct (props : RdsConstructProps) : M RdsConstructT :=
  let* secret :=
    create (RSecret
      (mkSecret (Js.or (credentialsSecretName props) "DatabaseCredentials")
         (credentialsUsername props) (credentialsPasswordLength props)
         (credentialsExcludePunctuation props) (credentialsIncludeSpace props) [])) in
  let* database :=
    create (RDatabaseInstance
      (mkDatabaseInstance (Js.or (resourceName props) "Database") (vpc props)
         PRIVATE_ISOLATED (subnetGroupName props) (securityGroup props)
         (engine props) (engineVersion props)
         (instanceClass props, instanceSize props)
         (allocatedStorage props) (maxAllocatedStorage props) (multiAz props)
         (databaseName props) (backupRetention props) (preferredBackupWindow props)
         (preferredMaintenanceWindow props) (deletionProtection props)
         (removalPolicy props) (storageEncrypted props)
         (autoMinorVersionUpgrade props) secret
         (cloudWatchLogsExports props) (cloudWatchLogsRetention props))) in
  ret (mkConstruct database secret).

End Rds.

(** ** lib/constructs/outputs/outputs-construct.ts

    The class [OutputsConstruct] as its source has it, kept in the sources
    beside the application tier's boot script. The constructs it is handed
    are read through their attributes only, so the props carry those
    attributes; the construct creates [CfnOutput]s and nothing else, so its
    run is the list of the outputs it creates, in order. *)

Module CfnOutputs.

Record Vpc := mkVpc {
  vpcId : string;
  vpcCidrBlock : string;
}.

Record ApplicationLoadBalancer := mkApplicationLoadBalancer {
  loadBalancerDnsName : string;
  loadBalancerArn : string;
}.

Record AutoScalingGroup := mkAutoScalingGroup {
  autoScalingGroupName : string;
  autoScalingGroupArn : string;
}.

Record Secret := mkSecret {
  secretArn : string;
}.

Record DatabaseInstance := mkDatabaseInstance {
  dbInstanceEndpointAddress : string;
  dbInstanceEndpointPort : string;
  secret : option Secret;
}.

Record OutputsConstructProps := mkProps {
  vpc : Vpc;
  loadBalancer : ApplicationLoadBalancer;
  webTierAutoScalingGroup : AutoScalingGroup;
  appTierAutoScalingGroup : AutoScalingGroup;
  database : DatabaseInstance;
  environment : string;
}.

(** [new cdk.CfnOutput(this, id, { value, description, exportName })]. *)
Record CfnOutput := mkCfnOutput {
  id : string;
  value : string;
  description : string;
  exportName : option string;
}.

Definition exportPrefix (props : OutputsConstructProps) : string :=
  environment props +:+ "-HighlyAvailable3Tier".

(** [props.database.secret?.secretArn || 'N/A']. *)
Definition databaseSecretArn (props : OutputsConstructProps) : string :=
  Js.or (option_map secretArn (secret (database props))) "N/A".

Definition OutputsConstruct (props : OutputsConstructProps) : list CfnOutput :=
  let exportPrefix := exportPrefix props in
  [ mkCfnOutput "VpcId" (vpcId (vpc props)) "VPC ID"
      (Some (exportPrefix +:+ "-VpcId"));
    mkCfnOutput "VpcCidr" (vpcCidrBlock (vpc props)) "VPC CIDR Block"
      (Some (exportPrefix +:+ "-VpcCidr"));
    mkCfnOutput "LoadBalancerDNS" (loadBalancerDnsName (loadBalancer props))
      "Application Load Balancer DNS Name (Use this URL to access your application)"
      (Some (exportPrefix +:+ "-LoadBalancerDNS"));
    mkCfnOutput "LoadBalancerARN" (loadBalancerArn (loadBalancer props))
      "Application Load Balancer ARN"
      (Some (exportPrefix +:+ "-LoadBalancerARN"));
    mkCfnOutput "ApplicationURL" ("http://" +:+ loadBalancerDnsName (loadBalancer props))
      "Full Application URL" None;
    mkCfnOutput "WebTierAutoScalingGroupName"
      (autoScalingGroupName (webTierAutoScalingGroup props))
      "Web Tier Auto Scaling Group Name"
      (Some (exportPrefix +:+ "-WebTierAutoScalingGroupName"));
    mkCfnOutput "WebTierAutoScalingGroupARN"
      (autoScalingGroupArn (webTierAutoScalingGroup props))
      "Web Tier Auto Scaling Group ARN"
      (Some (exportPrefix +:+ "-WebTierAutoScalingGroupARN"));
    mkCfnOutput "AppTierAutoScalingGroupName"
      (autoScalingGroupName (appTierAutoScalingGroup props))
      "Application Tier Auto Scaling Group Name"
      (Some (exportPrefix +:+ "-AppTierAutoScalingGroupName"));
    mkCfnOutput "AppTierAutoScalingGroupARN"
      (autoScalingGroupArn (appTierAutoScalingGroup props))
      "Application Tier Auto Scaling Group ARN"
      (Some (exportPrefix +:+ "-AppTierAutoScalingGroupARN"));
    mkCfnOutput "DatabaseEndpoint" (dbInstanceEndpointAddress (database props))
      "RDS Database Endpoint Address"
      (Some (exportPrefix +:+ "-DatabaseEndpoint"));
    mkCfnOutput "DatabasePort" (dbInstanceEndpointPort (database props))
      "RDS Database Port"
      (Some (exportPrefix +:+ "-DatabasePort"));
    mkCfnOutput "DatabaseSecretArn" (databaseSecretArn props)
      "ARN of the secret containing database credentials" None ].

(** The output created under a given construct id. *)
Definition outputNamed (name : string) (outputs : list CfnOutput) : option CfnOutput :=
  List.find (fun o => if decide (id o = name) then true else false) outputs.

(** The export names a list of outputs declares. *)
Definition exportNames (outputs : list CfnOutput) : list string :=
  omap exportName outputs.

End CfnOutputs.

(** ** config/stack-config.ts

    The loader is not at hand; the configuration value is a parameter of the
    assembly, with the fields [stack.ts] reads. *)

Module StackConfig.

Record Environment := mkEnvironment {
  name : string;
  isProd : bool;
}.

Record Subnets := mkSubnets {
  publicSubnetName : string;
  privateSubnetName : string;
}.

Record FlowLogs := mkFlowLogs {
  trafficType : string;
  logGroupRemovalPolicy : string;
}.

Record VpcSettings := mkVpcSettings {
  cidr : string;
  maxAzs : Z;
  natGatewaysCount : Z;
  subnetCidrMask : Z;
  enableFlowLogs : bool;
  flowLogsRetentionDays : Z;
  subnets : Subnets;
  flowLogs : FlowLogs;
}.

Record Security := mkSecurity {
  allowHttpFrom : string;
  httpPort : Z;
  httpsPort : Z;
  appTierPort : Z;
  dbPort : Z;
  albAllowAllOutbound : option bool;
  webTierAllowAllOutbound : option bool;
  appTierAllowAllOutbound : option bool;
  dbAllowAllOutbound : option bool;
  allowPackageDownloads : option bool;
}.

Record AclRules := mkAclRules {
  httpInboundRuleNumber : Z;
  enableHttpInbound : bool;
  httpsInboundRuleNumber : Z;
  enableHttpsInbound : bool;
  ephemeralInboundRuleNumber : Z;
  enableEphemeralInbound : bool;
  allOutboundRuleNumber : Z;
  enableAllOutbound : bool;
  privateHttpRuleNumber : Z;
  enablePrivateHttpInbound : bool;
  privateDatabaseRuleNumber : Z;
  enablePrivateDatabaseInbound : bool;
  privateEphemeralRuleNumber : Z;
  enablePrivateEphemeralInbound : bool;
  enablePrivateAllOutbound : bool;
}.

Record EphemeralPorts := mkEphemeralPorts {
  start : Z;
  end_ : Z;
}.

Record NetworkAcls := mkNetworkAcls {
  rules : AclRules;
  ephemeralPorts : EphemeralPorts;
}.

Record Network := mkNetwork {
  vpc : VpcSettings;
  security : Security;
  networkAcls : NetworkAcls;
}.

Record AlbSettings := mkAlbSettings {
  internetFacing : bool;
  albDeletionProtection : bool;
  idleTimeout : Z;
  http2Enabled : bool;
  targetGroupPort : Z;
  targetGroupProtocol : string;
  targetType : string;
  listenerPort : Z;
  listenerProtocol : string;
  deregistrationDelay : Z;
  healthCheck : list (string * string);
}.

Record Tier := mkTier {
  minCapacity : Z;
  maxCapacity : Z;
  desiredCapacity : Z;
  instanceClass : string;
  instanceSize : string;
  machineImage : string;
  healthCheckType : string;
  healthCheckGracePeriod : Z;
  cooldown : Z;
  targetCpuUtilization : Z;
  requireImdsv2 : option bool;
  subnetType : option string;
}.

Record Storage := mkStorage {
  volumeSize : Z;
  volumeType : string;
  encrypted : bool;
  deleteOnTermination : bool;
  iops : Z;
  deviceName : string;
}.

Record Compute := mkCompute {
  alb : AlbSettings;
  webTier : Tier;
  appTier : Tier;
  storage : Storage;
}.

Record Credentials := mkCredentials {
  username : string;
  passwordLength : Z;
  excludePunctuation : bool;
  includeSpace : bool;
}.

Record CloudWatchLogs := mkCloudWatchLogs {
  exports : list string;
  retention : Z;
}.

Record Database := mkDatabase {
  engine : string;
  engineVersion : string;
  dbInstanceClass : string;
  dbInstanceSize : string;
  allocatedStorage : Z;
  maxAllocatedStorage : Z;
  multiAz : bool;
  databaseName : string;
  backupRetention : Z;
  preferredBackupWindow : string;
  preferredMaintenanceWindow : string;
  deletionProtection : bool;
  removalPolicy : string;
  storageEncrypted : bool;
  autoMinorVersionUpgrade : bool;
  credentials : Credentials;
  cloudWatchLogs : CloudWatchLogs;
}.

Record ResourceNames := mkResourceNames {
  vpcName : option string;
  vpcFlowLogsGroup : option string;
  vpcFlowLog : option string;
  publicNetworkAcl : option string;
  privateNetworkAcl : option string;
  albSecurityGroup : option string;
  webTierSecurityGroup : option string;
  appTierSecurityGroup : option string;
  databaseSecurityGroup : option string;
  applicationLoadBalancer : option string;
  webTierTargetGroup : option string;
  httpListener : option string;
  webTierAutoScalingGroup : option string;
  webTierCpuScalingPolicy : option string;
  appTierAutoScalingGroup : option string;
  appTierCpuScalingPolicy : option string;
  databaseName_ : option string;
  databaseSubnetGroup : option string;
  databaseCredentials : option string;
}.

(** The configuration document. [tags] keeps the entries of the JSON object
    in their order. Fields that occur twice under different sections
    ([deletionProtection], [instanceClass], [instanceSize]) carry the
    section in their name, [end] is [end_], and [resourceNames.vpc] and
    [resourceNames.database] are [vpcName] and [databaseName_]. *)
Record t := mkStackConfig {
  environment : Environment;
  network : Network;
  compute : Compute;
  database : Database;
  resourceNames : ResourceNames;
  tags : list (string * string);
}.

End StackConfig.

(** ** lib/stack.ts *)

Module Stack.
Import Cdk.

(** What one evaluation of the stack hands to the deployment tool. *)
Record Graph := mkGraph {
  stackId : string;
  stackTags : list (string * string);
  resources : Store;
}.

(** The tags applied to the stack: one [Tags.of(this).add] per entry of the
    configured tags, then the environment tag. *)
Definition tagsOf (cfg : StackConfig.t) : list (string * string) :=
  StackConfig.tags cfg
  ++ [("Environment", StackConfig.name (StackConfig.environment cfg))].

(** The props object of each construct, as the constructor writes it. *)

Definition vpcProps (cfg : StackConfig.t) : VpcNetwork.VpcConstructProps :=
  let vpc := StackConfig.vpc (StackConfig.network cfg) in
  let resourceNames := StackConfig.resourceNames cfg in
  VpcNetwork.mkProps
    (StackConfig.cidr vpc)
    (StackConfig.maxAzs vpc)
    (StackConfig.natGatewaysCount vpc)
    (StackConfig.subnetCidrMask vpc)
    (StackConfig.enableFlowLogs vpc)
    (StackConfig.flowLogsRetentionDays vpc)
    (StackConfig.publicSubnetName (StackConfig.subnets vpc))
    (StackConfig.privateSubnetName (StackConfig.subnets vpc))
    (StackConfig.trafficType (StackConfig.flowLogs vpc))
    (StackConfig.logGroupRemovalPolicy (StackConfig.flowLogs vpc))
    (StackConfig.vpcName resourceNames)
    (StackConfig.vpcFlowLogsGroup resourceNames)
    (StackConfig.vpcFlowLog resourceNames).

Definition networkAclProps (cfg : StackConfig.t)
    (vpcConstruct : VpcNetwork.VpcConstructT) : NetworkAcls.NetworkAclConstructProps :=
  let network := StackConfig.network cfg in
  let security := StackConfig.security network in
  let rules := StackConfig.rules (StackConfig.networkAcls network) in
  let ephemeralPorts := StackConfig.ephemeralPorts (StackConfig.networkAcls network) in
  let resourceNames := StackConfig.resourceNames cfg in
  NetworkAcls.mkProps
    (VpcNetwork.vpc vpcConstruct)
    (StackConfig.cidr (StackConfig.vpc network))
    (StackConfig.httpPort security)
    (StackConfig.httpsPort security)
    (StackConfig.dbPort security)
    (StackConfig.httpInboundRuleNumber rules)
    (StackConfig.enableHttpInbound rules)
    (StackConfig.httpsInboundRuleNumber rules)
    (StackConfig.enableHttpsInbound rules)
    (StackConfig.ephemeralInboundRuleNumber rules)
    (StackConfig.enableEphemeralInbound rules)
    (StackConfig.allOutboundRuleNumber rules)
    (StackConfig.enableAllOutbound rules)
    (StackConfig.privateHttpRuleNumber rules)
    (StackConfig.enablePrivateHttpInbound rules)
    (StackConfig.privateDatabaseRuleNumber rules)
    (StackConfig.enablePrivateDatabaseInbound rules)
    (StackConfig.privateEphemeralRuleNumber rules)
    (StackConfig.enablePrivateEphemeralInbound rules)
    (StackConfig.enablePrivateAllOutbound rules)
    (StackConfig.start ephemeralPorts)
    (StackConfig.end_ ephemeralPorts)
    (StackConfig.publicNetworkAcl resourceNames)
    (StackConfig.privateNetworkAcl resourceNames).

Definition securityGroupsProps (cfg : StackConfig.t)
    (vpcConstruct : VpcNetwork.VpcConstructT)
    : SecurityGroups.SecurityGroupsConstructProps :=
  let security := StackConfig.security (StackConfig.network cfg) in
  let resourceNames := StackConfig.resourceNames cfg in
  SecurityGroups.mkProps
    (VpcNetwork.vpc vpcConstruct)
    (StackConfig.allowHttpFrom security)
    (StackConfig.httpPort security)
    (StackConfig.httpsPort security)
    (StackConfig.appTierPort security)
    (StackConfig.dbPort security)
    (StackConfig.albAllowAllOutbound security)
    (StackConfig.webTierAllowAllOutbound security)
    (StackConfig.appTierAllowAllOutbound security)
    (StackConfig.dbAllowAllOutbound security)
    (StackConfig.allowPackageDownloads security)
    (StackConfig.albSecurityGroup resourceNames)
    (StackConfig.webTierSecurityGroup resourceNames)
    (StackConfig.appTierSecurityGroup resourceNames)
    (StackConfig.databaseSecurityGroup resourceNames).

Definition albProps (cfg : StackConfig.t) (vpcConstruct : VpcNetwork.VpcConstructT)
    (securityGroupsConstruct : SecurityGroups.SecurityGroupsConstructT)
    : Alb.AlbConstructProps :=
  let alb := StackConfig.alb (StackConfig.compute cfg) in
  let resourceNames := StackConfig.resourceNames cfg in
  Alb.mkProps
    (VpcNetwork.vpc vpcConstruct)
    (SecurityGroups.albSecurityGroup securityGroupsConstruct)
    (StackConfig.internetFacing alb)
    (StackConfig.albDeletionProtection alb)
    (StackConfig.idleTimeout alb)
    (StackConfig.http2Enabled alb)
    (StackConfig.targetGroupPort alb)
    (StackConfig.targetGroupProtocol alb)
    (StackConfig.targetType alb)
    (StackConfig.listenerPort alb)
    (StackConfig.listenerProtocol alb)
    (StackConfig.deregistrationDelay alb)
    (StackConfig.healthCheck alb)
    (StackConfig.applicationLoadBalancer resourceNames)
    (StackConfig.webTierTargetGroup resourceNames)
    (StackConfig.httpListener resourceNames).

(** The path of the web tier's boot script:
    [path.join(__dirname, '..', 'scripts', `web-tier-user-data-${environment}.sh`)]. *)
Definition webTierUserData (e : Env) (environment : string) : string :=
  Path.join [dirname e; ".."; "scripts"; "web-tier-user-data-" +:+ environment +:+ ".sh"].

Definition webTierProps (cfg : StackConfig.t) (e : Env)
    (vpcConstruct : VpcNetwork.VpcConstructT)
    (securityGroupsConstruct : SecurityGroups.SecurityGroupsConstructT)
    (albConstruct : Alb.AlbConstructT) : WebTierAsg.WebTierAsgConstructProps :=
  let environment := StackConfig.name (StackConfig.environment cfg) in
  let webTier := StackConfig.webTier (StackConfig.compute cfg) in
  let storage := StackConfig.storage (StackConfig.compute cfg) in
  let resourceNames := StackConfig.resourceNames cfg in
  WebTierAsg.mkProps
    (VpcNetwork.vpc vpcConstruct)
    (SecurityGroups.webTierSecurityGroup securityGroupsConstruct)
    (Alb.targetGroup albConstruct)
    (StackConfig.minCapacity webTier)
    (StackConfig.maxCapacity webTier)
    (StackConfig.desiredCapacity webTier)
    (StackConfig.instanceClass webTier)
    (StackConfig.instanceSize webTier)
    (StackConfig.machineImage webTier)
    (StackConfig.healthCheckType webTier)
    (StackConfig.healthCheckGracePeriod webTier)
    (StackConfig.cooldown webTier)
    (StackConfig.targetCpuUtilization webTier)
    (StackConfig.requireImdsv2 webTier)
    (StackConfig.subnetType webTier)
    (StackConfig.volumeSize storage)
    (StackConfig.volumeType storage)
    (StackConfig.encrypted storage)
    (StackConfig.deleteOnTermination storage)
    (StackConfig.iops storage)
    (StackConfig.deviceName storage)
    (StackConfig.webTierAutoScalingGroup resourceNames)
    (StackConfig.webTierCpuScalingPolicy resourceNames)
    (Some (webTierUserData e environment)).

(** The path of the application tier's boot script. *)
Definition appTierUserData (e : Env) (environment : string) : string :=
  Path.join [dirname e; ".."; "scripts"; "app-tier-user-data-" +:+ environment +:+ ".sh"].

Definition appTierProps (cfg : StackConfig.t) (e : Env)
    (vpcConstruct : VpcNetwork.VpcConstructT)
    (securityGroupsConstruct : SecurityGroups.SecurityGroupsConstructT)
    : AppTierAsg.AppTierAsgConstructProps :=
  let environment := StackConfig.name (StackConfig.environment cfg) in
  let appTier := StackConfig.appTier (StackConfig.compute cfg) in
  let storage := StackConfig.storage (StackConfig.compute cfg) in
  let resourceNames := StackConfig.resourceNames cfg in
  AppTierAsg.mkProps
    (VpcNetwork.vpc vpcConstruct)
    (SecurityGroups.appTierSecurityGroup securityGroupsConstruct)
    (StackConfig.minCapacity appTier)
    (StackConfig.maxCapacity appTier)
    (StackConfig.desiredCapacity appTier)
    (StackConfig.instanceClass appTier)
    (StackConfig.instanceSize appTier)
    (StackConfig.machineImage appTier)
    (StackConfig.healthCheckType appTier)
    (StackConfig.healthCheckGracePeriod appTier)
    (StackConfig.cooldown appTier)
    (StackConfig.targetCpuUtilization appTier)
    (StackConfig.volumeSize storage)
    (StackConfig.volumeType storage)
    (StackConfig.encrypted storage)
    (StackConfig.deleteOnTermination storage)
    (StackConfig.iops storage)
    (StackConfig.deviceName storage)
    (StackConfig.requireImdsv2 appTier)
    (StackConfig.subnetType appTier)
    (StackConfig.appTierAutoScalingGroup resourceNames)
    (StackConfig.appTierCpuScalingPolicy resourceNames)
    (Some (appTierUserData e environment)).

Definition rdsProps (cfg : StackConfig.t) (vpcConstruct : VpcNetwork.VpcConstructT)
    (securityGroupsConstruct : SecurityGroups.SecurityGroupsConstructT)
    : Rds.RdsConstructProps :=
  let database := StackConfig.database cfg in
  let resourceNames := StackConfig.resourceNames cfg in
  Rds.mkProps
    (VpcNetwork.vpc vpcConstruct)
    (SecurityGroups.dbSecurityGroup securityGroupsConstruct)
    (StackConfig.engine database)
    (StackConfig.engineVersion database)
    (StackConfig.dbInstanceClass database)
    (StackConfig.dbInstanceSize database)
    (StackConfig.allocatedStorage database)
    (StackConfig.maxAllocatedStorage database)
    (StackConfig.multiAz database)
    (StackConfig.databaseName database)
    (StackConfig.backupRetention database)
    (StackConfig.preferredBackupWindow database)
    (StackConfig.preferredMaintenanceWindow database)
    (StackConfig.deletionProtection database)
    (StackConfig.removalPolicy database)
    (StackConfig.storageEncrypted database)
    (StackConfig.autoMinorVersionUpgrade database)
    (StackConfig.username (StackConfig.credentials database))
    (StackConfig.passwordLength (StackConfig.credentials database))
    (StackConfig.excludePunctuation (StackConfig.credentials database))
    (StackConfig.includeSpace (StackConfig.credentials database))
    (StackConfig.exports (StackConfig.cloudWatchLogs database))
    (StackConfig.retention (StackConfig.cloudWatchLogs database))
    (StackConfig.databaseName_ resourceNames)
    (StackConfig.databaseSubnetGroup resourceNames)
    (StackConfig.databaseCredentials resourceNames).

(** The constructs handed to the outputs construct, as it reads them: each
    attribute it reads is known at deployment only. The secret of the
    database instance is the one the database construct exposes. *)

Definition vpcOf (vpc : Ref) : CfnOutputs.Vpc :=
  CfnOutputs.mkVpc (attribute vpc "vpcId") (attribute vpc "vpcCidrBlock").

Definition loadBalancerOf (loadBalancer : Ref) : CfnOutputs.ApplicationLoadBalancer :=
  CfnOutputs.mkApplicationLoadBalancer
    (attribute loadBalancer "loadBalancerDnsName")
    (attribute loadBalancer "loadBalancerArn").

Definition autoScalingGroupOf (group : Ref) : CfnOutputs.AutoScalingGroup :=
  CfnOutputs.mkAutoScalingGroup
    (attribute group "autoScalingGroupName")
    (attribute group "autoScalingGroupArn").

Definition databaseOf (rdsConstruct : Rds.RdsConstructT) : CfnOutputs.DatabaseInstance :=
  CfnOutputs.mkDatabaseInstance
    (attribute (Rds.database rdsConstruct) "dbInstanceEndpointAddress")
    (attribute (Rds.database rdsConstruct) "dbInstanceEndpointPort")
    (Some (CfnOutputs.mkSecret (attribute (Rds.secret rdsConstruct) "secretArn"))).

Definition outputsProps (cfg : StackConfig.t) (vpcConstruct : VpcNetwork.VpcConstructT)
    (albConstruct : Alb.AlbConstructT)
    (webTierAsgConstruct : WebTierAsg.WebTierAsgConstructT)
    (appTierAsgConstruct : AppTierAsg.AppTierAsgConstructT)
    (rdsConstruct : Rds.RdsConstructT) : CfnOutputs.OutputsConstructProps :=
  CfnOutputs.mkProps
    (vpcOf (VpcNetwork.vpc vpcConstruct))
    (loadBalancerOf (Alb.loadBalancer albConstruct))
    (autoScalingGroupOf (WebTierAsg.autoScalingGroup webTierAsgConstruct))
    (autoScalingGroupOf (AppTierAsg.autoScalingGroup appTierAsgConstruct))
    (databaseOf rdsConstruct)
    (StackConfig.name (StackConfig.environment cfg)).

(** The outputs of the outputs construct, as descriptors of the store. *)
Definition outputResources (outputs : list CfnOutputs.CfnOutput) : list Resource :=
  map (fun o => ROutput (CfnOutputs.id o) (CfnOutputs.value o) (CfnOutputs.description o)
                  (CfnOutputs.exportName o))
    outputs.

(** The body of the constructor, after [super(scope, id, props)]: the eight
    numbered steps of the source. *)
Definition constructor (cfg : StackConfig.t) : M unit :=
  let* e := ask in
  let* vpcConstruct := VpcNetwork.VpcConstruct (vpcProps cfg) in
  NetworkAcls.NetworkAclConstruct (networkAclProps cfg vpcConstruct) ;;
  let* securityGroupsConstruct :=
    SecurityGroups.SecurityGroupsConstruct (securityGroupsProps cfg vpcConstruct) in
  let* albConstruct :=
    Alb.AlbConstruct (albProps cfg vpcConstruct securityGroupsConstruct) in
  let* webTierAsgConstruct :=
    WebTierAsg.WebTierAsgConstruct
      (webTierProps cfg e vpcConstruct securityGroupsConstruct albConstruct) in
  let* appTierAsgConstruct :=
    AppTierAsg.AppTierAsgConstruct
      (appTierProps cfg e vpcConstruct securityGroupsConstruct) in
  let* rdsConstruct :=
    Rds.RdsConstruct (rdsProps cfg vpcConstruct securityGroupsConstruct) in
  mutate (Rds.secret rdsConstruct)
    (Rds.grantRead (AppTierAsg.autoScalingGroup appTierAsgConstruct)) ;;
  createAll
    (outputResources
       (CfnOutputs.OutputsConstruct
          (outputsProps cfg vpcConstruct albConstruct webTierAsgConstruct
             appTierAsgConstruct rdsConstruct))).

(** [new HighlyAvailableStack(scope, id)]: the constructor runs in the fresh
    scope of the stack. *)
Definition HighlyAvailableStack (e : Env) (id : string) (cfg : StackConfig.t)
    : Result Graph :=
  match constructor cfg e [] with
  | Ok (_, s) => Ok (mkGraph id (tagsOf cfg) s)
  | Err msg => Err msg
  end.

End Stack.

(** ** Reading a resource graph *)

Module Observe.
Import Cdk.

Definition isVpc (r : Resource) : bool :=
  match r with RVpc _ => true | _ => false end.
Definition isSubnet (r : Resource) : bool :=
  match r with RSubnet _ => true | _ => false end.
Definition isNatGateway (r : Resource) : bool :=
  match r with RNatGateway _ => true | _ => false end.
Definition isSecurityGroup (r : Resource) : bool :=
  match r with RSecurityGroup _ => true | _ => false end.
Definition isLoadBalancer (r : Resource) : bool :=
  match r with RLoadBalancer _ => true | _ => false end.
Definition isAutoScalingGroup (r : Resource) : bool :=
  match r with RAutoScalingGroup _ => true | _ => false end.
Definition isDatabaseInstance (r : Resource) : bool :=
  match r with RDatabaseInstance _ => true | _ => false end.

(** The number of resources of one kind, as [resourceCountIs] counts them. *)
Definition count (kind : Resource -> bool) (s : Store) : nat :=
  length (List.filter kind s).

Definition securityGroupAt (s : Store) (ref : Ref) : option SecurityGroup :=
  match s !! ref with
  | Some (RSecurityGroup g) => Some g
  | _ => None
  end.

Definition ingressOf (s : Store) (ref : Ref) : list Rule :=
  match securityGroupAt s ref with
  | Some g => sgIngress g
  | None => []
  end.

Definition egressOf (s : Store) (ref : Ref) : list Rule :=
  match securityGroupAt s ref with
  | Some g => sgEgress g
  | None => []
  end.

Definition autoScalingGroupAt (s : Store) (ref : Ref) : option AutoScalingGroup :=
  match s !! ref with
  | Some (RAutoScalingGroup a) => Some a
  | _ => None
  end.

Definition secretAt (s : Store) (ref : Ref) : option Secret :=
  match s !! ref with
  | Some (RSecret x) => Some x
  | _ => None
  end.

(** The security groups of a graph, in creation order. *)
Definition securityGroupsOf (s : Store) : list SecurityGroup :=
  omap (fun r => match r with RSecurityGroup g => Some g | _ => None end) s.

(** The scaling groups of a graph, in creation order. *)
Definition autoScalingGroupsOf (s : Store) : list AutoScalingGroup :=
  omap (fun r => match r with RAutoScalingGroup a => Some a | _ => None end) s.


(** The chain of tiers: load balancer, web tier, application tier, database. *)
Inductive Tier := EDGE | PRESENTATION | BUSINESS | DATA.

Definition following (t : Tier) : option Tier :=
  match t with
  | EDGE => Some PRESENTATION
  | PRESENTATION => Some BUSINESS
  | BUSINESS => Some DATA
  | DATA => None
  end.

Definition groupOf (c : SecurityGroups.SecurityGroupsConstructT) (t : Tier) : Ref :=
  match t with
  | EDGE => SecurityGroups.albSecurityGroup c
  | PRESENTATION => SecurityGroups.webTierSecurityGroup c
  | BUSINESS => SecurityGroups.appTierSecurityGroup c
  | DATA => SecurityGroups.dbSecurityGroup c
  end.

(** The port a tier is reached on. *)
Definition portOf (props : SecurityGroups.SecurityGroupsConstructProps) (t : Tier) : Z :=
  match t with
  | EDGE => SecurityGroups.httpPort props
  | PRESENTATION => SecurityGroups.httpPort props
  | BUSINESS => SecurityGroups.appTierPort props
  | DATA => SecurityGroups.dbPort props
  end.

(** The four outbound flags of the security-group construct, by tier. *)
Definition allowAllOutboundOf (props : SecurityGroups.SecurityGroupsConstructProps)
    (t : Tier) : option bool :=
  match t with
  | EDGE => SecurityGroups.albAllowAllOutbound props
  | PRESENTATION => SecurityGroups.webTierAllowAllOutbound props
  | BUSINESS => SecurityGroups.appTierAllowAllOutbound props
  | DATA => SecurityGroups.dbAllowAllOutbound props
  end.

(** Some rule of the list allows the peer. *)
Definition allowsPeer (rules : list Rule) (peer : Peer) : Prop :=
  exists r, In r rules /\ rulePeer r = peer.

(** Some rule of the list allows the peer on the TCP port. *)
Definition allowsOn (rules : list Rule) (peer : Peer) (port : Z) : Prop :=
  exists r, In r rules /\ rulePeer r = peer /\ ruleConnection r = Port_tcp port.

(** The rule is bound to an address range. *)
Definition boundToCidr (r : Rule) : Prop :=
  exists cidr, rulePeer r = CidrIPv4 cidr.

End Observe.

(** ** What each construct leaves in the store

    Closed forms of the runs: the descriptors a construct has appended when
    it returns, given the number [n] of constructs the scope held before. *)

Module Derived.
Import Cdk.

(** The boot script a compute construct reads, when it is given a path. *)
Definition userData (e : Env) (path : option string) : Result (list string) :=
  match Js.truthy path with
  | Some p =>
      match files e p with
      | Some (File script) => Ok [script]
      | Some Directory => Err "EISDIR: illegal operation on a directory, read"
      | None => Err ("ENOENT: no such file or directory, open '" +:+ p +:+ "'")
      end
  | None => Ok []
  end.

Definition vpcResources (props : VpcNetwork.VpcConstructProps) (n : nat)
    : list Resource :=
  let zs := VpcNetwork.zones (VpcNetwork.maxAzs props) in
  [RVpc (mkVpc (Js.or (VpcNetwork.vpcName props) "Vpc") (VpcNetwork.cidr props)
           (VpcNetwork.maxAzs props) (VpcNetwork.subnetCidrMask props))]
  ++ VpcNetwork.subnetGroup n (VpcNetwork.publicSubnetName props) PUBLIC zs
  ++ VpcNetwork.subnetGroup n (VpcNetwork.privateSubnetName props) PRIVATE_WITH_EGRESS zs
  ++ VpcNetwork.subnetGroup n "Isolated" PRIVATE_ISOLATED zs
  ++ map (fun z => RNatGateway (mkNatGateway n z)) (VpcNetwork.natZones props)
  ++ (if VpcNetwork.enableFlowLogs props then
        [RFlowLog
           (mkFlowLog (Js.or (VpcNetwork.flowLogName props) "VpcFlowLog") n
              (Js.or (VpcNetwork.flowLogsGroupName props) "VpcFlowLogsGroup")
              (VpcNetwork.flowLogsRetentionDays props)
              (VpcNetwork.flowLogsTrafficType props)
              (VpcNetwork.flowLogsRemovalPolicy props))]
      else []).

(** The egress rules a group holds of the ones it was handed: none when it
    allows all outbound traffic. *)
Definition held (allowAllOutbound : option bool) (rules : list Rule) : list Rule :=
  if Js.nullish allowAllOutbound false then [] else rules.

(** The rules added for package downloads: one per port, and one only when
    the two ports are the same. *)
Definition packageDownloadRules (props : SecurityGroups.SecurityGroupsConstructProps)
    : list Rule :=
  if Js.nullish (SecurityGroups.allowPackageDownloads props) true then
    mkRule Peer_anyIpv4 (Port_tcp (SecurityGroups.httpPort props))
      "Allow HTTP for package downloads"
    :: (if Z.eqb (SecurityGroups.httpsPort props) (SecurityGroups.httpPort props) then []
        else [ mkRule Peer_anyIpv4 (Port_tcp (SecurityGroups.httpsPort props))
                 "Allow HTTPS for package downloads" ])
  else [].

Definition albGroup (props : SecurityGroups.SecurityGroupsConstructProps) (n : nat)
    : SecurityGroup :=
  mkSecurityGroup
    (sanitizeId (Js.or (SecurityGroups.albSecurityGroupName props) "AlbSecurityGroup"))
    (SecurityGroups.vpc props) "Security group for Application Load Balancer"
    (Js.nullish (SecurityGroups.albAllowAllOutbound props) false)
    [ mkRule (CidrIPv4 (SecurityGroups.allowHttpFrom props))
        (Port_tcp (SecurityGroups.httpPort props)) "Allow HTTP traffic from internet" ]
    (held (SecurityGroups.albAllowAllOutbound props)
       [ mkRule (SecurityGroupPeer (n + 1)%nat) (Port_tcp (SecurityGroups.httpPort props))
           "Allow outbound to Web Tier instances" ]).

Definition webTierGroup (props : SecurityGroups.SecurityGroupsConstructProps) (n : nat)
    : SecurityGroup :=
  mkSecurityGroup
    (sanitizeId (Js.or (SecurityGroups.webTierSecurityGroupName props)
                   "WebTierSecurityGroup"))
    (SecurityGroups.vpc props) "Security group for Web Tier instances"
    (Js.nullish (SecurityGroups.webTierAllowAllOutbound props) false)
    [ mkRule (SecurityGroupPeer n) (Port_tcp (SecurityGroups.httpPort props))
        "Allow HTTP traffic from ALB only" ]
    (held (SecurityGroups.webTierAllowAllOutbound props)
       (mkRule (SecurityGroupPeer (n + 2)%nat)
          (Port_tcp (SecurityGroups.appTierPort props))
          "Allow outbound to App Tier instances"
        :: packageDownloadRules props)).

Definition appTierGroup (props : SecurityGroups.SecurityGroupsConstructProps) (n : nat)
    : SecurityGroup :=
  mkSecurityGroup
    (sanitizeId (Js.or (SecurityGroups.appTierSecurityGroupName props)
                   "AppTierSecurityGroup"))
    (SecurityGroups.vpc props) "Security group for Application Tier instances"
    (Js.nullish (SecurityGroups.appTierAllowAllOutbound props) false)
    [ mkRule (SecurityGroupPeer (n + 1)%nat) (Port_tcp (SecurityGroups.appTierPort props))
        "Allow traffic from Web Tier only" ]
    (held (SecurityGroups.appTierAllowAllOutbound props)
       (mkRule (SecurityGroupPeer (n + 3)%nat) (Port_tcp (SecurityGroups.dbPort props))
          "Allow outbound to database"
        :: packageDownloadRules props)).

Definition dbGroup (props : SecurityGroups.SecurityGroupsConstructProps) (n : nat)
    : SecurityGroup :=
  mkSecurityGroup
    (sanitizeId (Js.or (SecurityGroups.databaseSecurityGroupName props)
                   "DatabaseSecurityGroup"))
    (SecurityGroups.vpc props) "Security group for RDS database"
    (Js.nullish (SecurityGroups.dbAllowAllOutbound props) false)
    [ mkRule (SecurityGroupPeer (n + 2)%nat) (Port_tcp (SecurityGroups.dbPort props))
        "Allow MySQL/MariaDB traffic from App Tier instances only" ]
    [].

Definition securityGroupResources (props : SecurityGroups.SecurityGroupsConstructProps)
    (n : nat) : list Resource :=
  [ RSecurityGroup (albGroup props n);
    RSecurityGroup (webTierGroup props n);
    RSecurityGroup (appTierGroup props n);
    RSecurityGroup (dbGroup props n) ].

Definition securityGroupRefs (n : nat) : SecurityGroups.SecurityGroupsConstructT :=
  SecurityGroups.mkConstruct n (n + 1)%nat (n + 2)%nat (n + 3)%nat.

Definition albResources (props : Alb.AlbConstructProps) (n : nat) : list Resource :=
  [ RLoadBalancer
      (mkLoadBalancer (Js.or (Alb.loadBalancerName props) "ApplicationLoadBalancer")
         (Alb.vpc props) (Alb.securityGroup props) (Alb.internetFacing props)
         (Alb.deletionProtection props) (Alb.idleTimeout props) (Alb.http2Enabled props));
    RTargetGroup
      (mkTargetGroup (Js.or (Alb.targetGroupName props) "WebTierTargetGroup")
         (Alb.vpc props) (Alb.targetGroupPort props) (Alb.targetGroupProtocol props)
         (Alb.targetType props) (Alb.deregistrationDelay props) (Alb.healthCheck props));
    RListener
      (mkListener (Js.or (Alb.listenerName props) "HttpListener") n
         (Alb.listenerPort props) (Alb.listenerProtocol props) [(n + 1)%nat]) ].

Definition albRefs (n : nat) : Alb.AlbConstructT :=
  Alb.mkConstruct n (n + 1)%nat.

Definition webTierGroupOf (props : WebTierAsg.WebTierAsgConstructProps)
    (script : list string) : AutoScalingGroup :=
  mkAutoScalingGroup
    (sanitizeId (Js.or (WebTierAsg.autoScalingGroupName props) "WebTierAutoScalingGroup"))
    (WebTierAsg.vpc props)
    (WebTierAsg.instanceClass props, WebTierAsg.instanceSize props)
    (WebTierAsg.machineImage props)
    (WebTierAsg.securityGroup props)
    (WebTierAsg.minCapacity props)
    (WebTierAsg.maxCapacity props)
    (WebTierAsg.desiredCapacity props)
    (AppTierAsg.subnetTypeOf (WebTierAsg.subnetType props))
    (WebTierAsg.cooldown props)
    (Js.nullish (WebTierAsg.requireImdsv2 props) true)
    [mkBlockDevice (WebTierAsg.deviceName props) (WebTierAsg.volumeSize props)
       (WebTierAsg.volumeType props) (WebTierAsg.encrypted props)
       (WebTierAsg.deleteOnTermination props) (WebTierAsg.iops props)]
    script
    [WebTierAsg.targetGroup props]
    (Some (WebTierAsg.healthCheckGracePeriod props))
    (Some (WebTierAsg.healthCheckType props)).

Definition webTierResources (props : WebTierAsg.WebTierAsgConstructProps)
    (script : list string) (n : nat) : list Resource :=
  [ RAutoScalingGroup (webTierGroupOf props script);
    RScalingPolicy
      (mkCpuScalingPolicy (Js.or (WebTierAsg.cpuScalingPolicyName props) "WebTierCpuScaling")
         n (WebTierAsg.targetCpuUtilization props) (WebTierAsg.cooldown props)) ].

Definition appTierGroupOf (props : AppTierAsg.AppTierAsgConstructProps)
    (script : list string) : AutoScalingGroup :=
  mkAutoScalingGroup
    (sanitizeId (Js.or (AppTierAsg.autoScalingGroupName props) "AppTierAutoScalingGroup"))
    (AppTierAsg.vpc props)
    (AppTierAsg.instanceClass props, AppTierAsg.instanceSize props)
    (AppTierAsg.machineImage props)
    (AppTierAsg.securityGroup props)
    (AppTierAsg.minCapacity props)
    (AppTierAsg.maxCapacity props)
    (AppTierAsg.desiredCapacity props)
    (AppTierAsg.subnetTypeOf (AppTierAsg.subnetType props))
    (AppTierAsg.cooldown props)
    (Js.nullish (AppTierAsg.requireImdsv2 props) true)
    [mkBlockDevice (AppTierAsg.deviceName props) (AppTierAsg.volumeSize props)
       (AppTierAsg.volumeType props) (AppTierAsg.encrypted props)
       (AppTierAsg.deleteOnTermination props) (AppTierAsg.iops props)]
    script
    []
    (Some (AppTierAsg.healthCheckGracePeriod props))
    (Some (AppTierAsg.healthCheckType props)).

Definition appTierResources (props : AppTierAsg.AppTierAsgConstructProps)
    (script : list string) (n : nat) : list Resource :=
  [ RAutoScalingGroup (appTierGroupOf props script);
    RScalingPolicy
      (mkCpuScalingPolicy (Js.or (AppTierAsg.cpuScalingPolicyName props) "AppTierCpuScaling")
         n (AppTierAsg.targetCpuUtilization props) (AppTierAsg.cooldown props)) ].

Definition rdsResources (props : Rds.RdsConstructProps) (readers : list nat) (n : nat)
    : list Resource :=
  [ RSecret
      (mkSecret (Js.or (Rds.credentialsSecretName props) "DatabaseCredentials")
         (Rds.credentialsUsername props) (Rds.credentialsPasswordLength props)
         (Rds.credentialsExcludePunctuation props) (Rds.credentialsIncludeSpace props)
         readers);
    RDatabaseInstance
      (mkDatabaseInstance (Js.or (Rds.resourceName props) "Database") (Rds.vpc props)
         PRIVATE_ISOLATED (Rds.subnetGroupName props) (Rds.securityGroup props)
         (Rds.engine props) (Rds.engineVersion props)
         (Rds.instanceClass props, Rds.instanceSize props)
         (Rds.allocatedStorage props) (Rds.maxAllocatedStorage props) (Rds.multiAz props)
         (Rds.databaseName props) (Rds.backupRetention props)
         (Rds.preferredBackupWindow props) (Rds.preferredMaintenanceWindow props)
         (Rds.deletionProtection props) (Rds.removalPolicy props)
         (Rds.storageEncrypted props) (Rds.autoMinorVersionUpgrade props) n
         (Rds.cloudWatchLogsExports props) (Rds.cloudWatchLogsRetention props)) ].

Definition rdsRefs (n : nat) : Rds.RdsConstructT :=
  Rds.mkConstruct (n + 1)%nat n.

Definition naclResources (props : NetworkAcls.NetworkAclConstructProps)
    : list Resource :=
  [ RNetworkAcl (NetworkAcls.publicAcl props);
    RNetworkAcl (NetworkAcls.privateAcl props) ].

(** The store after each step of the stack's constructor, given the boot
    scripts [web] and [app] the two compute constructs have read. *)

Definition afterVpc (cfg : StackConfig.t) : list Resource :=
  vpcResources (Stack.vpcProps cfg) 0.

Definition theVpc : VpcNetwork.VpcConstructT := VpcNetwork.mkConstruct 0.

Definition afterAcls (cfg : StackConfig.t) : list Resource :=
  afterVpc cfg ++ naclResources (Stack.networkAclProps cfg theVpc).

Definition theGroups (cfg : StackConfig.t) : SecurityGroups.SecurityGroupsConstructT :=
  securityGroupRefs (length (afterAcls cfg)).

Definition afterGroups (cfg : StackConfig.t) : list Resource :=
  afterAcls cfg
  ++ securityGroupResources (Stack.securityGroupsProps cfg theVpc) (length (afterAcls cfg)).

Definition theAlb (cfg : StackConfig.t) : Alb.AlbConstructT :=
  albRefs (length (afterGroups cfg)).

Definition afterAlb (cfg : StackConfig.t) : list Resource :=
  afterGroups cfg
  ++ albResources (Stack.albProps cfg theVpc (theGroups cfg)) (length (afterGroups cfg)).

Definition theWebTier (cfg : StackConfig.t) : WebTierAsg.WebTierAsgConstructT :=
  WebTierAsg.mkConstruct (length (afterAlb cfg)).

Definition afterWebTier (cfg : StackConfig.t) (e : Env) (web : list string)
    : list Resource :=
  afterAlb cfg
  ++ webTierResources (Stack.webTierProps cfg e theVpc (theGroups cfg) (theAlb cfg)) web
       (length (afterAlb cfg)).

Definition theAppTier (cfg : StackConfig.t) (e : Env) (web : list string)
    : AppTierAsg.AppTierAsgConstructT :=
  AppTierAsg.mkConstruct (length (afterWebTier cfg e web)).

Definition afterAppTier (cfg : StackConfig.t) (e : Env) (web app : list string)
    : list Resource :=
  afterWebTier cfg e web
  ++ appTierResources (Stack.appTierProps cfg e theVpc (theGroups cfg)) app
       (length (afterWebTier cfg e web)).

Definition theRds (cfg : StackConfig.t) (e : Env) (web app : list string)
    : Rds.RdsConstructT :=
  rdsRefs (length (afterAppTier cfg e web app)).

Definition afterRds (cfg : StackConfig.t) (e : Env) (web app : list string)
    : list Resource :=
  afterAppTier cfg e web app
  ++ rdsResources (Stack.rdsProps cfg theVpc (theGroups cfg))
       [AppTierAsg.autoScalingGroup (theAppTier cfg e web)]
       (length (afterAppTier cfg e web app)).

Definition stackResources (cfg : StackConfig.t) (e : Env) (web app : list string)
    : list Resource :=
  afterRds cfg e web app
  ++ Stack.outputResources
       (CfnOutputs.OutputsConstruct
          (Stack.outputsProps cfg theVpc (theAlb cfg) (theWebTier cfg)
             (theAppTier cfg e web) (theRds cfg e web app))).

End Derived.

(** ** Record updates and conditions used in the statements *)

Module Conditions.
Import Cdk.

(** The props with another [httpsPort]. *)
Definition withHttpsPort (port : Z) (props : SecurityGroups.SecurityGroupsConstructProps)
    : SecurityGroups.SecurityGroupsConstructProps :=
  SecurityGroups.mkProps
    (SecurityGroups.vpc props) (SecurityGroups.allowHttpFrom props)
    (SecurityGroups.httpPort props) port
    (SecurityGroups.appTierPort props) (SecurityGroups.dbPort props)
    (SecurityGroups.albAllowAllOutbound props)
    (SecurityGroups.webTierAllowAllOutbound props)
    (SecurityGroups.appTierAllowAllOutbound props)
    (SecurityGroups.dbAllowAllOutbound props)
    (SecurityGroups.allowPackageDownloads props)
    (SecurityGroups.albSecurityGroupName props)
    (SecurityGroups.webTierSecurityGroupName props)
    (SecurityGroups.appTierSecurityGroupName props)
    (SecurityGroups.databaseSecurityGroupName props).

(** The props with another [allowPackageDownloads]. *)
Definition withAllowPackageDownloads (flag : option bool)
    (props : SecurityGroups.SecurityGroupsConstructProps)
    : SecurityGroups.SecurityGroupsConstructProps :=
  SecurityGroups.mkProps
    (SecurityGroups.vpc props) (SecurityGroups.allowHttpFrom props)
    (SecurityGroups.httpPort props) (SecurityGroups.httpsPort props)
    (SecurityGroups.appTierPort props) (SecurityGroups.dbPort props)
    (SecurityGroups.albAllowAllOutbound props)
    (SecurityGroups.webTierAllowAllOutbound props)
    (SecurityGroups.appTierAllowAllOutbound props)
    (SecurityGroups.dbAllowAllOutbound props)
    flag
    (SecurityGroups.albSecurityGroupName props)
    (SecurityGroups.webTierSecurityGroupName props)
    (SecurityGroups.appTierSecurityGroupName props)
    (SecurityGroups.databaseSecurityGroupName props).



(** No character of the name is the path separator. *)
Definition plain (name : string) : Prop :=
  ~ In "/"%char (String.list_ascii_of_string name).

End Conditions.

(** ** Concrete inputs

    The props of the unit tests, and a development configuration with the
    values the README and the stack test give (two zones, capacities 2, 6 and
    2, MariaDB 10.11), completed with values of the expected shape. *)

Module Example.
Import Cdk.

(** The props every test of the security-group construct passes. *)
Definition testProps : SecurityGroups.SecurityGroupsConstructProps :=
  SecurityGroups.mkProps 0%nat "0.0.0.0/0" 80 443 8080 3306
    None None None None None None None None None.

(** The same props for a load balancer that may send anywhere. *)
Definition openEdgeProps : SecurityGroups.SecurityGroupsConstructProps :=
  SecurityGroups.mkProps 0%nat "0.0.0.0/0" 80 443 8080 3306
    (Some true) None None None None None None None None.

(** The same props with one port for HTTP and HTTPS. *)
Definition onePortProps : SecurityGroups.SecurityGroupsConstructProps :=
  SecurityGroups.mkProps 0%nat "0.0.0.0/0" 80 80 8080 3306
    None None None None None None None None None.

Definition devTier (healthCheckType : string) (subnetType : option string)
    : StackConfig.Tier :=
  StackConfig.mkTier 2 6 2 "T2" "MICRO" "AmazonLinux2023" healthCheckType 300 300 70
    None subnetType.

(** A configuration with the development values, for the given numbers of
    zones and of NAT gateways. *)
Definition configOf (maxAzs natGatewaysCount : Z) : StackConfig.t :=
  StackConfig.mkStackConfig
    (StackConfig.mkEnvironment "dev" false)
    (StackConfig.mkNetwork
       (StackConfig.mkVpcSettings "10.0.0.0/16" maxAzs natGatewaysCount 24 true 7
          (StackConfig.mkSubnets "Public" "Private")
          (StackConfig.mkFlowLogs "ALL" "DESTROY"))
       (StackConfig.mkSecurity "0.0.0.0/0" 80 443 8080 3306 None None None None None)
       (StackConfig.mkNetworkAcls
          (StackConfig.mkAclRules 100 true 110 true 120 true 100 true 100 true 110 true
             120 true true)
          (StackConfig.mkEphemeralPorts 1024 65535)))
    (StackConfig.mkCompute
       (StackConfig.mkAlbSettings true false 60 true 80 "HTTP" "instance" 80 "HTTP" 30
          [("path", "/health")])
       (devTier "ELB" None)
       (devTier "EC2" None)
       (StackConfig.mkStorage 20 "gp3" true true 3000 "/dev/xvda"))
    (StackConfig.mkDatabase "mariadb" "10.11" "T3" "MICRO" 20 100 true "appdb" 7
       "03:00-04:00" "sun:04:00-sun:05:00" false "DESTROY" true true
       (StackConfig.mkCredentials "admin" 32 true false)
       (StackConfig.mkCloudWatchLogs ["error"; "general"; "slowquery"] 7))
    (StackConfig.mkResourceNames None None None None None None None None None None
       None None None None None None None None None)
    [("Project", "ThreeTier")].

Definition devConfig : StackConfig.t := configOf 2 2.



(** A checkout at [/repo], the stack's code being in [/repo/lib], whose two
    development boot scripts hold the given texts. *)
Definition checkout (web app : string) : Env :=
  mkEnv "/repo/lib"
    (fun path =>
       if decide (path = "/repo/scripts/web-tier-user-data-dev.sh") then Some (File web)
       else if decide (path = "/repo/scripts/app-tier-user-data-dev.sh") then
         Some (File app)
       else if decide (path = "/repo/scripts") then Some Directory
       else None).

Definition devEnv : Env := checkout "#!/bin/bash" "#!/bin/bash".



(** Application-tier props with a subnet keyword that is none of the three
    known ones. *)
Definition unknownSubnetProps : AppTierAsg.AppTierAsgConstructProps :=
  AppTierAsg.mkProps 0%nat 1%nat 2 6 2 "T2" "MICRO" "AmazonLinux2023" "EC2" 300 300 70
    20 "gp3" true true 3000 "/dev/xvda" None (Some "DMZ") None None
    (Some "/repo/scripts/app-tier-user-data-dev.sh").

End Example.

(** ** scripts/app-tier-user-data-staging.sh: the server it installs

    The boot script writes [/opt/app/server.js]. The server registers two
    listeners for the [request] event, the one handed to [createServer] and
    the one added by [server.on]; a request runs them in that order, and an
    error thrown by a listener ends the run. A listener is read through the
    calls it makes on the response. What Node does with a head written to a
    response that has ended depends on the release: it accepts the call or
    throws; both are embedded. What it does with a second [end] is not. *)

Module AppServer.

(** The three variables of [process.env] the server reads. *)
Record ProcessEnv := mkProcessEnv {
  INSTANCE_ID : option string;
  AVAILABILITY_ZONE : option string;
  PRIVATE_IP : option string;
}.

(** The host of the process: its environment and [os.hostname()]. *)
Record Host := mkHost {
  env : ProcessEnv;
  hostname : string;
}.

(** A request, with the instant [new Date().toISOString()] gives while it
    is served. *)
Record Request := mkRequest {
  url : string;
  method : string;
  now : string;
}.

(** A body: [JSON.stringify] of an object, given by its fields in order, or
    a plain text. *)
Inductive Body :=
| Json (fields : list (string * string))
| Text (text : string).

(** The calls a listener makes on the response. *)
Inductive Call :=
| writeHead (statusCode : Z) (contentType : string)
| end_ (body : Body).

(** The release of Node the server runs on, as far as the listeners can
    tell: [writeHead] on a response that has ended returns, or throws
    [ERR_HTTP_HEADERS_SENT]. *)
Inductive Node := LATE_HEAD_RETURNS | LATE_HEAD_THROWS.

(** The response while the listeners run: the calls made on it so far, and
    whether it has ended. *)
Record Response := mkResponse {
  calls : list Call;
  ended : bool;
}.

(** A step of a listener leaves the response as its calls made it, and
    returns or throws. *)
Definition Step : Type := Response -> Response * option string.

Definition andThen (first second : Step) : Step :=
  fun res =>
    match first res with
    | (res', None) => second res'
    | thrown => thrown
    end.

Definition skip : Step := fun res => (res, None).

(** [res.writeHead(statusCode, { 'Content-Type': contentType })]. *)
Definition res_writeHead (node : Node) (statusCode : Z) (contentType : string) : Step :=
  fun res =>
    let res' := mkResponse (calls res ++ [writeHead statusCode contentType]) (ended res) in
    match node, ended res with
    | LATE_HEAD_THROWS, true => (res', Some "ERR_HTTP_HEADERS_SENT")
    | _, _ => (res', None)
    end.

(** [res.end(body)]. *)
Definition res_end (body : Body) : Step :=
  fun res => (mkResponse (calls res ++ [end_ body]) true, None).

Definition PORT : Z := 8080.

Definition instanceId (h : Host) : string := Js.or (INSTANCE_ID (env h)) "unknown".
Definition availabilityZone (h : Host) : string :=
  Js.or (AVAILABILITY_ZONE (env h)) "unknown".
Definition privateIp (h : Host) : string := Js.or (PRIVATE_IP (env h)) "unknown".

(** The object [response] of the first listener. *)
Definition response (h : Host) (req : Request) : list (string * string) :=
  [ ("message", "Application Tier - Business Logic Layer");
    ("timestamp", now req);
    ("instanceId", instanceId h);
    ("availabilityZone", availabilityZone h);
    ("privateIp", privateIp h);
    ("hostname", hostname h);
    ("tier", "Application Tier");
    ("architecture", "3-Tier");
    ("environment", "Staging");
    ("path", url req);
    ("method", method req);
    ("status", "healthy") ].

(** The listener handed to [http.createServer]. *)
Definition requestListener (node : Node) (h : Host) (req : Request) : Step :=
  andThen (res_writeHead node 200 "application/json")
    (res_end (Json (response h req))).

(** The listener added by [server.on('request', ...)]. *)
Definition healthListener (node : Node) (req : Request) : Step :=
  if decide (url req = "/health") then
    andThen (res_writeHead node 200 "text/plain") (res_end (Text "OK"))
  else skip.

(** One request: the two listeners run on a fresh response. *)
Definition serve (node : Node) (h : Host) (req : Request) : Response * option string :=
  andThen (requestListener node h req) (healthListener node req) (mkResponse [] false).

(** The calls made on the response of one request. *)
Definition onRequest (node : Node) (h : Host) (req : Request) : list Call :=
  calls (fst (serve node h req)).


Definition isEnd (c : Call) : bool :=
  match c with end_ _ => true | _ => false end.

Definition isWriteHead (c : Call) : bool :=
  match c with writeHead _ _ => true | _ => false end.

(** The value of a field of a JSON body. *)
Definition field (name : string) (b : Body) : option string :=
  match b with
  | Json fields =>
      option_map snd
        (List.find (fun kv => if decide (fst kv = name) then true else false) fields)
  | Text _ => None
  end.

End AppServer.

(** ** Further record updates and readings used in the statements *)

Module Further.
Import Cdk.

(** The props with another [dbPort]. *)
Definition withDbPort (port : Z) (props : SecurityGroups.SecurityGroupsConstructProps)
    : SecurityGroups.SecurityGroupsConstructProps :=
  SecurityGroups.mkProps
    (SecurityGroups.vpc props) (SecurityGroups.allowHttpFrom props)
    (SecurityGroups.httpPort props) (SecurityGroups.httpsPort props)
    (SecurityGroups.appTierPort props) port
    (SecurityGroups.albAllowAllOutbound props)
    (SecurityGroups.webTierAllowAllOutbound props)
    (SecurityGroups.appTierAllowAllOutbound props)
    (SecurityGroups.dbAllowAllOutbound props)
    (SecurityGroups.allowPackageDownloads props)
    (SecurityGroups.albSecurityGroupName props)
    (SecurityGroups.webTierSecurityGroupName props)
    (SecurityGroups.appTierSecurityGroupName props)
    (SecurityGroups.databaseSecurityGroupName props).

(** The four name props of the security-group construct, by tier. *)
Definition nameOf (props : SecurityGroups.SecurityGroupsConstructProps)
    (t : Observe.Tier) : option string :=
  match t with
  | Observe.EDGE => SecurityGroups.albSecurityGroupName props
  | Observe.PRESENTATION => SecurityGroups.webTierSecurityGroupName props
  | Observe.BUSINESS => SecurityGroups.appTierSecurityGroupName props
  | Observe.DATA => SecurityGroups.databaseSecurityGroupName props
  end.

(** The construct id each group gets when it is given no name. *)
Definition defaultNameOf (t : Observe.Tier) : string :=
  match t with
  | Observe.EDGE => "AlbSecurityGroup"
  | Observe.PRESENTATION => "WebTierSecurityGroup"
  | Observe.BUSINESS => "AppTierSecurityGroup"
  | Observe.DATA => "DatabaseSecurityGroup"
  end.

(** All rules of a group, inbound and outbound. *)
Definition rulesOf (s : Store) (ref : Ref) : list Rule :=
  Observe.ingressOf s ref ++ Observe.egressOf s ref.

(** The number of package-download rules a compute tier's group is left
    with: one per port, and one only when the two ports are the same. *)
Definition downloadRules (props : SecurityGroups.SecurityGroupsConstructProps) : nat :=
  if Js.nullish (SecurityGroups.allowPackageDownloads props) true then
    if decide (SecurityGroups.httpsPort props = SecurityGroups.httpPort props) then 1%nat
    else 2%nat
  else 0%nat.

(** Two lists of characters agree as far as both go. *)
Fixpoint agree (l1 l2 : list Ascii.ascii) : bool :=
  match l1, l2 with
  | x :: l1', y :: l2' => if decide (x = y) then agree l1' l2' else false
  | _, _ => true
  end.

End Further.

(** ** Further concrete inputs *)

Module Sample.
Import Cdk.

(** A checkout without any boot script. *)
Definition bareEnv : Env := mkEnv "/repo/lib" (fun _ => None).

(** Application-tier props without a script path. *)
Definition noScriptProps : AppTierAsg.AppTierAsgConstructProps :=
  AppTierAsg.mkProps 0%nat 1%nat 2 6 2 "T2" "MICRO" "AmazonLinux2023" "EC2" 300 300 70
    20 "gp3" true true 3000 "/dev/xvda" (Some false) None None None None.

(** Application-tier props whose script path is the directory of the
    scripts. *)
Definition directoryProps : AppTierAsg.AppTierAsgConstructProps :=
  AppTierAsg.mkProps 0%nat 1%nat 2 6 2 "T2" "MICRO" "AmazonLinux2023" "EC2" 300 300 70
    20 "gp3" true true 3000 "/dev/xvda" None None None None (Some "/repo/scripts").

(** Security-group props that name the load balancer's group after a path,
    and the web tier's group plainly. *)
Definition namedProps : SecurityGroups.SecurityGroupsConstructProps :=
  SecurityGroups.mkProps 0%nat "0.0.0.0/0" 80 443 8080 3306
    None (Some true) None None (Some false) (Some "edge/sg") (Some "web-sg") None None.

(** The constructs a stack of the given environment, with the given VPC,
    hands to the outputs construct. *)
Definition outputsProps (environment vpcId : string)
    : CfnOutputs.OutputsConstructProps :=
  CfnOutputs.mkProps
    (CfnOutputs.mkVpc vpcId "10.0.0.0/16")
    (CfnOutputs.mkApplicationLoadBalancer "alb-1.us-west-2.elb.amazonaws.com"
       "arn:aws:elasticloadbalancing:alb-1")
    (CfnOutputs.mkAutoScalingGroup "web-asg" "arn:aws:autoscaling:web-asg")
    (CfnOutputs.mkAutoScalingGroup "app-asg" "arn:aws:autoscaling:app-asg")
    (CfnOutputs.mkDatabaseInstance "db.example.internal" "3306" None)
    environment.

End Sample.

(** * Properties *)

(** ** The assembly monad *)

Section Monad.
Import Cdk.

Lemma bind_eq {A B : Type} (m : M A) (k : A -> M B) e s :
  bind m k e s
  = match m e s with
    | Ok (a, s') => k a e s'
    | Err msg => Err msg
    end.
Proof. reflexivity. Qed.

Lemma bind_ret {A B : Type} (a : A) (k : A -> M B) e s :
  bind (ret a) k e s = k a e s.
Proof. reflexivity. Qed.

Lemma bind_assoc {A B C : Type} (m : M A) (f : A -> M B) (g : B -> M C) e s :
  bind (bind m f) g e s = bind m (fun x => bind (f x) g) e s.
Proof. unfold bind. destruct (m e s) as [[a s']|msg]; reflexivity. Qed.

Lemma bind_create {B : Type} (r : Resource) (k : nat -> M B) e (s l : list Resource) :
  bind (create r) k e (s ++ l) = k (length s + length l)%nat e (s ++ (l ++ [r])).
Proof. unfold bind, create. rewrite length_app, app_assoc. reflexivity. Qed.

Lemma bind_createAll {B : Type} (rs : list Resource) (k : unit -> M B) e
    (s l : list Resource) :
  bind (createAll rs) k e (s ++ l) = k tt e (s ++ (l ++ rs)).
Proof. unfold bind, createAll. rewrite app_assoc. reflexivity. Qed.

Lemma bind_mutate {B : Type} (f : Resource -> Resource) (k : unit -> M B) e
    (s l : list Resource) (i : nat) :
  bind (mutate (length s + i)%nat f) k e (s ++ l) = k tt e (s ++ alter f i l).
Proof. unfold bind, mutate. rewrite alter_app_r. reflexivity. Qed.

Lemma bind_readFileSync {B : Type} (path : string) (k : string -> M B) e s :
  bind (readFileSync path) k e s
  = match files e path with
    | Some (File content) => k content e s
    | Some Directory => Err "EISDIR: illegal operation on a directory, read"
    | None => Err ("ENOENT: no such file or directory, open '" +:+ path +:+ "'")
    end.
Proof. unfold bind, readFileSync. destruct (files e path) as [[content|]|]; reflexivity. Qed.

End Monad.

(** One step of a run whose store is [s ++ l], with [l] the descriptors the
    construct has created so far. *)
Ltac run_step :=
  first
    [ rewrite bind_assoc
    | rewrite bind_ret
    | rewrite bind_create; simpl (length _); simpl (_ ++ _)
    | rewrite bind_createAll
    | rewrite bind_mutate; simpl (alter _ _ _) ].

(** ** Runs of the constructs *)

Section Runs.
Import Cdk.

(** Two package-download rules are the same rule when their ports are, and
    neither is the rule towards the next tier. *)
Lemma sameRule_anyIpv4 (a b : Z) (d1 d2 : string) :
  sameRule (mkRule Peer_anyIpv4 (Port_tcp a) d1) (mkRule Peer_anyIpv4 (Port_tcp b) d2)
  = Z.eqb a b.
Proof. reflexivity. Qed.

Lemma sameRule_anyIpv4_group (a b : Z) (d1 d2 : string) (group : nat) :
  sameRule (mkRule Peer_anyIpv4 (Port_tcp a) d1) (mkRule (SecurityGroupPeer group) (Port_tcp b) d2)
  = false.
Proof. reflexivity. Qed.

(** The rules of the groups, once every call has been made. *)
Ltac settle_rules H :=
  unfold push_egress, push_ingress;
  repeat (cbn [sgAllowAllOutbound sgEgress sgIngress sgId sgVpc sgDescription existsb app];
          rewrite ?sameRule_anyIpv4, ?sameRule_anyIpv4_group, ?H;
          cbn [orb]).

Lemma SecurityGroupsConstruct_run props e s :
  SecurityGroups.SecurityGroupsConstruct props e s
  = Ok (Derived.securityGroupRefs (length s),
        s ++ Derived.securityGroupResources props (length s)).
Proof.
  unfold SecurityGroups.SecurityGroupsConstruct, Derived.securityGroupResources,
    Derived.securityGroupRefs, Derived.albGroup, Derived.webTierGroup,
    Derived.appTierGroup, Derived.dbGroup, Derived.packageDownloadRules, Derived.held.
  unfold new_SecurityGroup, addIngressRule, addEgressRule.
  rewrite <- (app_nil_r s) at 1.
  destruct (Z.eqb (SecurityGroups.httpsPort props) (SecurityGroups.httpPort props))
    eqn:Hports.
  all: repeat first
    [ run_step
    | match goal with
      | |- context [if Js.nullish ?flag ?d then _ else _] => destruct (Js.nullish flag d)
      end ].
  all: settle_rules Hports; rewrite Nat.add_0_r; reflexivity.
Qed.

Lemma VpcConstruct_run props e s :
  VpcNetwork.VpcConstruct props e s
  = Ok (VpcNetwork.mkConstruct (length s), s ++ Derived.vpcResources props (length s)).
Proof.
  unfold VpcNetwork.VpcConstruct, Derived.vpcResources.
  rewrite <- (app_nil_r s) at 1.
  destruct (VpcNetwork.enableFlowLogs props);
    repeat run_step; rewrite Nat.add_0_r; unfold ret; rewrite <- ?app_assoc;
    try rewrite app_nil_r; reflexivity.
Qed.

Lemma NetworkAclConstruct_run props e s :
  NetworkAcls.NetworkAclConstruct props e s = Ok (tt, s ++ Derived.naclResources props).
Proof.
  unfold NetworkAcls.NetworkAclConstruct, Derived.naclResources.
  rewrite <- (app_nil_r s) at 1. repeat run_step. reflexivity.
Qed.

Lemma AlbConstruct_run props e s :
  Alb.AlbConstruct props e s
  = Ok (Derived.albRefs (length s), s ++ Derived.albResources props (length s)).
Proof.
  unfold Alb.AlbConstruct, Derived.albResources, Derived.albRefs.
  rewrite <- (app_nil_r s) at 1. repeat run_step. rewrite Nat.add_0_r. reflexivity.
Qed.

Lemma AppTierAsgConstruct_run props e s :
  AppTierAsg.AppTierAsgConstruct props e s
  = match Derived.userData e (AppTierAsg.userDataScriptPath props) with
    | Ok script =>
        Ok (AppTierAsg.mkConstruct (length s),
            s ++ Derived.appTierResources props script (length s))
    | Err msg => Err msg
    end.
Proof.
  unfold AppTierAsg.AppTierAsgConstruct, Derived.appTierResources, Derived.userData,
    Derived.appTierGroupOf.
  rewrite <- (app_nil_r s) at 1.
  run_step.
  destruct (Js.truthy (AppTierAsg.userDataScriptPath props)) as [path|].
  - rewrite bind_assoc, bind_readFileSync.
    destruct (files e path) as [[script|]|]; [|reflexivity|reflexivity].
    repeat run_step. rewrite Nat.add_0_r. reflexivity.
  - repeat run_step. rewrite Nat.add_0_r. reflexivity.
Qed.

Lemma WebTierAsgConstruct_run props e s :
  WebTierAsg.WebTierAsgConstruct props e s
  = match Derived.userData e (WebTierAsg.userDataScriptPath props) with
    | Ok script =>
        Ok (WebTierAsg.mkConstruct (length s),
            s ++ Derived.webTierResources props script (length s))
    | Err msg => Err msg
    end.
Proof.
  unfold WebTierAsg.WebTierAsgConstruct, Derived.webTierResources, Derived.userData,
    Derived.webTierGroupOf.
  rewrite <- (app_nil_r s) at 1.
  run_step.
  destruct (Js.truthy (WebTierAsg.userDataScriptPath props)) as [path|].
  - rewrite bind_assoc, bind_readFileSync.
    destruct (files e path) as [[script|]|]; [|reflexivity|reflexivity].
    repeat run_step. rewrite Nat.add_0_r. reflexivity.
  - repeat run_step. rewrite Nat.add_0_r. reflexivity.
Qed.

Lemma RdsConstruct_run props e s :
  Rds.RdsConstruct props e s
  = Ok (Derived.rdsRefs (length s), s ++ Derived.rdsResources props [] (length s)).
Proof.
  unfold Rds.RdsConstruct, Derived.rdsResources, Derived.rdsRefs.
  rewrite <- (app_nil_r s) at 1. repeat run_step. rewrite Nat.add_0_r. reflexivity.
Qed.

End Runs.

Section StackRun.
Import Cdk.

Lemma bind_ask {B : Type} (k : Env -> M B) e s :
  bind ask k e s = k e e s.
Proof. reflexivity. Qed.

Lemma bind_mutate_first {B : Type} (f : Resource -> Resource) (k : unit -> M B) e
    (s l : list Resource) :
  bind (mutate (length s) f) k e (s ++ l) = k tt e (s ++ alter f 0%nat l).
Proof. rewrite <- (Nat.add_0_r (length s)) at 1. apply bind_mutate. Qed.

Lemma constructor_run cfg e :
  Stack.constructor cfg e []
  = match Derived.userData e
            (Some (Stack.webTierUserData e (StackConfig.name (StackConfig.environment cfg))))
    with
    | Err msg => Err msg
    | Ok web =>
        match Derived.userData e
                (Some (Stack.appTierUserData e
                         (StackConfig.name (StackConfig.environment cfg))))
        with
        | Err msg => Err msg
        | Ok app => Ok (tt, Derived.stackResources cfg e web app)
        end
    end.
Proof.
  unfold Stack.constructor.
  rewrite bind_ask.
  rewrite bind_eq, VpcConstruct_run.
  rewrite bind_eq, NetworkAclConstruct_run.
  rewrite bind_eq, SecurityGroupsConstruct_run.
  rewrite bind_eq, AlbConstruct_run.
  rewrite bind_eq, WebTierAsgConstruct_run.
  cbn [WebTierAsg.userDataScriptPath Stack.webTierProps].
  destruct (Derived.userData e (Some (Stack.webTierUserData e _))) as [web|msg];
    [|reflexivity].
  rewrite bind_eq, AppTierAsgConstruct_run.
  cbn [AppTierAsg.userDataScriptPath Stack.appTierProps].
  destruct (Derived.userData e (Some (Stack.appTierUserData e _))) as [app|msg];
    [|reflexivity].
  rewrite bind_eq, RdsConstruct_run.
  cbn [Rds.secret Derived.rdsRefs].
  rewrite bind_mutate_first.
  reflexivity.
Qed.

End StackRun.

(** ** Reading the store after a run *)

Section Reading.
Import Cdk.

Lemma lookup_tail (s l : list Resource) (i : nat) :
  (s ++ l) !! (length s + i)%nat = l !! i.
Proof. induction s as [|x s IH]; [reflexivity | exact IH]. Qed.

Lemma securityGroupAt_tail (s l : list Resource) (i : nat) :
  Observe.securityGroupAt (s ++ l) (length s + i) = Observe.securityGroupAt l i.
Proof. unfold Observe.securityGroupAt. rewrite lookup_tail. reflexivity. Qed.

Lemma securityGroupAt_first (s l : list Resource) :
  Observe.securityGroupAt (s ++ l) (length s) = Observe.securityGroupAt l 0.
Proof. rewrite <- (Nat.add_0_r (length s)) at 1. apply securityGroupAt_tail. Qed.

(** The descriptor of each tier's group after the construct has run. *)
Lemma group_of_tier props (s : list Resource) (t : Observe.Tier) :
  Observe.securityGroupAt (s ++ Derived.securityGroupResources props (length s))
    (Observe.groupOf (Derived.securityGroupRefs (length s)) t)
  = Some match t with
         | Observe.EDGE => Derived.albGroup props (length s)
         | Observe.PRESENTATION => Derived.webTierGroup props (length s)
         | Observe.BUSINESS => Derived.appTierGroup props (length s)
         | Observe.DATA => Derived.dbGroup props (length s)
         end.
Proof.
  destruct t; cbn [Observe.groupOf Derived.securityGroupRefs
    SecurityGroups.albSecurityGroup SecurityGroups.webTierSecurityGroup
    SecurityGroups.appTierSecurityGroup SecurityGroups.dbSecurityGroup];
    rewrite ?securityGroupAt_tail, ?securityGroupAt_first; reflexivity.
Qed.

Lemma ingress_of_tier props (s : list Resource) (t : Observe.Tier) :
  Observe.ingressOf (s ++ Derived.securityGroupResources props (length s))
    (Observe.groupOf (Derived.securityGroupRefs (length s)) t)
  = sgIngress match t with
              | Observe.EDGE => Derived.albGroup props (length s)
              | Observe.PRESENTATION => Derived.webTierGroup props (length s)
              | Observe.BUSINESS => Derived.appTierGroup props (length s)
              | Observe.DATA => Derived.dbGroup props (length s)
              end.
Proof. unfold Observe.ingressOf. rewrite group_of_tier. reflexivity. Qed.

Lemma egress_of_tier props (s : list Resource) (t : Observe.Tier) :
  Observe.egressOf (s ++ Derived.securityGroupResources props (length s))
    (Observe.groupOf (Derived.securityGroupRefs (length s)) t)
  = sgEgress match t with
             | Observe.EDGE => Derived.albGroup props (length s)
             | Observe.PRESENTATION => Derived.webTierGroup props (length s)
             | Observe.BUSINESS => Derived.appTierGroup props (length s)
             | Observe.DATA => Derived.dbGroup props (length s)
             end.
Proof. unfold Observe.egressOf. rewrite group_of_tier. reflexivity. Qed.

(** A run of the security-group construct that returns has left the closed
    form. *)
Lemma SecurityGroupsConstruct_inv props e s c s' :
  SecurityGroups.SecurityGroupsConstruct props e s = Ok (c, s') ->
  c = Derived.securityGroupRefs (length s)
  /\ s' = s ++ Derived.securityGroupResources props (length s).
Proof.
  rewrite SecurityGroupsConstruct_run. intros Hrun. injection Hrun as <- <-.
  split; reflexivity.
Qed.

(** The egress rules a group holds, by its outbound flag. *)
Lemma held_closed (flag : option bool) (rules : list Rule) :
  flag <> Some true -> Derived.held flag rules = rules.
Proof. intros Hflag. destruct flag as [[|]|]; [contradiction | reflexivity | reflexivity]. Qed.

Lemma held_open (rules : list Rule) : Derived.held (Some true) rules = [].
Proof. reflexivity. Qed.

Lemma in_held (flag : option bool) (rules : list Rule) (r : Rule) :
  In r (Derived.held flag rules) -> In r rules.
Proof. unfold Derived.held. destruct (Js.nullish flag false); [contradiction | trivial]. Qed.

Lemma in_packageDownloadRules props (r : Rule) :
  In r (Derived.packageDownloadRules props) -> rulePeer r = Peer_anyIpv4.
Proof.
  unfold Derived.packageDownloadRules.
  destruct (Js.nullish (SecurityGroups.allowPackageDownloads props) true);
    [|contradiction].
  destruct (Z.eqb (SecurityGroups.httpsPort props) (SecurityGroups.httpPort props));
    cbn [In]; intros H; repeat (destruct H as [<-|H]; [reflexivity|]); contradiction.
Qed.

End Reading.

(** ** The perimeter rules *)

Section Perimeter.
Import Cdk.

(** A rule of a concrete list that names a given peer: every case is either
    the rule wanted or a clash of two references. *)
Ltac pick_rule H :=
  repeat (destruct H as [H|H]; [subst|]); try contradiction.

(** The four fields of the construct, read as the groups of the four tiers. *)
Ltac as_tiers :=
  repeat match goal with
  | |- context [SecurityGroups.albSecurityGroup (Derived.securityGroupRefs ?n)] =>
      change (SecurityGroups.albSecurityGroup (Derived.securityGroupRefs n))
        with (Observe.groupOf (Derived.securityGroupRefs n) Observe.EDGE)
  | |- context [SecurityGroups.webTierSecurityGroup (Derived.securityGroupRefs ?n)] =>
      change (SecurityGroups.webTierSecurityGroup (Derived.securityGroupRefs n))
        with (Observe.groupOf (Derived.securityGroupRefs n) Observe.PRESENTATION)
  | |- context [SecurityGroups.appTierSecurityGroup (Derived.securityGroupRefs ?n)] =>
      change (SecurityGroups.appTierSecurityGroup (Derived.securityGroupRefs n))
        with (Observe.groupOf (Derived.securityGroupRefs n) Observe.BUSINESS)
  | |- context [SecurityGroups.dbSecurityGroup (Derived.securityGroupRefs ?n)] =>
      change (SecurityGroups.dbSecurityGroup (Derived.securityGroupRefs n))
        with (Observe.groupOf (Derived.securityGroupRefs n) Observe.DATA)
  end.

(** The rules of a tier's group, listed. *)
Ltac list_rules H :=
  cbn [sgEgress sgIngress Derived.albGroup Derived.webTierGroup
         Derived.appTierGroup Derived.dbGroup] in H;
  try apply in_held in H;
  cbn [In] in H.

(** C1, as the code has it. In every store the security-group construct
    leaves, each adjacent pair of the chain load balancer, web tier,
    application tier, database has the ingress rule of the destination group
    that names the source group, on the port of the destination tier; the
    source group holds the matching egress rule unless it was created to
    allow all outbound traffic, in which case it has taken none of the
    egress rules added to it. Between any other pair of tiers there is no
    egress rule of the first naming the second and no ingress rule of the
    second naming the first. *)
Theorem chain_rules_exactly_between_adjacent_tiers
    (props : SecurityGroups.SecurityGroupsConstructProps) (e : Env) (s : list Resource)
    (c : SecurityGroups.SecurityGroupsConstructT) (s' : list Resource) :
  SecurityGroups.SecurityGroupsConstruct props e s = Ok (c, s') ->
  (forall a b, Observe.following a = Some b ->
     Observe.allowsOn (Observe.ingressOf s' (Observe.groupOf c b))
       (SecurityGroupPeer (Observe.groupOf c a)) (Observe.portOf props b)
     /\ (Observe.allowAllOutboundOf props a <> Some true ->
         Observe.allowsOn (Observe.egressOf s' (Observe.groupOf c a))
           (SecurityGroupPeer (Observe.groupOf c b)) (Observe.portOf props b))
     /\ (Observe.allowAllOutboundOf props a = Some true ->
         Observe.egressOf s' (Observe.groupOf c a) = []))
  /\ (forall a b, Observe.following a <> Some b ->
        ~ Observe.allowsPeer (Observe.egressOf s' (Observe.groupOf c a))
            (SecurityGroupPeer (Observe.groupOf c b))
        /\ ~ Observe.allowsPeer (Observe.ingressOf s' (Observe.groupOf c b))
               (SecurityGroupPeer (Observe.groupOf c a))).
Proof.
  intros Hrun. destruct (SecurityGroupsConstruct_inv _ _ _ _ _ Hrun) as [-> ->].
  split.
  - intros a b Hab. rewrite egress_of_tier, ingress_of_tier.
    destruct a; inversion Hab; subst b;
      cbn [Observe.allowAllOutboundOf sgEgress Derived.albGroup Derived.webTierGroup
             Derived.appTierGroup].
    all: split; [eexists; split; [left; reflexivity | split; reflexivity]|].
    all: split;
      [ intros Hflag; rewrite (held_closed _ _ Hflag);
        eexists; split; [left; reflexivity | split; reflexivity]
      | intros ->; apply held_open ].
  - intros a b Hab. rewrite egress_of_tier, ingress_of_tier.
    unfold Observe.allowsPeer.
    split; intros [r [Hin Hpeer]];
      destruct a, b; try (exfalso; apply Hab; reflexivity);
      list_rules Hin;
      repeat match goal with
      | H : _ \/ _ |- _ => destruct H as [H|H]
      | H : In _ (Derived.packageDownloadRules _) |- _ =>
          apply in_packageDownloadRules in H; rewrite H in Hpeer; discriminate Hpeer
      end;
      try contradiction; subst r;
      cbn in Hpeer; try discriminate Hpeer; injection Hpeer; lia.
Qed.

(** C2. When [dbAllowAllOutbound] is [false] or absent, the database group is
    created with [allowAllOutbound] off, the construct adds no egress rule to
    it, and its only rule is the ingress rule from the application tier's
    group on [dbPort]. *)
Theorem database_group_has_no_egress
    (props : SecurityGroups.SecurityGroupsConstructProps) (e : Env) (s : list Resource) :
  SecurityGroups.dbAllowAllOutbound props = None
  \/ SecurityGroups.dbAllowAllOutbound props = Some false ->
  exists c s' g,
    SecurityGroups.SecurityGroupsConstruct props e s = Ok (c, s')
    /\ Observe.securityGroupAt s' (SecurityGroups.dbSecurityGroup c) = Some g
    /\ sgAllowAllOutbound g = false
    /\ sgEgress g = []
    /\ sgIngress g
       = [ mkRule (SecurityGroupPeer (SecurityGroups.appTierSecurityGroup c))
             (Port_tcp (SecurityGroups.dbPort props))
             "Allow MySQL/MariaDB traffic from App Tier instances only" ].
Proof.
  intros Hflag.
  eexists _, _, _. split; [apply SecurityGroupsConstruct_run|].
  split; [apply (group_of_tier props s Observe.DATA)|].
  repeat split.
  cbn [sgAllowAllOutbound Derived.dbGroup].
  destruct Hflag as [-> | ->]; reflexivity.
Qed.

(** C8. The ingress rule of the load balancer's group is the only ingress
    rule bound to an address range: it names the configured range, while the
    single ingress rule of each later tier names the group of the tier before
    it, on the port of the tier it protects. *)
Theorem only_edge_ingress_is_bound_to_a_range
    (props : SecurityGroups.SecurityGroupsConstructProps) (e : Env) (s : list Resource) :
  exists c s',
    SecurityGroups.SecurityGroupsConstruct props e s = Ok (c, s')
    /\ (exists d,
          Observe.ingressOf s' (SecurityGroups.albSecurityGroup c)
          = [ mkRule (CidrIPv4 (SecurityGroups.allowHttpFrom props))
                (Port_tcp (SecurityGroups.httpPort props)) d ])
    /\ (forall a b, Observe.following a = Some b ->
          exists d,
            Observe.ingressOf s' (Observe.groupOf c b)
            = [ mkRule (SecurityGroupPeer (Observe.groupOf c a))
                  (Port_tcp (Observe.portOf props b)) d ])
    /\ (forall t r, In r (Observe.ingressOf s' (Observe.groupOf c t)) ->
          Observe.boundToCidr r -> t = Observe.EDGE).
Proof.
  eexists _, _. split; [apply SecurityGroupsConstruct_run|].
  split; [|split].
  - eexists. apply (ingress_of_tier props s Observe.EDGE).
  - intros a b Hab. rewrite ingress_of_tier.
    destruct a; inversion Hab; subst b; eexists; reflexivity.
  - intros t r Hin [cidr Hcidr]. rewrite ingress_of_tier in Hin.
    destruct t; [reflexivity| | |];
      cbn in Hin; pick_rule Hin; discriminate Hcidr.
Qed.

(** C9. The load balancer's group receives exactly one ingress rule, TCP on
    [httpPort] from the [allowHttpFrom] range. No rule is made from
    [httpsPort]: whatever value that prop takes, the ingress rules of the
    group are the same, and none of them is on a port other than [httpPort]. *)
Theorem alb_ingress_is_the_http_rule_alone
    (props : SecurityGroups.SecurityGroupsConstructProps) (e : Env) (s : list Resource) :
  exists c s',
    SecurityGroups.SecurityGroupsConstruct props e s = Ok (c, s')
    /\ Observe.ingressOf s' (SecurityGroups.albSecurityGroup c)
       = [ mkRule (Peer_ipv4 (SecurityGroups.allowHttpFrom props))
             (Port_tcp (SecurityGroups.httpPort props))
             "Allow HTTP traffic from internet" ]
    /\ (forall port, port <> SecurityGroups.httpPort props ->
          forall r, In r (Observe.ingressOf s' (SecurityGroups.albSecurityGroup c)) ->
                    ruleConnection r <> Port_tcp port)
    /\ (forall port, exists c2 s2,
          SecurityGroups.SecurityGroupsConstruct (Conditions.withHttpsPort port props) e s
          = Ok (c2, s2)
          /\ Observe.ingressOf s2 (SecurityGroups.albSecurityGroup c2)
             = Observe.ingressOf s' (SecurityGroups.albSecurityGroup c)).
Proof.
  eexists _, _. split; [apply SecurityGroupsConstruct_run|].
  as_tiers. rewrite ingress_of_tier.
  split; [reflexivity|].
  split.
  - intros port Hport r Hin.
    cbn in Hin. pick_rule Hin. cbn. congruence.
  - intros port. eexists _, _. split; [apply SecurityGroupsConstruct_run|].
    as_tiers. rewrite ingress_of_tier. reflexivity.
Qed.

(** C10, as the code has it. An absent [allowPackageDownloads] counts as
    enabled. When it is enabled, a compute tier's group that was not created
    to allow all outbound traffic carries, after its rule towards the next
    tier, the egress rules to any IPv4 address on [httpPort] and on
    [httpsPort]: two rules, and one only, the first, when the two ports are
    the same. When it is disabled such a group carries the rule towards the
    next tier alone. A compute tier's group that allows all outbound traffic
    has taken none of the egress rules added to it. The groups of the load balancer and of the
    database never carry an egress rule to an address range. *)
Theorem package_download_egress_rules
    (props : SecurityGroups.SecurityGroupsConstructProps) (e : Env) (s : list Resource)
    (c : SecurityGroups.SecurityGroupsConstructT) (s' : list Resource) :
  SecurityGroups.SecurityGroupsConstruct props e s = Ok (c, s') ->
  let toAppTier :=
    mkRule (SecurityGroupPeer (SecurityGroups.appTierSecurityGroup c))
      (Port_tcp (SecurityGroups.appTierPort props))
      "Allow outbound to App Tier instances" in
  let toDatabase :=
    mkRule (SecurityGroupPeer (SecurityGroups.dbSecurityGroup c))
      (Port_tcp (SecurityGroups.dbPort props)) "Allow outbound to database" in
  let http :=
    mkRule Peer_anyIpv4 (Port_tcp (SecurityGroups.httpPort props))
      "Allow HTTP for package downloads" in
  let https :=
    mkRule Peer_anyIpv4 (Port_tcp (SecurityGroups.httpsPort props))
      "Allow HTTPS for package downloads" in
  let downloads :=
    if decide (SecurityGroups.httpsPort props = SecurityGroups.httpPort props)
    then [http] else [http; https] in
  (SecurityGroups.allowPackageDownloads props <> Some false ->
     (SecurityGroups.webTierAllowAllOutbound props <> Some true ->
      Observe.egressOf s' (SecurityGroups.webTierSecurityGroup c)
      = toAppTier :: downloads)
     /\ (SecurityGroups.appTierAllowAllOutbound props <> Some true ->
         Observe.egressOf s' (SecurityGroups.appTierSecurityGroup c)
         = toDatabase :: downloads))
  /\ (SecurityGroups.allowPackageDownloads props = Some false ->
        (SecurityGroups.webTierAllowAllOutbound props <> Some true ->
         Observe.egressOf s' (SecurityGroups.webTierSecurityGroup c) = [toAppTier])
        /\ (SecurityGroups.appTierAllowAllOutbound props <> Some true ->
            Observe.egressOf s' (SecurityGroups.appTierSecurityGroup c) = [toDatabase]))
  /\ (SecurityGroups.webTierAllowAllOutbound props = Some true ->
        Observe.egressOf s' (SecurityGroups.webTierSecurityGroup c) = [])
  /\ (SecurityGroups.appTierAllowAllOutbound props = Some true ->
        Observe.egressOf s' (SecurityGroups.appTierSecurityGroup c) = [])
  /\ (forall r,
        In r (Observe.egressOf s' (SecurityGroups.albSecurityGroup c))
        \/ In r (Observe.egressOf s' (SecurityGroups.dbSecurityGroup c)) ->
        ~ Observe.boundToCidr r).
Proof.
  intros Hrun. destruct (SecurityGroupsConstruct_inv _ _ _ _ _ Hrun) as [-> ->].
  cbv zeta. as_tiers. rewrite !egress_of_tier.
  cbn [Observe.groupOf sgEgress Derived.albGroup Derived.webTierGroup Derived.appTierGroup
         Derived.dbGroup Derived.securityGroupRefs SecurityGroups.appTierSecurityGroup
         SecurityGroups.dbSecurityGroup].
  assert (Hdownloads :
    SecurityGroups.allowPackageDownloads props <> Some false ->
    Derived.packageDownloadRules props
    = if decide (SecurityGroups.httpsPort props = SecurityGroups.httpPort props)
      then [ mkRule Peer_anyIpv4 (Port_tcp (SecurityGroups.httpPort props))
               "Allow HTTP for package downloads" ]
      else [ mkRule Peer_anyIpv4 (Port_tcp (SecurityGroups.httpPort props))
               "Allow HTTP for package downloads";
             mkRule Peer_anyIpv4 (Port_tcp (SecurityGroups.httpsPort props))
               "Allow HTTPS for package downloads" ]).
  { intros Hflag. unfold Derived.packageDownloadRules.
    destruct (SecurityGroups.allowPackageDownloads props) as [[|]|];
      [| congruence |]; cbn [Js.nullish];
      destruct (Z.eqb_spec (SecurityGroups.httpsPort props) (SecurityGroups.httpPort props));
      destruct (decide (SecurityGroups.httpsPort props = SecurityGroups.httpPort props));
      try contradiction; reflexivity. }
  assert (Hnone :
    SecurityGroups.allowPackageDownloads props = Some false ->
    Derived.packageDownloadRules props = []).
  { intros Hflag. unfold Derived.packageDownloadRules. rewrite Hflag. reflexivity. }
  split; [|split; [|split; [|split]]].
  - intros Hflag. rewrite (Hdownloads Hflag).
    split; intros Hopen; rewrite (held_closed _ _ Hopen); reflexivity.
  - intros Hflag. rewrite (Hnone Hflag).
    split; intros Hopen; rewrite (held_closed _ _ Hopen); reflexivity.
  - intros ->. apply held_open.
  - intros ->. apply held_open.
  - intros r [Hin|Hin] [cidr Hcidr]; [apply in_held in Hin|];
      cbn in Hin; pick_rule Hin; discriminate Hcidr.
Qed.

End Perimeter.

(** ** Subnet keywords and defaults *)

Section Defaults.
Import Cdk.


Lemma autoScalingGroupAt_first (s l : list Resource) :
  Observe.autoScalingGroupAt (s ++ l) (length s) = Observe.autoScalingGroupAt l 0.
Proof.
  unfold Observe.autoScalingGroupAt.
  rewrite <- (Nat.add_0_r (length s)) at 1. rewrite lookup_tail. reflexivity.
Qed.

(** A run of the application-tier construct that returns has read its
    script, if it was given one, and has left the closed form. *)
Lemma AppTierAsgConstruct_inv props e s c s' :
  AppTierAsg.AppTierAsgConstruct props e s = Ok (c, s') ->
  exists script,
    Derived.userData e (AppTierAsg.userDataScriptPath props) = Ok script
    /\ c = AppTierAsg.mkConstruct (length s)
    /\ s' = s ++ Derived.appTierResources props script (length s).
Proof.
  rewrite AppTierAsgConstruct_run.
  destruct (Derived.userData e (AppTierAsg.userDataScriptPath props)) as [script|msg];
    [|discriminate].
  intros Hrun. injection Hrun as <- <-. exists script. repeat split.
Qed.


(** In every run of the application-tier construct that returns, the
    scaling group has exactly the capacities of the props, the security
    group it was handed and no load-balancer target, and a CPU
    target-tracking policy on that group has the configured target and
    cooldown. *)
Theorem app_tier_group_carries_the_configured_scaling
    (props : AppTierAsg.AppTierAsgConstructProps) (e : Env) (s : list Resource)
    (c : AppTierAsg.AppTierAsgConstructT) (s' : list Resource) :
  AppTierAsg.AppTierAsgConstruct props e s = Ok (c, s') ->
  exists a p,
    Observe.autoScalingGroupAt s' (AppTierAsg.autoScalingGroup c) = Some a
    /\ asgMinCapacity a = AppTierAsg.minCapacity props
    /\ asgMaxCapacity a = AppTierAsg.maxCapacity props
    /\ asgDesiredCapacity a = AppTierAsg.desiredCapacity props
    /\ asgSecurityGroup a = AppTierAsg.securityGroup props
    /\ asgTargetGroups a = []
    /\ In (RScalingPolicy p) s'
    /\ spGroup p = AppTierAsg.autoScalingGroup c
    /\ spTargetUtilizationPercent p = AppTierAsg.targetCpuUtilization props
    /\ spCooldown p = AppTierAsg.cooldown props.
Proof.
  intros Hrun.
  destruct (AppTierAsgConstruct_inv _ _ _ _ _ Hrun) as (script & _ & -> & ->).
  eexists _, _.
  cbn [AppTierAsg.autoScalingGroup]. rewrite autoScalingGroupAt_first.
  split; [reflexivity|].
  do 5 (split; [reflexivity|]).
  split; [apply in_or_app; right; right; left; reflexivity|].
  split; [reflexivity|]. split; reflexivity.
Qed.

End Defaults.

(** ** The stack *)

Section StackGraph.
Import Cdk.

Lemma append_nonempty (a b : string) : b <> EmptyString -> a +:+ b <> EmptyString.
Proof. intros Hb. destruct a; [exact Hb | discriminate]. Qed.

Lemma append_nonempty_l (a b : string) : a <> EmptyString -> a +:+ b <> EmptyString.
Proof. intros Ha. destruct a; [contradiction | discriminate]. Qed.

(** A normalised path is never empty. *)
Lemma normalize_nonempty (path : string) : Path.normalize path <> EmptyString.
Proof.
  unfold Path.normalize.
  destruct (String.eqb path ""); [discriminate|].
  destruct (String.eqb (Path.normalizeString path (negb (String.prefix "/" path))) "")
    eqn:Hbody.
  - destruct (String.prefix "/" path); [discriminate|].
    destruct (Path.endsWithSeparator path); discriminate.
  - apply String.eqb_neq in Hbody.
    apply append_nonempty, append_nonempty_l. exact Hbody.
Qed.

Lemma join_nonempty (segments : list string) : Path.join segments <> EmptyString.
Proof.
  unfold Path.join.
  destruct (List.filter _ segments); [discriminate | apply normalize_nonempty].
Qed.

Lemma userData_of_path e (segments : list string) :
  Derived.userData e (Some (Path.join segments))
  = match files e (Path.join segments) with
    | Some (File script) => Ok [script]
    | Some Directory => Err "EISDIR: illegal operation on a directory, read"
    | None =>
        Err ("ENOENT: no such file or directory, open '" +:+ Path.join segments +:+ "'")
    end.
Proof.
  unfold Derived.userData, Js.truthy.
  destruct (decide (Path.join segments = EmptyString)) as [Hempty|_];
    [exfalso; exact (join_nonempty segments Hempty) | reflexivity].
Qed.

(** With both boot scripts at hand the stack of the embedding returns its
    graph. *)
Lemma HighlyAvailableStack_run e id cfg (web app : string) :
  files e (Stack.webTierUserData e (StackConfig.name (StackConfig.environment cfg)))
  = Some (File web) ->
  files e (Stack.appTierUserData e (StackConfig.name (StackConfig.environment cfg)))
  = Some (File app) ->
  Stack.HighlyAvailableStack e id cfg
  = Ok (Stack.mkGraph id (Stack.tagsOf cfg) (Derived.stackResources cfg e [web] [app])).
Proof.
  intros Hweb Happ. unfold Stack.HighlyAvailableStack.
  rewrite constructor_run.
  unfold Stack.webTierUserData, Stack.appTierUserData in *.
  rewrite !userData_of_path, Hweb, Happ. reflexivity.
Qed.

(** A graph the stack returns was built from the two scripts at hand. *)
Lemma HighlyAvailableStack_inv e id cfg g :
  Stack.HighlyAvailableStack e id cfg = Ok g ->
  exists web app,
    files e (Stack.webTierUserData e (StackConfig.name (StackConfig.environment cfg)))
    = Some (File web)
    /\ files e (Stack.appTierUserData e (StackConfig.name (StackConfig.environment cfg)))
       = Some (File app)
    /\ g = Stack.mkGraph id (Stack.tagsOf cfg) (Derived.stackResources cfg e [web] [app]).
Proof.
  unfold Stack.HighlyAvailableStack. rewrite constructor_run.
  unfold Stack.webTierUserData, Stack.appTierUserData.
  rewrite !userData_of_path.
  destruct (files e (Path.join [_; _; _; "web-tier-user-data-" +:+ _ +:+ _]))
    as [[web|]|]; [|discriminate|discriminate].
  destruct (files e (Path.join [_; _; _; "app-tier-user-data-" +:+ _ +:+ _]))
    as [[app|]|]; [|discriminate|discriminate].
  intros Hg. injection Hg as <-. exists web, app. repeat split.
Qed.

Lemma count_app (kind : Resource -> bool) (a b : list Resource) :
  Observe.count kind (a ++ b) = (Observe.count kind a + Observe.count kind b)%nat.
Proof. unfold Observe.count. rewrite List.filter_app, length_app. reflexivity. Qed.

Lemma count_map_of_kind {A : Type} (kind : Resource -> bool) (f : A -> Resource)
    (l : list A) :
  (forall x, kind (f x) = true) -> Observe.count kind (map f l) = length l.
Proof.
  intros Hkind. unfold Observe.count.
  induction l as [|x l IH]; [reflexivity|].
  cbn. rewrite Hkind. cbn. f_equal. exact IH.
Qed.

Lemma count_map_of_other_kind {A : Type} (kind : Resource -> bool) (f : A -> Resource)
    (l : list A) :
  (forall x, kind (f x) = false) -> Observe.count kind (map f l) = 0%nat.
Proof.
  intros Hkind. unfold Observe.count.
  induction l as [|x l IH]; [reflexivity|].
  cbn. rewrite Hkind. exact IH.
Qed.

Lemma length_zones (maxAzs : Z) : length (VpcNetwork.zones maxAzs) = Z.to_nat maxAzs.
Proof. unfold VpcNetwork.zones. apply length_seq. Qed.

Lemma length_natZones props :
  length (VpcNetwork.natZones props)
  = Nat.min (Z.to_nat (VpcNetwork.natGatewaysCount props))
      (Z.to_nat (VpcNetwork.maxAzs props)).
Proof. unfold VpcNetwork.natZones. rewrite length_take, length_zones. reflexivity. Qed.

(** Counting a kind over the parts of the stack's store. *)
Ltac count_maps :=
  repeat first
    [ rewrite count_map_of_kind by (intros; reflexivity)
    | rewrite count_map_of_other_kind by (intros; reflexivity) ].

Ltac count_network :=
  unfold Derived.vpcResources, VpcNetwork.subnetGroup;
  rewrite !count_app; count_maps; rewrite ?length_zones, ?length_natZones;
  match goal with
  | |- context [VpcNetwork.enableFlowLogs ?p] => destruct (VpcNetwork.enableFlowLogs p)
  end; cbn; lia.

Lemma network_counts props n :
  Observe.count Observe.isVpc (Derived.vpcResources props n) = 1%nat
  /\ Observe.count Observe.isSubnet (Derived.vpcResources props n)
     = (3 * Z.to_nat (VpcNetwork.maxAzs props))%nat
  /\ Observe.count Observe.isNatGateway (Derived.vpcResources props n)
     = Nat.min (Z.to_nat (VpcNetwork.natGatewaysCount props))
         (Z.to_nat (VpcNetwork.maxAzs props))
  /\ Observe.count Observe.isSecurityGroup (Derived.vpcResources props n) = 0%nat
  /\ Observe.count Observe.isLoadBalancer (Derived.vpcResources props n) = 0%nat
  /\ Observe.count Observe.isAutoScalingGroup (Derived.vpcResources props n) = 0%nat
  /\ Observe.count Observe.isDatabaseInstance (Derived.vpcResources props n) = 0%nat.
Proof. repeat split; count_network. Qed.

Ltac count_stack :=
  unfold Derived.stackResources, Derived.afterRds, Derived.afterAppTier,
    Derived.afterWebTier, Derived.afterAlb, Derived.afterGroups, Derived.afterAcls,
    Derived.afterVpc, Stack.outputResources;
  rewrite !count_app; count_maps;
  match goal with
  | |- context [Observe.count _ (Derived.vpcResources ?p ?n)] =>
      destruct (network_counts p n) as (? & ? & ? & ? & ? & ? & ?)
  end;
  repeat match goal with
  | H : Observe.count _ (Derived.vpcResources _ _) = _ |- _ => rewrite ?H; clear H
  end;
  cbn [Observe.count Derived.naclResources Derived.securityGroupResources
         Derived.albResources Derived.webTierResources Derived.appTierResources
         Derived.rdsResources List.filter length
         Observe.isVpc Observe.isSubnet Observe.isNatGateway Observe.isSecurityGroup
         Observe.isLoadBalancer Observe.isAutoScalingGroup Observe.isDatabaseInstance
         Nat.add].

Lemma stack_counts cfg e (web app : list string) :
  Observe.count Observe.isVpc (Derived.stackResources cfg e web app) = 1%nat
  /\ Observe.count Observe.isSubnet (Derived.stackResources cfg e web app)
     = (3 * Z.to_nat (StackConfig.maxAzs (StackConfig.vpc (StackConfig.network cfg))))%nat
  /\ Observe.count Observe.isNatGateway (Derived.stackResources cfg e web app)
     = Nat.min
         (Z.to_nat (StackConfig.natGatewaysCount (StackConfig.vpc (StackConfig.network cfg))))
         (Z.to_nat (StackConfig.maxAzs (StackConfig.vpc (StackConfig.network cfg))))
  /\ Observe.count Observe.isSecurityGroup (Derived.stackResources cfg e web app) = 4%nat
  /\ Observe.count Observe.isLoadBalancer (Derived.stackResources cfg e web app) = 1%nat
  /\ Observe.count Observe.isAutoScalingGroup (Derived.stackResources cfg e web app)
     = 2%nat
  /\ Observe.count Observe.isDatabaseInstance (Derived.stackResources cfg e web app)
     = 1%nat.
Proof. repeat split; count_stack; cbn; lia. Qed.

End StackGraph.

(** ** The resource graph of the stack *)

Section Graph.
Import Cdk.

Lemma omap_map_none {A B C : Type} (f : B -> option C) (g : A -> B) (l : list A) :
  (forall x, f (g x) = None) -> omap f (map g l) = [].
Proof.
  intros Hnone. induction l as [|x l IH]; [reflexivity|].
  cbn. rewrite Hnone. exact IH.
Qed.


Lemma network_has_no_groups props n :
  Observe.securityGroupsOf (Derived.vpcResources props n) = []
  /\ Observe.autoScalingGroupsOf (Derived.vpcResources props n) = [].
Proof.
  unfold Observe.securityGroupsOf, Observe.autoScalingGroupsOf, Derived.vpcResources,
    VpcNetwork.subnetGroup.
  rewrite !omap_app, !omap_map_none by reflexivity.
  destruct (VpcNetwork.enableFlowLogs props); split; reflexivity.
Qed.

Ltac unfold_stack :=
  unfold Derived.stackResources, Derived.afterRds, Derived.afterAppTier,
    Derived.afterWebTier, Derived.afterAlb, Derived.afterGroups, Derived.afterAcls,
    Derived.afterVpc, Stack.outputResources.

(** The security groups of the stack are the four of the security-group
    construct, as it left them: no later step touches them. *)
Lemma stack_security_groups cfg e (web app : list string) :
  Observe.securityGroupsOf (Derived.stackResources cfg e web app)
  = [ Derived.albGroup (Stack.securityGroupsProps cfg Derived.theVpc)
        (length (Derived.afterAcls cfg));
      Derived.webTierGroup (Stack.securityGroupsProps cfg Derived.theVpc)
        (length (Derived.afterAcls cfg));
      Derived.appTierGroup (Stack.securityGroupsProps cfg Derived.theVpc)
        (length (Derived.afterAcls cfg));
      Derived.dbGroup (Stack.securityGroupsProps cfg Derived.theVpc)
        (length (Derived.afterAcls cfg)) ].
Proof.
  unfold_stack. unfold Observe.securityGroupsOf.
  rewrite !omap_app, (omap_map_none _ _ (CfnOutputs.OutputsConstruct _)) by reflexivity.
  destruct (network_has_no_groups (Stack.vpcProps cfg) 0) as [Hnone _].
  unfold Observe.securityGroupsOf in Hnone. rewrite Hnone. reflexivity.
Qed.

Lemma stack_scaling_groups cfg e (web app : list string) :
  Observe.autoScalingGroupsOf (Derived.stackResources cfg e web app)
  = [ Derived.webTierGroupOf
        (Stack.webTierProps cfg e Derived.theVpc (Derived.theGroups cfg)
           (Derived.theAlb cfg)) web;
      Derived.appTierGroupOf
        (Stack.appTierProps cfg e Derived.theVpc (Derived.theGroups cfg)) app ].
Proof.
  unfold_stack. unfold Observe.autoScalingGroupsOf.
  rewrite !omap_app, (omap_map_none _ _ (CfnOutputs.OutputsConstruct _)) by reflexivity.
  destruct (network_has_no_groups (Stack.vpcProps cfg) 0) as [_ Hnone].
  unfold Observe.autoScalingGroupsOf in Hnone. rewrite Hnone. reflexivity.
Qed.


(** The places of the constructs in the stack's store. *)
Lemma stack_web_tier_group cfg e (web app : list string) :
  Observe.autoScalingGroupAt (Derived.stackResources cfg e web app)
    (length (Derived.afterAlb cfg))
  = Some (Derived.webTierGroupOf
            (Stack.webTierProps cfg e Derived.theVpc (Derived.theGroups cfg)
               (Derived.theAlb cfg)) web).
Proof.
  unfold Derived.stackResources, Derived.afterRds, Derived.afterAppTier,
    Derived.afterWebTier, Observe.autoScalingGroupAt.
  rewrite <- !app_assoc, <- (Nat.add_0_r (length (Derived.afterAlb cfg))), lookup_tail.
  reflexivity.
Qed.

Lemma stack_app_tier_group cfg e (web app : list string) :
  Observe.autoScalingGroupAt (Derived.stackResources cfg e web app)
    (length (Derived.afterWebTier cfg e web))
  = Some (Derived.appTierGroupOf
            (Stack.appTierProps cfg e Derived.theVpc (Derived.theGroups cfg)) app).
Proof.
  unfold Derived.stackResources, Derived.afterRds, Derived.afterAppTier,
    Observe.autoScalingGroupAt.
  rewrite <- !app_assoc,
    <- (Nat.add_0_r (length (Derived.afterWebTier cfg e web))), lookup_tail.
  reflexivity.
Qed.

Lemma stack_group_of_tier cfg e (web app : list string) (t : Observe.Tier) :
  Observe.securityGroupAt (Derived.stackResources cfg e web app)
    (Observe.groupOf (Derived.theGroups cfg) t)
  = Some match t with
         | Observe.EDGE =>
             Derived.albGroup (Stack.securityGroupsProps cfg Derived.theVpc)
               (length (Derived.afterAcls cfg))
         | Observe.PRESENTATION =>
             Derived.webTierGroup (Stack.securityGroupsProps cfg Derived.theVpc)
               (length (Derived.afterAcls cfg))
         | Observe.BUSINESS =>
             Derived.appTierGroup (Stack.securityGroupsProps cfg Derived.theVpc)
               (length (Derived.afterAcls cfg))
         | Observe.DATA =>
             Derived.dbGroup (Stack.securityGroupsProps cfg Derived.theVpc)
               (length (Derived.afterAcls cfg))
         end.
Proof.
  unfold Derived.stackResources, Derived.afterRds, Derived.afterAppTier,
    Derived.afterWebTier, Derived.afterAlb, Derived.afterGroups, Derived.theGroups.
  rewrite <- !app_assoc.
  destruct t; cbn [Observe.groupOf Derived.securityGroupRefs
    SecurityGroups.albSecurityGroup SecurityGroups.webTierSecurityGroup
    SecurityGroups.appTierSecurityGroup SecurityGroups.dbSecurityGroup];
    rewrite ?securityGroupAt_tail, ?securityGroupAt_first; reflexivity.
Qed.

(** In every graph the stack returns, the security group attached to the
    database instance is the database group as the security-group construct
    left it: the later steps of the constructor add no rule to it. *)
Lemma stack_database_group e id cfg g :
  Stack.HighlyAvailableStack e id cfg = Ok g ->
  exists d,
    In (RDatabaseInstance d) (Stack.resources g)
    /\ Observe.securityGroupAt (Stack.resources g) (dbSecurityGroup d)
       = Some (Derived.dbGroup (Stack.securityGroupsProps cfg Derived.theVpc)
                 (length (Derived.afterAcls cfg))).
Proof.
  intros Hg. destruct (HighlyAvailableStack_inv e id cfg g Hg) as (web & app & _ & _ & ->).
  cbn [Stack.resources]. eexists. split.
  - unfold Derived.stackResources, Derived.afterRds.
    rewrite !in_app_iff. left; right. right; left. reflexivity.
  - apply (stack_group_of_tier cfg e [web] [app] Observe.DATA).
Qed.

(** C3. In every graph one evaluation of the stack returns there are exactly
    one VPC, one load balancer, two scaling groups (the web tier's and the
    application tier's), one database instance and four security groups
    (load balancer, web tier, application tier, database). *)
Theorem stack_declares_each_component_once
    (e : Env) (id : string) (cfg : StackConfig.t) (g : Stack.Graph) :
  Stack.HighlyAvailableStack e id cfg = Ok g ->
  Observe.count Observe.isVpc (Stack.resources g) = 1%nat
  /\ Observe.count Observe.isLoadBalancer (Stack.resources g) = 1%nat
  /\ Observe.count Observe.isAutoScalingGroup (Stack.resources g) = 2%nat
  /\ Observe.count Observe.isDatabaseInstance (Stack.resources g) = 1%nat
  /\ Observe.count Observe.isSecurityGroup (Stack.resources g) = 4%nat
  /\ map sgDescription (Observe.securityGroupsOf (Stack.resources g))
     = [ "Security group for Application Load Balancer";
         "Security group for Web Tier instances";
         "Security group for Application Tier instances";
         "Security group for RDS database" ]
  /\ (exists web app webGroup appGroup,
        Observe.autoScalingGroupsOf (Stack.resources g) = [web; app]
        /\ Observe.securityGroupAt (Stack.resources g) (asgSecurityGroup web)
           = Some webGroup
        /\ sgDescription webGroup = "Security group for Web Tier instances"
        /\ Observe.securityGroupAt (Stack.resources g) (asgSecurityGroup app)
           = Some appGroup
        /\ sgDescription appGroup = "Security group for Application Tier instances").
Proof.
  intros Hg. destruct (HighlyAvailableStack_inv e id cfg g Hg) as (web & app & _ & _ & ->).
  cbn [Stack.resources].
  destruct (stack_counts cfg e [web] [app]) as (Hvpc & _ & _ & Hsg & Hlb & Hasg & Hdb).
  rewrite stack_security_groups, stack_scaling_groups.
  do 5 (split; [assumption|]). split; [reflexivity|].
  eexists _, _, _, _. split; [reflexivity|].
  cbn [asgSecurityGroup Derived.webTierGroupOf Derived.appTierGroupOf
         WebTierAsg.securityGroup AppTierAsg.securityGroup Stack.webTierProps
         Stack.appTierProps].
  split; [apply (stack_group_of_tier cfg e [web] [app] Observe.PRESENTATION)|].
  split; [reflexivity|].
  split; [apply (stack_group_of_tier cfg e [web] [app] Observe.BUSINESS)|].
  reflexivity.
Qed.





(** C6. In every graph the stack returns, the scaling group that carries the
    web tier's security group has exactly the three capacities configured
    for the web tier, and a CPU target-tracking policy on that group has the
    configured target: with capacities 2, 6 and 2 and the target 70, those
    four values. *)
Theorem web_tier_group_carries_the_configured_scaling
    (e : Env) (id : string) (cfg : StackConfig.t) (g : Stack.Graph) :
  Stack.HighlyAvailableStack e id cfg = Ok g ->
  let webTier := StackConfig.webTier (StackConfig.compute cfg) in
  exists ref a sg p,
    Observe.autoScalingGroupAt (Stack.resources g) ref = Some a
    /\ Observe.securityGroupAt (Stack.resources g) (asgSecurityGroup a) = Some sg
    /\ sgDescription sg = "Security group for Web Tier instances"
    /\ asgMinCapacity a = StackConfig.minCapacity webTier
    /\ asgMaxCapacity a = StackConfig.maxCapacity webTier
    /\ asgDesiredCapacity a = StackConfig.desiredCapacity webTier
    /\ In (RScalingPolicy p) (Stack.resources g)
    /\ spGroup p = ref
    /\ spTargetUtilizationPercent p = StackConfig.targetCpuUtilization webTier.
Proof.
  intros Hg webTier.
  destruct (HighlyAvailableStack_inv e id cfg g Hg) as (web & app & _ & _ & ->).
  cbn [Stack.resources].
  eexists (length (Derived.afterAlb cfg)), _, _, _.
  split; [apply stack_web_tier_group|].
  split; [apply (stack_group_of_tier cfg e [web] [app] Observe.PRESENTATION)|].
  do 4 (split; [reflexivity|]).
  split.
  { unfold Derived.stackResources, Derived.afterRds, Derived.afterAppTier,
      Derived.afterWebTier.
    rewrite !in_app_iff. left; left; left; right. right; left. reflexivity. }
  split; reflexivity.
Qed.


End Graph.

(** ** The properties at concrete inputs *)

Section Instances.
Import Cdk.

(** The unit test "creates four security groups". *)
Example test_creates_four_security_groups :
  exists c s',
    SecurityGroups.SecurityGroupsConstruct Example.testProps Example.devEnv [] = Ok (c, s')
    /\ Observe.count Observe.isSecurityGroup s' = 4%nat.
Proof. eexists _, _. split; [apply SecurityGroupsConstruct_run | reflexivity]. Qed.

(** The stack test "Creates correct number of subnets for 2 AZs". *)
Example test_two_zones_six_subnets :
  exists g,
    Stack.HighlyAvailableStack Example.devEnv "WebApp-Dev-MultiAZ-3TierInfra"
      Example.devConfig = Ok g
    /\ Observe.count Observe.isSubnet (Stack.resources g) = 6%nat
    /\ Observe.count Observe.isNatGateway (Stack.resources g) = 2%nat.
Proof. eexists. split; [vm_compute; reflexivity | split; reflexivity]. Qed.

(** The run of the security-group construct at the props of the unit
    tests. *)
Lemma testProps_run :
  SecurityGroups.SecurityGroupsConstruct Example.testProps Example.devEnv []
  = Ok (Derived.securityGroupRefs 0, Derived.securityGroupResources Example.testProps 0).
Proof. vm_compute. reflexivity. Qed.

(** The runs of the stack at the development configuration and at the one
    with three zones. *)
Lemma devConfig_run :
  Stack.HighlyAvailableStack Example.devEnv "WebApp-Dev-MultiAZ-3TierInfra"
    Example.devConfig
  = Ok (Stack.mkGraph "WebApp-Dev-MultiAZ-3TierInfra" (Stack.tagsOf Example.devConfig)
          (Derived.stackResources Example.devConfig Example.devEnv
             ["#!/bin/bash"] ["#!/bin/bash"])).
Proof. vm_compute. reflexivity. Qed.


(** C1 at the props of the unit tests, where no group allows all outbound
    traffic: each adjacent pair has its two rules. *)
Lemma chain_rules_exactly_between_adjacent_tiers_witness :
  exists c s',
    SecurityGroups.SecurityGroupsConstruct Example.testProps Example.devEnv [] = Ok (c, s')
    /\ forall a b, Observe.following a = Some b ->
         Observe.allowsOn (Observe.ingressOf s' (Observe.groupOf c b))
           (SecurityGroupPeer (Observe.groupOf c a)) (Observe.portOf Example.testProps b)
         /\ Observe.allowsOn (Observe.egressOf s' (Observe.groupOf c a))
              (SecurityGroupPeer (Observe.groupOf c b)) (Observe.portOf Example.testProps b).
Proof.
  eexists _, _. split; [exact testProps_run|].
  intros a b Hab.
  destruct (chain_rules_exactly_between_adjacent_tiers _ _ _ _ _ testProps_run)
    as [Hchain _].
  destruct (Hchain a b Hab) as (Hingress & Hegress & _).
  split; [exact Hingress|]. apply Hegress. destruct a; discriminate.
Defined.

(** C1 as stated fails: a load balancer's group created to allow all
    outbound traffic holds no egress rule towards the web tier, on any
    port. *)
Lemma allow_all_outbound_drops_the_chain_egress :
  exists c s',
    SecurityGroups.SecurityGroupsConstruct Example.openEdgeProps Example.devEnv []
    = Ok (c, s')
    /\ Observe.following Observe.EDGE = Some Observe.PRESENTATION
    /\ Observe.egressOf s' (Observe.groupOf c Observe.EDGE) = []
    /\ forall port,
         ~ Observe.allowsOn (Observe.egressOf s' (Observe.groupOf c Observe.EDGE))
             (SecurityGroupPeer (Observe.groupOf c Observe.PRESENTATION)) port.
Proof.
  eexists _, _. split; [vm_compute; reflexivity|].
  split; [reflexivity|]. split; [reflexivity|].
  intros port (r & Hin & _). exact Hin.
Qed.

(** C2 at the props of the unit tests. *)
Lemma database_group_has_no_egress_witness :
  (SecurityGroups.dbAllowAllOutbound Example.testProps = None
   \/ SecurityGroups.dbAllowAllOutbound Example.testProps = Some false)
  /\ exists c s' g,
       SecurityGroups.SecurityGroupsConstruct Example.testProps Example.devEnv []
       = Ok (c, s')
       /\ Observe.securityGroupAt s' (SecurityGroups.dbSecurityGroup c) = Some g
       /\ sgAllowAllOutbound g = false
       /\ sgEgress g = []
       /\ sgIngress g
          = [ mkRule (SecurityGroupPeer (SecurityGroups.appTierSecurityGroup c))
                (Port_tcp (SecurityGroups.dbPort Example.testProps))
                "Allow MySQL/MariaDB traffic from App Tier instances only" ].
Proof.
  split; [left; reflexivity|].
  apply (database_group_has_no_egress Example.testProps Example.devEnv []).
  left; reflexivity.
Defined.

(** C3 at the development configuration. *)
Lemma stack_declares_each_component_once_witness :
  exists g,
    Stack.HighlyAvailableStack Example.devEnv "WebApp-Dev-MultiAZ-3TierInfra"
      Example.devConfig = Ok g
    /\ Observe.count Observe.isVpc (Stack.resources g) = 1%nat
    /\ Observe.count Observe.isLoadBalancer (Stack.resources g) = 1%nat
    /\ Observe.count Observe.isAutoScalingGroup (Stack.resources g) = 2%nat
    /\ Observe.count Observe.isDatabaseInstance (Stack.resources g) = 1%nat
    /\ Observe.count Observe.isSecurityGroup (Stack.resources g) = 4%nat.
Proof.
  eexists. split; [exact devConfig_run|].
  destruct (stack_declares_each_component_once _ _ _ _ devConfig_run)
    as (Hvpc & Hlb & Hasg & Hdb & Hsg & _).
  repeat split; assumption.
Defined.



(** C6 at the development configuration, whose web tier has the four values
    of the scenario. *)
Lemma web_tier_group_carries_the_configured_scaling_witness :
  exists g ref a sg p,
    Stack.HighlyAvailableStack Example.devEnv "WebApp-Dev-MultiAZ-3TierInfra"
      Example.devConfig = Ok g
    /\ Observe.autoScalingGroupAt (Stack.resources g) ref = Some a
    /\ Observe.securityGroupAt (Stack.resources g) (asgSecurityGroup a) = Some sg
    /\ sgDescription sg = "Security group for Web Tier instances"
    /\ asgMinCapacity a = 2
    /\ asgMaxCapacity a = 6
    /\ asgDesiredCapacity a = 2
    /\ In (RScalingPolicy p) (Stack.resources g)
    /\ spGroup p = ref
    /\ spTargetUtilizationPercent p = 70.
Proof.
  destruct (web_tier_group_carries_the_configured_scaling _ _ _ _ devConfig_run)
    as (ref & a & sg & p & H).
  eexists _, ref, a, sg, p. split; [exact devConfig_run | exact H].
Defined.




(** C10 at the props of the unit tests: package downloads are allowed by
    default, on two different ports. *)
Lemma package_download_egress_rules_witness :
  exists c s',
    SecurityGroups.SecurityGroupsConstruct Example.testProps Example.devEnv [] = Ok (c, s')
    /\ SecurityGroups.allowPackageDownloads Example.testProps = None
    /\ Observe.egressOf s' (SecurityGroups.webTierSecurityGroup c)
       = [ mkRule (SecurityGroupPeer (SecurityGroups.appTierSecurityGroup c)) (Port_tcp 8080)
             "Allow outbound to App Tier instances";
           mkRule Peer_anyIpv4 (Port_tcp 80) "Allow HTTP for package downloads";
           mkRule Peer_anyIpv4 (Port_tcp 443) "Allow HTTPS for package downloads" ]
    /\ Observe.egressOf s' (SecurityGroups.appTierSecurityGroup c)
       = [ mkRule (SecurityGroupPeer (SecurityGroups.dbSecurityGroup c)) (Port_tcp 3306)
             "Allow outbound to database";
           mkRule Peer_anyIpv4 (Port_tcp 80) "Allow HTTP for package downloads";
           mkRule Peer_anyIpv4 (Port_tcp 443) "Allow HTTPS for package downloads" ].
Proof.
  eexists _, _. split; [exact testProps_run|]. split; [reflexivity|].
  destruct (package_download_egress_rules _ _ _ _ _ testProps_run) as [Hallowed _].
  destruct Hallowed as [Hweb Happ]; [discriminate|].
  split; [apply Hweb | apply Happ]; discriminate.
Defined.

(** C10 as stated fails: with one port for HTTP and HTTPS the web tier's and
    the application tier's groups receive one rule for package downloads
    each, not two. *)
Lemma one_port_gives_one_download_rule :
  exists c s',
    SecurityGroups.SecurityGroupsConstruct Example.onePortProps Example.devEnv []
    = Ok (c, s')
    /\ SecurityGroups.allowPackageDownloads Example.onePortProps = None
    /\ Observe.egressOf s' (SecurityGroups.webTierSecurityGroup c)
       = [ mkRule (SecurityGroupPeer (SecurityGroups.appTierSecurityGroup c)) (Port_tcp 8080)
             "Allow outbound to App Tier instances";
           mkRule Peer_anyIpv4 (Port_tcp 80) "Allow HTTP for package downloads" ]
    /\ Observe.egressOf s' (SecurityGroups.appTierSecurityGroup c)
       = [ mkRule (SecurityGroupPeer (SecurityGroups.dbSecurityGroup c)) (Port_tcp 3306)
             "Allow outbound to database";
           mkRule Peer_anyIpv4 (Port_tcp 80) "Allow HTTP for package downloads" ].
Proof.
  eexists _, _. split; [vm_compute; reflexivity|].
  split; [reflexivity|]. split; reflexivity.
Qed.

(** The application-tier construct at props with the development values. *)
Lemma app_tier_group_carries_the_configured_scaling_witness :
  exists c s' a p,
    AppTierAsg.AppTierAsgConstruct Example.unknownSubnetProps Example.devEnv []
    = Ok (c, s')
    /\ Observe.autoScalingGroupAt s' (AppTierAsg.autoScalingGroup c) = Some a
    /\ asgMinCapacity a = 2
    /\ asgMaxCapacity a = 6
    /\ asgDesiredCapacity a = 2
    /\ asgSecurityGroup a = 1%nat
    /\ asgTargetGroups a = []
    /\ In (RScalingPolicy p) s'
    /\ spGroup p = AppTierAsg.autoScalingGroup c
    /\ spTargetUtilizationPercent p = 70
    /\ spCooldown p = 300.
Proof.
  assert (Hrun : AppTierAsg.AppTierAsgConstruct Example.unknownSubnetProps
                   Example.devEnv []
                 = Ok (AppTierAsg.mkConstruct 0,
                       Derived.appTierResources Example.unknownSubnetProps
                         ["#!/bin/bash"] 0))
    by (vm_compute; reflexivity).
  destruct (app_tier_group_carries_the_configured_scaling _ _ _ _ _ Hrun)
    as (a & p & H).
  eexists _, _, a, p. split; [exact Hrun | exact H].
Defined.

End Instances.

(** * Further properties of the code *)

(** ** The security-group construct *)

Section PerimeterFurther.
Import Cdk.

Ltac by_tier :=
  repeat match goal with
  | |- context [SecurityGroups.albSecurityGroup (Derived.securityGroupRefs ?n)] =>
      change (SecurityGroups.albSecurityGroup (Derived.securityGroupRefs n))
        with (Observe.groupOf (Derived.securityGroupRefs n) Observe.EDGE)
  | |- context [SecurityGroups.webTierSecurityGroup (Derived.securityGroupRefs ?n)] =>
      change (SecurityGroups.webTierSecurityGroup (Derived.securityGroupRefs n))
        with (Observe.groupOf (Derived.securityGroupRefs n) Observe.PRESENTATION)
  | |- context [SecurityGroups.appTierSecurityGroup (Derived.securityGroupRefs ?n)] =>
      change (SecurityGroups.appTierSecurityGroup (Derived.securityGroupRefs n))
        with (Observe.groupOf (Derived.securityGroupRefs n) Observe.BUSINESS)
  | |- context [SecurityGroups.dbSecurityGroup (Derived.securityGroupRefs ?n)] =>
      change (SecurityGroups.dbSecurityGroup (Derived.securityGroupRefs n))
        with (Observe.groupOf (Derived.securityGroupRefs n) Observe.DATA)
  end.

(** The rules of a tier's group, listed: those towards a group one by one,
    those for package downloads as a rule to any address. *)
Ltac show_rules H Hpeer :=
  cbn [sgEgress sgIngress Derived.albGroup Derived.webTierGroup
         Derived.appTierGroup Derived.dbGroup app] in H;
  repeat match goal with
  | H' : In _ (_ ++ _) |- _ => apply in_app_or in H'; destruct H' as [H'|H']
  | H' : In _ (Derived.held _ _) |- _ => apply in_held in H'
  | H' : In _ (_ :: _) |- _ => destruct H' as [H'|H']
  | H' : In _ [] |- _ => contradiction
  | H' : In _ (Derived.packageDownloadRules _) |- _ =>
      apply in_packageDownloadRules in H'; rewrite H' in Hpeer; discriminate Hpeer
  end.

Lemma rules_of_tier props (s : list Resource) (t : Observe.Tier) :
  Further.rulesOf (s ++ Derived.securityGroupResources props (length s))
    (Observe.groupOf (Derived.securityGroupRefs (length s)) t)
  = match t with
    | Observe.EDGE =>
        sgIngress (Derived.albGroup props (length s))
        ++ sgEgress (Derived.albGroup props (length s))
    | Observe.PRESENTATION =>
        sgIngress (Derived.webTierGroup props (length s))
        ++ sgEgress (Derived.webTierGroup props (length s))
    | Observe.BUSINESS =>
        sgIngress (Derived.appTierGroup props (length s))
        ++ sgEgress (Derived.appTierGroup props (length s))
    | Observe.DATA =>
        sgIngress (Derived.dbGroup props (length s))
        ++ sgEgress (Derived.dbGroup props (length s))
    end.
Proof.
  unfold Further.rulesOf. rewrite ingress_of_tier, egress_of_tier.
  destruct t; reflexivity.
Qed.

(** A run that returns only appends: the scope keeps every construct it
    held, at its place and unchanged, and gains exactly four security
    groups, in the order load balancer, web tier, application tier,
    database, all in the VPC of the props; the four fields of the construct
    are their positions. *)
Theorem security_groups_are_appended
    (props : SecurityGroups.SecurityGroupsConstructProps) (e : Env) (s : list Resource)
    (c : SecurityGroups.SecurityGroupsConstructT) (s' : list Resource) :
  SecurityGroups.SecurityGroupsConstruct props e s = Ok (c, s') ->
  exists alb web app db,
    s' = s ++ [RSecurityGroup alb; RSecurityGroup web; RSecurityGroup app;
               RSecurityGroup db]
    /\ (forall i r, s !! i = Some r -> s' !! i = Some r)
    /\ map sgDescription [alb; web; app; db]
       = [ "Security group for Application Load Balancer";
           "Security group for Web Tier instances";
           "Security group for Application Tier instances";
           "Security group for RDS database" ]
    /\ map sgVpc [alb; web; app; db]
       = [ SecurityGroups.vpc props; SecurityGroups.vpc props;
           SecurityGroups.vpc props; SecurityGroups.vpc props ]
    /\ map (Observe.groupOf c)
         [Observe.EDGE; Observe.PRESENTATION; Observe.BUSINESS; Observe.DATA]
       = [ length s; S (length s); S (S (length s)); S (S (S (length s))) ].
Proof.
  intros Hrun. destruct (SecurityGroupsConstruct_inv _ _ _ _ _ Hrun) as [-> ->].
  eexists _, _, _, _.
  split; [reflexivity|].
  split; [intros i r Hi; apply lookup_app_l_Some; exact Hi|].
  split; [reflexivity|]. split; [reflexivity|].
  cbn. repeat f_equal; lia.
Qed.

(** Every rule that names a security group names one of the four groups of
    the construct, other than the group that carries the rule, and that
    group is in the store: no rule refers to itself or to a construct that
    does not exist. *)
Theorem rules_refer_to_the_other_groups
    (props : SecurityGroups.SecurityGroupsConstructProps) (e : Env) (s : list Resource) :
  exists c s',
    SecurityGroups.SecurityGroupsConstruct props e s = Ok (c, s')
    /\ forall t r ref,
         In r (Further.rulesOf s' (Observe.groupOf c t)) ->
         rulePeer r = SecurityGroupPeer ref ->
         exists t' g,
           ref = Observe.groupOf c t' /\ t' <> t
           /\ Observe.securityGroupAt s' ref = Some g.
Proof.
  eexists _, _. split; [apply SecurityGroupsConstruct_run|].
  intros t r ref Hin Hpeer. rewrite rules_of_tier in Hin.
  destruct t; show_rules Hin Hpeer; subst r;
    cbn in Hpeer; try discriminate Hpeer; injection Hpeer as <-.
  all: first
    [ exists Observe.EDGE; eexists; split;
        [cbn; lia | split; [discriminate | apply (group_of_tier props s Observe.EDGE)]]
    | exists Observe.PRESENTATION; eexists; split;
        [cbn; lia | split; [discriminate | apply (group_of_tier props s Observe.PRESENTATION)]]
    | exists Observe.BUSINESS; eexists; split;
        [cbn; lia | split; [discriminate | apply (group_of_tier props s Observe.BUSINESS)]]
    | exists Observe.DATA; eexists; split;
        [cbn; lia | split; [discriminate | apply (group_of_tier props s Observe.DATA)]] ].
Qed.

(** The rules between tiers are paired. In every store the construct leaves,
    a group that has an egress rule to another group on a port finds that
    group with an ingress rule from it on the same port. The other way
    round, a group named by an ingress rule has the matching egress rule
    unless it was created to allow all outbound traffic. *)
Theorem tier_rules_are_matched_pairs
    (props : SecurityGroups.SecurityGroupsConstructProps) (e : Env) (s : list Resource)
    (c : SecurityGroups.SecurityGroupsConstructT) (s' : list Resource) :
  SecurityGroups.SecurityGroupsConstruct props e s = Ok (c, s') ->
  forall a b port,
    (Observe.allowsOn (Observe.egressOf s' (Observe.groupOf c a))
       (SecurityGroupPeer (Observe.groupOf c b)) port ->
     Observe.allowsOn (Observe.ingressOf s' (Observe.groupOf c b))
       (SecurityGroupPeer (Observe.groupOf c a)) port)
    /\ (Observe.allowAllOutboundOf props a <> Some true ->
        Observe.allowsOn (Observe.ingressOf s' (Observe.groupOf c b))
          (SecurityGroupPeer (Observe.groupOf c a)) port ->
        Observe.allowsOn (Observe.egressOf s' (Observe.groupOf c a))
          (SecurityGroupPeer (Observe.groupOf c b)) port).
Proof.
  intros Hrun. destruct (SecurityGroupsConstruct_inv _ _ _ _ _ Hrun) as [-> ->].
  intros a b port. rewrite egress_of_tier, ingress_of_tier.
  unfold Observe.allowsOn.
  split.
  - intros (r & Hin & Hpeer & Hport).
    destruct a, b; show_rules Hin Hpeer; subst r;
      cbn in Hpeer, Hport; try discriminate Hpeer;
      try (exfalso; injection Hpeer; lia);
      (eexists; split; [left; reflexivity | split; [reflexivity | exact Hport]]).
  - intros Hflag (r & Hin & Hpeer & Hport).
    destruct a, b; show_rules Hin Hpeer; subst r;
      cbn in Hpeer, Hport; try discriminate Hpeer;
      try (exfalso; injection Hpeer; lia);
      cbn [Observe.allowAllOutboundOf] in Hflag;
      cbn [sgEgress Derived.albGroup Derived.webTierGroup Derived.appTierGroup];
      rewrite (held_closed _ _ Hflag);
      (eexists; split; [left; reflexivity | split; [reflexivity | exact Hport]]).
Qed.

Lemma length_packageDownloadRules props :
  length (Derived.packageDownloadRules props) = Further.downloadRules props.
Proof.
  unfold Derived.packageDownloadRules, Further.downloadRules.
  destruct (Js.nullish (SecurityGroups.allowPackageDownloads props) true);
    [|reflexivity].
  destruct (Z.eqb_spec (SecurityGroups.httpsPort props) (SecurityGroups.httpPort props));
    destruct (decide (SecurityGroups.httpsPort props = SecurityGroups.httpPort props));
    try contradiction; reflexivity.
Qed.

(** The rules the groups hold in a store the construct leaves. Each group
    has one ingress rule. A group created to allow all outbound traffic has
    taken no egress rule, and the database's group has none in any case.
    Otherwise the load balancer's group has one egress rule, and the web
    tier's and the application tier's have one and the rules for package
    downloads: two of them, one when the two ports are the same, none when
    downloads are disabled. With no group allowing all outbound traffic that is seven
    rules and twice the rules for package downloads. *)
Theorem rule_census
    (props : SecurityGroups.SecurityGroupsConstructProps) (e : Env) (s : list Resource)
    (c : SecurityGroups.SecurityGroupsConstructT) (s' : list Resource) :
  SecurityGroups.SecurityGroupsConstruct props e s = Ok (c, s') ->
  (forall t, length (Observe.ingressOf s' (Observe.groupOf c t)) = 1%nat)
  /\ (forall t, Observe.allowAllOutboundOf props t = Some true ->
        length (Observe.egressOf s' (Observe.groupOf c t)) = 0%nat)
  /\ length (Observe.egressOf s' (SecurityGroups.dbSecurityGroup c)) = 0%nat
  /\ (SecurityGroups.albAllowAllOutbound props <> Some true ->
        length (Observe.egressOf s' (SecurityGroups.albSecurityGroup c)) = 1%nat)
  /\ (forall t, t = Observe.PRESENTATION \/ t = Observe.BUSINESS ->
        Observe.allowAllOutboundOf props t <> Some true ->
        length (Observe.egressOf s' (Observe.groupOf c t))
        = (1 + Further.downloadRules props)%nat)
  /\ ((forall t, Observe.allowAllOutboundOf props t <> Some true) ->
        length
          (concat
             (map (fun t => Further.rulesOf s' (Observe.groupOf c t))
                [Observe.EDGE; Observe.PRESENTATION; Observe.BUSINESS; Observe.DATA]))
        = (7 + 2 * Further.downloadRules props)%nat).
Proof.
  intros Hrun. destruct (SecurityGroupsConstruct_inv _ _ _ _ _ Hrun) as [-> ->].
  cbn [map]. by_tier.
  split; [intros t; rewrite ingress_of_tier; destruct t; reflexivity|].
  split.
  { intros t Hflag. rewrite egress_of_tier.
    destruct t; cbn [Observe.allowAllOutboundOf] in Hflag;
      cbn [sgEgress Derived.albGroup Derived.webTierGroup Derived.appTierGroup
             Derived.dbGroup];
      rewrite ?Hflag; reflexivity. }
  split; [rewrite egress_of_tier; reflexivity|].
  split.
  { intros Hflag. rewrite egress_of_tier. cbn [sgEgress Derived.albGroup].
    rewrite (held_closed _ _ Hflag). reflexivity. }
  split.
  { intros t [-> | ->] Hflag; rewrite egress_of_tier;
      cbn [Observe.allowAllOutboundOf] in Hflag;
      cbn [sgEgress Derived.webTierGroup Derived.appTierGroup];
      rewrite (held_closed _ _ Hflag); cbn [length];
      rewrite length_packageDownloadRules; reflexivity. }
  intros Hflags. rewrite !rules_of_tier.
  pose proof (Hflags Observe.EDGE) as Halb.
  pose proof (Hflags Observe.PRESENTATION) as Hweb.
  pose proof (Hflags Observe.BUSINESS) as Happ.
  cbn [Observe.allowAllOutboundOf] in Halb, Hweb, Happ.
  cbn [sgEgress sgIngress Derived.albGroup Derived.webTierGroup Derived.appTierGroup
         Derived.dbGroup].
  rewrite (held_closed _ _ Halb), (held_closed _ _ Hweb), (held_closed _ _ Happ).
  cbn [concat app length]. rewrite !length_app. cbn [length].
  rewrite !length_app. cbn [length]. rewrite length_packageDownloadRules. lia.
Qed.

(** Allowing or forbidding package downloads touches the egress rules of the
    web tier and of the application tier only: whatever the setting, the
    ingress rules of the four groups and the whole groups of the load
    balancer and of the database are the same, and the rule towards the next
    tier stays the first egress rule of the two compute tiers. *)
Theorem package_downloads_leave_the_chain_alone
    (props : SecurityGroups.SecurityGroupsConstructProps) (flag : option bool)
    (e : Env) (s : list Resource) :
  exists c s' c2 s2,
    SecurityGroups.SecurityGroupsConstruct props e s = Ok (c, s')
    /\ SecurityGroups.SecurityGroupsConstruct
         (Conditions.withAllowPackageDownloads flag props) e s = Ok (c2, s2)
    /\ c2 = c
    /\ (forall t, Observe.ingressOf s2 (Observe.groupOf c t)
                  = Observe.ingressOf s' (Observe.groupOf c t))
    /\ Observe.securityGroupAt s2 (SecurityGroups.albSecurityGroup c)
       = Observe.securityGroupAt s' (SecurityGroups.albSecurityGroup c)
    /\ Observe.securityGroupAt s2 (SecurityGroups.dbSecurityGroup c)
       = Observe.securityGroupAt s' (SecurityGroups.dbSecurityGroup c)
    /\ (forall t, t = Observe.PRESENTATION \/ t = Observe.BUSINESS ->
          head (Observe.egressOf s2 (Observe.groupOf c t))
          = head (Observe.egressOf s' (Observe.groupOf c t))).
Proof.
  eexists _, _, _, _. split; [apply SecurityGroupsConstruct_run|].
  split; [apply SecurityGroupsConstruct_run|].
  split; [reflexivity|].
  by_tier. rewrite !group_of_tier.
  split; [intros t; rewrite !ingress_of_tier; destruct t; reflexivity|].
  split; [reflexivity|]. split; [reflexivity|].
  intros t [-> | ->]; rewrite !egress_of_tier;
    cbn [sgEgress Derived.webTierGroup Derived.appTierGroup Conditions.withAllowPackageDownloads
           SecurityGroups.webTierAllowAllOutbound SecurityGroups.appTierAllowAllOutbound
           SecurityGroups.appTierPort SecurityGroups.dbPort];
    unfold Derived.held;
    match goal with
    | |- context [Js.nullish ?f false] => destruct (Js.nullish f false)
    end; reflexivity.
Qed.

Lemma sanitizeId_plain (name : string) :
  Conditions.plain name -> sanitizeId name = name.
Proof.
  unfold Conditions.plain.
  induction name as [|x name IH]; intros Hplain; [reflexivity|].
  cbn [sanitizeId].
  destruct (Ascii.eqb_spec x "/"%char) as [->|_].
  - exfalso. apply Hplain. left. reflexivity.
  - f_equal. apply IH. intros Hin. apply Hplain. right. exact Hin.
Qed.

(** In every store the construct leaves, a group given no name, or the
    empty name, goes by its default construct id, and a group given a name
    goes by that name, with each path separator in it escaped as two
    dashes: a name without a separator is kept as it is. A group allows all
    outbound traffic only when its own flag is set to [true]: an absent
    flag is [false]. *)
Theorem group_names_and_outbound_flags
    (props : SecurityGroups.SecurityGroupsConstructProps) (e : Env) (s : list Resource)
    (c : SecurityGroups.SecurityGroupsConstructT) (s' : list Resource) :
  SecurityGroups.SecurityGroupsConstruct props e s = Ok (c, s') ->
  forall t, exists g,
    Observe.securityGroupAt s' (Observe.groupOf c t) = Some g
    /\ (Further.nameOf props t = None \/ Further.nameOf props t = Some EmptyString ->
        sgId g = Further.defaultNameOf t)
    /\ (forall name, Further.nameOf props t = Some name -> name <> EmptyString ->
        sgId g = sanitizeId name
        /\ Conditions.plain (sgId g)
        /\ (Conditions.plain name -> sgId g = name))
    /\ (sgAllowAllOutbound g = true <-> Observe.allowAllOutboundOf props t = Some true).
Proof.
  intros Hrun. destruct (SecurityGroupsConstruct_inv _ _ _ _ _ Hrun) as [-> ->].
  assert (Hescaped : forall name, Conditions.plain (sanitizeId name)).
  { unfold Conditions.plain. induction name as [|x name IH]; [intros []|].
    cbn [sanitizeId]. destruct (Ascii.eqb_spec x "/"%char) as [->|Hx]; cbn.
    - intros [H|[H|H]]; [discriminate H | discriminate H | exact (IH H)].
    - intros [H|H]; [congruence | exact (IH H)]. }
  intros t. eexists. split; [apply group_of_tier|].
  destruct t; cbn [sgId sgAllowAllOutbound Derived.albGroup Derived.webTierGroup
                     Derived.appTierGroup Derived.dbGroup Further.nameOf
                     Further.defaultNameOf Observe.allowAllOutboundOf].
  all: split; [intros [-> | ->]; reflexivity|].
  all: split;
    [ intros name -> Hname; unfold Js.or;
      destruct (decide (name = EmptyString)); [contradiction|];
      split; [reflexivity | split; [apply Hescaped | apply sanitizeId_plain]] |].
  all: match goal with
       | |- context [Js.nullish ?flag false] => destruct flag as [[|]|]
       end; cbn; split; congruence.
Qed.

(** The database port is opened between the application tier and the
    database only: whatever [dbPort] is, the groups of the load balancer and
    of the web tier are the same, and so are the ingress rule of the
    application tier's group and every rule to an address range. *)
Theorem database_port_stays_behind_the_application_tier
    (props : SecurityGroups.SecurityGroupsConstructProps) (port : Z)
    (e : Env) (s : list Resource) :
  exists c s' c2 s2,
    SecurityGroups.SecurityGroupsConstruct props e s = Ok (c, s')
    /\ SecurityGroups.SecurityGroupsConstruct (Further.withDbPort port props) e s
       = Ok (c2, s2)
    /\ c2 = c
    /\ Observe.securityGroupAt s2 (SecurityGroups.albSecurityGroup c)
       = Observe.securityGroupAt s' (SecurityGroups.albSecurityGroup c)
    /\ Observe.securityGroupAt s2 (SecurityGroups.webTierSecurityGroup c)
       = Observe.securityGroupAt s' (SecurityGroups.webTierSecurityGroup c)
    /\ Observe.ingressOf s2 (SecurityGroups.appTierSecurityGroup c)
       = Observe.ingressOf s' (SecurityGroups.appTierSecurityGroup c)
    /\ (forall t r, Observe.boundToCidr r ->
          (In r (Further.rulesOf s2 (Observe.groupOf c t))
           <-> In r (Further.rulesOf s' (Observe.groupOf c t)))).
Proof.
  eexists _, _, _, _. split; [apply SecurityGroupsConstruct_run|].
  split; [apply SecurityGroupsConstruct_run|].
  split; [reflexivity|].
  by_tier. rewrite !group_of_tier, !ingress_of_tier.
  split; [reflexivity|]. split; [reflexivity|]. split; [reflexivity|].
  intros t r [cidr Hcidr]. rewrite !rules_of_tier.
  destruct t; try reflexivity.
  - cbn [sgEgress sgIngress Derived.appTierGroup app].
    change (Derived.packageDownloadRules (Further.withDbPort port props))
      with (Derived.packageDownloadRules props).
    cbn [Further.withDbPort SecurityGroups.appTierAllowAllOutbound
           SecurityGroups.appTierPort SecurityGroups.dbPort].
    unfold Derived.held.
    destruct (Js.nullish (SecurityGroups.appTierAllowAllOutbound props) false);
      cbn [In]; [reflexivity|].
    split; intros [H|[H|H]]; try (subst r; discriminate Hcidr); tauto.
  - cbn [sgEgress sgIngress Derived.dbGroup app In].
    split; intros [H|H]; try (subst r; discriminate Hcidr); tauto.
Qed.

End PerimeterFurther.

(** ** The application-tier construct *)

Section ComputeFurther.
Import Cdk.

(** Given no script path, or the empty path, the construct reads no file:
    in every environment it returns, with the same store, and the group has
    no user data. *)
Theorem no_script_path_reads_nothing
    (props : AppTierAsg.AppTierAsgConstructProps) (e1 e2 : Env) (s : list Resource) :
  AppTierAsg.userDataScriptPath props = None
  \/ AppTierAsg.userDataScriptPath props = Some EmptyString ->
  exists c s' a,
    AppTierAsg.AppTierAsgConstruct props e1 s = Ok (c, s')
    /\ AppTierAsg.AppTierAsgConstruct props e2 s = Ok (c, s')
    /\ Observe.autoScalingGroupAt s' (AppTierAsg.autoScalingGroup c) = Some a
    /\ asgUserData a = [].
Proof.
  intros Hpath. rewrite !AppTierAsgConstruct_run.
  assert (Hnone : forall e, Derived.userData e (AppTierAsg.userDataScriptPath props)
                            = Ok []).
  { intros e. destruct Hpath as [-> | ->]; reflexivity. }
  rewrite !Hnone. eexists _, _, _. split; [reflexivity|]. split; [reflexivity|].
  cbn [AppTierAsg.autoScalingGroup]. rewrite autoScalingGroupAt_first.
  split; reflexivity.
Qed.

(** Given a script path that is not empty, the construct returns only if a
    file can be read at that path: when nothing is there, or a directory
    is, the construct fails, and the user data of a group that is returned
    is the text of the file, once. *)
Theorem script_path_is_read_or_the_construct_fails
    (props : AppTierAsg.AppTierAsgConstructProps) (e : Env) (s : list Resource)
    (path : string) :
  AppTierAsg.userDataScriptPath props = Some path ->
  path <> EmptyString ->
  ((forall script, files e path <> Some (File script)) ->
   exists msg, AppTierAsg.AppTierAsgConstruct props e s = Err msg)
  /\ (forall c s',
        AppTierAsg.AppTierAsgConstruct props e s = Ok (c, s') ->
        exists script a,
          files e path = Some (File script)
          /\ Observe.autoScalingGroupAt s' (AppTierAsg.autoScalingGroup c) = Some a
          /\ asgUserData a = [script]).
Proof.
  intros Hpath Hnonempty. rewrite AppTierAsgConstruct_run, Hpath.
  unfold Derived.userData, Js.truthy.
  destruct (decide (path = EmptyString)); [contradiction|].
  split.
  - intros Hnone. destruct (files e path) as [[script|]|];
      [exfalso; exact (Hnone script eq_refl) | eexists; reflexivity | eexists; reflexivity].
  - intros c s'. destruct (files e path) as [[script|]|]; [|discriminate|discriminate].
    intros Hrun. injection Hrun as <- <-.
    eexists _, _. split; [reflexivity|].
    cbn [AppTierAsg.autoScalingGroup]. rewrite autoScalingGroupAt_first.
    split; reflexivity.
Qed.

(** The group requires IMDSv2 unless the props say [false]: an absent
    [requireImdsv2] enforces it. *)
Theorem imdsv2_is_required_unless_disabled
    (props : AppTierAsg.AppTierAsgConstructProps) (e : Env) (s : list Resource)
    (c : AppTierAsg.AppTierAsgConstructT) (s' : list Resource) :
  AppTierAsg.AppTierAsgConstruct props e s = Ok (c, s') ->
  exists a,
    Observe.autoScalingGroupAt s' (AppTierAsg.autoScalingGroup c) = Some a
    /\ (asgRequireImdsv2 a = false <-> AppTierAsg.requireImdsv2 props = Some false).
Proof.
  rewrite AppTierAsgConstruct_run.
  destruct (Derived.userData e (AppTierAsg.userDataScriptPath props)) as [script|msg];
    [|discriminate].
  intros Hrun. injection Hrun as <- <-.
  eexists. cbn [AppTierAsg.autoScalingGroup]. rewrite autoScalingGroupAt_first.
  split; [reflexivity|].
  cbn [asgRequireImdsv2 Derived.appTierGroupOf].
  destruct (AppTierAsg.requireImdsv2 props) as [[|]|]; cbn; split; congruence.
Qed.

(** A run that returns only appends: the scope keeps every construct it held
    and gains the scaling group and, after it, its CPU policy. The group has
    one block device, with the volume of the props, the health check of the
    props, and one cooldown shared with the policy. *)
Theorem app_tier_appends_a_group_and_its_policy
    (props : AppTierAsg.AppTierAsgConstructProps) (e : Env) (s : list Resource)
    (c : AppTierAsg.AppTierAsgConstructT) (s' : list Resource) :
  AppTierAsg.AppTierAsgConstruct props e s = Ok (c, s') ->
  exists a p,
    s' = s ++ [RAutoScalingGroup a; RScalingPolicy p]
    /\ AppTierAsg.autoScalingGroup c = length s
    /\ spGroup p = length s
    /\ spCooldown p = asgCooldown a
    /\ asgBlockDevices a
       = [ mkBlockDevice (AppTierAsg.deviceName props) (AppTierAsg.volumeSize props)
             (AppTierAsg.volumeType props) (AppTierAsg.encrypted props)
             (AppTierAsg.deleteOnTermination props) (AppTierAsg.iops props) ]
    /\ asgHealthCheckType a = Some (AppTierAsg.healthCheckType props)
    /\ asgHealthCheckGracePeriod a = Some (AppTierAsg.healthCheckGracePeriod props)
    /\ asgInstanceType a = (AppTierAsg.instanceClass props, AppTierAsg.instanceSize props).
Proof.
  rewrite AppTierAsgConstruct_run.
  destruct (Derived.userData e (AppTierAsg.userDataScriptPath props)) as [script|msg];
    [|discriminate].
  intros Hrun. injection Hrun as <- <-.
  eexists _, _. repeat split.
Qed.

End ComputeFurther.

(** ** The stack and its application tier *)

Section StackFurther.
Import Cdk.

(** The stack looks for the application tier's boot script at
    [scripts/app-tier-user-data-<environment>.sh] beside the directory of
    its code. When no file can be read there, the stack returns no graph. *)
Theorem stack_needs_the_application_tier_script
    (e : Env) (id : string) (cfg : StackConfig.t) :
  (forall script,
     files e (Path.join [dirname e; ".."; "scripts";
                         "app-tier-user-data-"
                         +:+ StackConfig.name (StackConfig.environment cfg) +:+ ".sh"])
     <> Some (File script)) ->
  exists msg, Stack.HighlyAvailableStack e id cfg = Err msg.
Proof.
  intros Habsent.
  destruct (Stack.HighlyAvailableStack e id cfg) as [g|msg] eqn:Hg;
    [|exists msg; reflexivity].
  destruct (HighlyAvailableStack_inv e id cfg g Hg) as (web & app & _ & Happ & _).
  exfalso. exact (Habsent app Happ).
Qed.

(** In every graph the stack returns, the application tier's scaling group
    carries the capacities, instance shape and CPU target of
    [compute.appTier], the volume of [compute.storage], the text of its boot
    script and the application tier's security group, and is attached to no
    load-balancer target group. *)
Theorem stack_wires_the_application_tier
    (e : Env) (id : string) (cfg : StackConfig.t) (g : Stack.Graph) :
  Stack.HighlyAvailableStack e id cfg = Ok g ->
  let appTier := StackConfig.appTier (StackConfig.compute cfg) in
  let storage := StackConfig.storage (StackConfig.compute cfg) in
  exists ref a sg p script,
    Observe.autoScalingGroupAt (Stack.resources g) ref = Some a
    /\ files e (Stack.appTierUserData e (StackConfig.name (StackConfig.environment cfg)))
       = Some (File script)
    /\ asgUserData a = [script]
    /\ asgId a
       = sanitizeId
           (Js.or (StackConfig.appTierAutoScalingGroup (StackConfig.resourceNames cfg))
              "AppTierAutoScalingGroup")
    /\ Observe.securityGroupAt (Stack.resources g) (asgSecurityGroup a) = Some sg
    /\ sgDescription sg = "Security group for Application Tier instances"
    /\ asgTargetGroups a = []
    /\ asgMinCapacity a = StackConfig.minCapacity appTier
    /\ asgMaxCapacity a = StackConfig.maxCapacity appTier
    /\ asgDesiredCapacity a = StackConfig.desiredCapacity appTier
    /\ asgInstanceType a
       = (StackConfig.instanceClass appTier, StackConfig.instanceSize appTier)
    /\ asgBlockDevices a
       = [ mkBlockDevice (StackConfig.deviceName storage) (StackConfig.volumeSize storage)
             (StackConfig.volumeType storage) (StackConfig.encrypted storage)
             (StackConfig.deleteOnTermination storage) (StackConfig.iops storage) ]
    /\ In (RScalingPolicy p) (Stack.resources g)
    /\ spGroup p = ref
    /\ spTargetUtilizationPercent p = StackConfig.targetCpuUtilization appTier.
Proof.
  intros Hg appTier storage.
  destruct (HighlyAvailableStack_inv e id cfg g Hg) as (web & app & Hweb & Happ & ->).
  cbn [Stack.resources].
  eexists (length (Derived.afterWebTier cfg e [web])), _, _, _, app.
  split; [apply stack_app_tier_group|].
  split; [exact Happ|]. split; [reflexivity|]. split; [reflexivity|].
  split; [apply (stack_group_of_tier cfg e [web] [app] Observe.BUSINESS)|].
  do 7 (split; [reflexivity|]).
  split.
  { unfold Derived.stackResources, Derived.afterRds, Derived.afterAppTier.
    rewrite !in_app_iff. left; left; right. right; left. reflexivity. }
  split; reflexivity.
Qed.

(** In every graph the stack returns, the stack has granted read access to
    the credentials of the database to the scaling group of the application
    tier: a reader of the secret is the group that carries the application
    tier's security group, the one group the database's security group
    admits, on [dbPort]; it is attached to no load-balancer target group. *)
Theorem stack_grants_the_application_tier_the_credentials
    (e : Env) (id : string) (cfg : StackConfig.t) (g : Stack.Graph) :
  Stack.HighlyAvailableStack e id cfg = Ok g ->
  exists secret reader a database,
    In (RSecret secret) (Stack.resources g)
    /\ In reader (secReaders secret)
    /\ Observe.autoScalingGroupAt (Stack.resources g) reader = Some a
    /\ asgTargetGroups a = []
    /\ asgMinCapacity a = StackConfig.minCapacity (StackConfig.appTier (StackConfig.compute cfg))
    /\ nth_error (Observe.securityGroupsOf (Stack.resources g)) 3 = Some database
    /\ sgDescription database = "Security group for RDS database"
    /\ sgIngress database
       = [ mkRule (SecurityGroupPeer (asgSecurityGroup a))
             (Port_tcp (StackConfig.dbPort (StackConfig.security (StackConfig.network cfg))))
             "Allow MySQL/MariaDB traffic from App Tier instances only" ].
Proof.
  intros Hg.
  destruct (HighlyAvailableStack_inv e id cfg g Hg) as (web & app & _ & _ & ->).
  cbn [Stack.resources].
  eexists _, (length (Derived.afterWebTier cfg e [web])), _, _.
  split.
  { unfold Derived.stackResources, Derived.afterRds.
    rewrite !in_app_iff. left; right. left. reflexivity. }
  split; [left; reflexivity|].
  split; [apply stack_app_tier_group|].
  split; [reflexivity|]. split; [reflexivity|].
  rewrite stack_security_groups.
  split; [reflexivity|]. split; [reflexivity|].
  cbn [sgIngress Derived.dbGroup asgSecurityGroup Derived.appTierGroupOf
         AppTierAsg.securityGroup Stack.appTierProps SecurityGroups.appTierSecurityGroup
         Derived.theGroups Derived.securityGroupRefs SecurityGroups.dbPort
         Stack.securityGroupsProps].
  reflexivity.
Qed.

End StackFurther.

(** ** The outputs construct *)

Section OutputsFurther.

Lemma string_app_assoc (a b c : string) : (a +:+ b) +:+ c = a +:+ (b +:+ c).
Proof.
  induction a as [|x a IH]; [reflexivity|].
  change (String x ((a +:+ b) +:+ c) = String x (a +:+ (b +:+ c))).
  f_equal. exact IH.
Qed.

Lemma list_of_append (a b : string) :
  String.list_ascii_of_string (a +:+ b) = String.list_ascii_of_string a ++ String.list_ascii_of_string b.
Proof.
  induction a as [|x a IH]; [reflexivity|].
  change (x :: String.list_ascii_of_string (a +:+ b)
          = x :: (String.list_ascii_of_string a ++ String.list_ascii_of_string b)).
  f_equal. exact IH.
Qed.

Lemma agree_heads (l1 l2 r1 r2 : list Ascii.ascii) :
  l1 ++ r1 = l2 ++ r2 -> Further.agree l1 l2 = true.
Proof.
  revert l2. induction l1 as [|x l1 IH]; intros [|y l2] Heq; try reflexivity.
  cbn in Heq. injection Heq as -> Heq. cbn.
  destruct (decide (y = y)); [|contradiction]. exact (IH l2 Heq).
Qed.

(** Two strings that are equal end alike. *)
Lemma suffixes_agree (a b u v : string) :
  a +:+ u = b +:+ v ->
  Further.agree (rev (String.list_ascii_of_string u)) (rev (String.list_ascii_of_string v)) = true.
Proof.
  intros Heq. apply (f_equal String.list_ascii_of_string) in Heq.
  rewrite !list_of_append in Heq. apply (f_equal (@rev Ascii.ascii)) in Heq.
  rewrite !rev_app_distr in Heq. exact (agree_heads _ _ _ _ Heq).
Qed.

Lemma append_cancel_suffix (a b u : string) : a +:+ u = b +:+ u -> a = b.
Proof.
  intros Heq. apply (f_equal String.list_ascii_of_string) in Heq.
  rewrite !list_of_append in Heq. apply app_inv_tail in Heq.
  apply (f_equal String.string_of_list_ascii) in Heq.
  rewrite !String.string_of_list_ascii_of_string in Heq. exact Heq.
Qed.

Ltac each_output H :=
  repeat (destruct H as [H|H]; [subst|]); try contradiction.

(** The construct creates twelve outputs under twelve different ids. An
    output is exported unless it is the application URL or the ARN of the
    credentials, and its export name is the environment, the fixed middle
    part and its own id. *)
Theorem outputs_are_named_after_their_ids (props : CfnOutputs.OutputsConstructProps) :
  length (CfnOutputs.OutputsConstruct props) = 12%nat
  /\ List.NoDup (map CfnOutputs.id (CfnOutputs.OutputsConstruct props))
  /\ (forall o, In o (CfnOutputs.OutputsConstruct props) ->
        (CfnOutputs.exportName o = None
         <-> CfnOutputs.id o = "ApplicationURL" \/ CfnOutputs.id o = "DatabaseSecretArn")
        /\ (forall name, CfnOutputs.exportName o = Some name ->
              name = CfnOutputs.environment props +:+ "-HighlyAvailable3Tier" +:+ "-"
                     +:+ CfnOutputs.id o)).
Proof.
  split; [reflexivity|]. split.
  - cbn. repeat (constructor; [cbn; intuition discriminate|]). constructor.
  - intros o Hin. cbn in Hin. each_output Hin; cbn [CfnOutputs.exportName CfnOutputs.id].
    all: split;
      [ split; [intros Hnone | intros [Hid | Hid]];
        first [discriminate | tauto | reflexivity]
      | intros name Hname; first [discriminate Hname | idtac] ].
    all: injection Hname as <-; unfold CfnOutputs.exportPrefix;
      rewrite string_app_assoc; reflexivity.
Qed.

(** Export names never clash: two outputs, of one stack or of the stacks of
    two environments, bear the same export name only when they have the same
    id and the two environments have the same name. *)
Theorem export_names_do_not_clash
    (props1 props2 : CfnOutputs.OutputsConstructProps) (o1 o2 : CfnOutputs.CfnOutput)
    (name : string) :
  In o1 (CfnOutputs.OutputsConstruct props1) ->
  In o2 (CfnOutputs.OutputsConstruct props2) ->
  CfnOutputs.exportName o1 = Some name ->
  CfnOutputs.exportName o2 = Some name ->
  CfnOutputs.id o1 = CfnOutputs.id o2
  /\ CfnOutputs.environment props1 = CfnOutputs.environment props2.
Proof.
  intros Hin1 Hin2 Hname1 Hname2.
  cbn in Hin1. each_output Hin1; cbn in Hname1; try discriminate Hname1;
    injection Hname1 as <-.
  all: cbn in Hin2; each_output Hin2; cbn in Hname2; try discriminate Hname2;
    injection Hname2 as Heq.
  all: try (apply suffixes_agree in Heq; vm_compute in Heq; discriminate Heq).
  all: split; [reflexivity|].
  all: apply append_cancel_suffix in Heq; unfold CfnOutputs.exportPrefix in Heq;
    apply append_cancel_suffix in Heq; congruence.
Qed.

(** The output of the credentials carries the ARN of the database's secret;
    when the database has no secret, or the ARN is empty, it carries ["N/A"]
    instead. It is never empty and never exported. *)
Theorem credentials_output_falls_back (props : CfnOutputs.OutputsConstructProps) :
  exists o,
    CfnOutputs.outputNamed "DatabaseSecretArn" (CfnOutputs.OutputsConstruct props) = Some o
    /\ CfnOutputs.exportName o = None
    /\ CfnOutputs.value o <> EmptyString
    /\ (CfnOutputs.secret (CfnOutputs.database props) = None ->
        CfnOutputs.value o = "N/A")
    /\ (forall sec, CfnOutputs.secret (CfnOutputs.database props) = Some sec ->
          CfnOutputs.value o
          = if decide (CfnOutputs.secretArn sec = EmptyString) then "N/A"
            else CfnOutputs.secretArn sec).
Proof.
  eexists. split; [reflexivity|]. split; [reflexivity|].
  cbn [CfnOutputs.value]. unfold CfnOutputs.databaseSecretArn.
  destruct (CfnOutputs.secret (CfnOutputs.database props)) as [sec|];
    cbn [option_map Js.or].
  - split; [destruct (decide (CfnOutputs.secretArn sec = EmptyString));
            [discriminate | assumption]|].
    split; [discriminate|]. intros sec' Hsec. injection Hsec as <-. reflexivity.
  - split; [discriminate|]. split; [reflexivity|]. discriminate.
Qed.

End OutputsFurther.

(** ** The server of the application tier *)

Section ServerFurther.

Lemma or_default_nonempty (a : option string) (d : string) :
  d <> EmptyString -> Js.or a d <> EmptyString.
Proof.
  intros Hd. unfold Js.or. destruct a as [x|]; [|exact Hd].
  destruct (decide (x = EmptyString)); assumption.
Qed.

(** Whatever the URL and the method, the first calls on the response are a
    head with status 200 and JSON content and the end of the response, whose
    body reports the path and the method of the request and the status
    [healthy]. The three identity fields are never empty: a variable that is
    unset or empty is reported as [unknown]. *)
Theorem every_request_is_answered_with_200
    (node : AppServer.Node) (h : AppServer.Host) (req : AppServer.Request) :
  exists body rest,
    AppServer.onRequest node h req
    = AppServer.writeHead 200 "application/json" :: AppServer.end_ body :: rest
    /\ AppServer.field "status" body = Some "healthy"
    /\ AppServer.field "path" body = Some (AppServer.url req)
    /\ AppServer.field "method" body = Some (AppServer.method req)
    /\ AppServer.field "timestamp" body = Some (AppServer.now req)
    /\ AppServer.field "hostname" body = Some (AppServer.hostname h)
    /\ (forall name value,
          In name ["instanceId"; "availabilityZone"; "privateIp"] ->
          AppServer.field name body = Some value -> value <> EmptyString)
    /\ (AppServer.INSTANCE_ID (AppServer.env h) = None ->
        AppServer.field "instanceId" body = Some "unknown").
Proof.
  exists (AppServer.Json (AppServer.response h req)).
  exists (skipn 2 (AppServer.onRequest node h req)).
  split.
  { unfold AppServer.onRequest, AppServer.serve, AppServer.healthListener.
    destruct node, (decide (AppServer.url req = "/health")); reflexivity. }
  do 5 (split; [reflexivity|]).
  split.
  - intros name value Hname Hvalue. cbn in Hname.
    destruct Hname as [<-|[<-|[<-|[]]]]; cbn in Hvalue; injection Hvalue as <-;
      apply or_default_nonempty; discriminate.
  - intros Hunset. cbn. unfold AppServer.instanceId. rewrite Hunset. reflexivity.
Qed.


End ServerFurther.

(** ** The further properties at concrete inputs *)

Section FurtherInstances.
Import Cdk.

(** The run of the security-group construct at props that name two of the
    groups, open the web tier's group and disable package downloads. *)
Lemma namedProps_run :
  SecurityGroups.SecurityGroupsConstruct Sample.namedProps Example.devEnv []
  = Ok (Derived.securityGroupRefs 0, Derived.securityGroupResources Sample.namedProps 0).
Proof. vm_compute. reflexivity. Qed.

(** The props of the unit tests in an empty scope: four groups, at the
    positions 0 to 3. *)
Lemma security_groups_are_appended_witness :
  exists c s' alb web app db,
    SecurityGroups.SecurityGroupsConstruct Example.testProps Example.devEnv [] = Ok (c, s')
    /\ s' = [RSecurityGroup alb; RSecurityGroup web; RSecurityGroup app; RSecurityGroup db]
    /\ map sgDescription [alb; web; app; db]
       = [ "Security group for Application Load Balancer";
           "Security group for Web Tier instances";
           "Security group for Application Tier instances";
           "Security group for RDS database" ].
Proof.
  destruct (security_groups_are_appended _ _ _ _ _ testProps_run)
    as (alb & web & app & db & Hs & _ & Hdesc & _).
  eexists _, _, alb, web, app, db.
  split; [exact testProps_run|]. split; assumption.
Defined.

(** The props that open the web tier's group: the application tier admits
    the web tier on port 8080, and the web tier's group carries no rule
    towards it; the load balancer's group, which is not open, carries its
    rule towards the web tier. *)
Lemma tier_rules_are_matched_pairs_witness :
  exists c s',
    SecurityGroups.SecurityGroupsConstruct Sample.namedProps Example.devEnv [] = Ok (c, s')
    /\ Observe.allowsOn (Observe.ingressOf s' (Observe.groupOf c Observe.BUSINESS))
         (SecurityGroupPeer (Observe.groupOf c Observe.PRESENTATION)) 8080
    /\ Observe.egressOf s' (Observe.groupOf c Observe.PRESENTATION) = []
    /\ (Observe.allowsOn (Observe.ingressOf s' (Observe.groupOf c Observe.PRESENTATION))
          (SecurityGroupPeer (Observe.groupOf c Observe.EDGE)) 80 ->
        Observe.allowsOn (Observe.egressOf s' (Observe.groupOf c Observe.EDGE))
          (SecurityGroupPeer (Observe.groupOf c Observe.PRESENTATION)) 80).
Proof.
  eexists _, _. split; [exact namedProps_run|].
  split; [eexists; split; [left; reflexivity | split; reflexivity]|].
  split; [reflexivity|].
  apply (proj2 (tier_rules_are_matched_pairs _ _ _ _ _ namedProps_run
                  Observe.EDGE Observe.PRESENTATION 80)).
  discriminate.
Defined.

(** The props of the unit tests: eleven rules, seven between the tiers and
    the internet and four for package downloads. *)
Lemma rule_census_witness :
  exists c s',
    SecurityGroups.SecurityGroupsConstruct Example.testProps Example.devEnv [] = Ok (c, s')
    /\ length
         (concat
            (map (fun t => Further.rulesOf s' (Observe.groupOf c t))
               [Observe.EDGE; Observe.PRESENTATION; Observe.BUSINESS; Observe.DATA]))
       = 11%nat.
Proof.
  eexists _, _. split; [exact testProps_run|].
  destruct (rule_census _ _ _ _ _ testProps_run) as (_ & _ & _ & _ & _ & Htotal).
  rewrite Htotal; [reflexivity|].
  intros t. destruct t; discriminate.
Defined.

(** The props that name the load balancer's group [edge/sg]: the group goes
    by [edge--sg]. *)
Lemma group_names_and_outbound_flags_witness :
  exists c s' g,
    SecurityGroups.SecurityGroupsConstruct Sample.namedProps Example.devEnv [] = Ok (c, s')
    /\ Further.nameOf Sample.namedProps Observe.EDGE = Some "edge/sg"
    /\ Observe.securityGroupAt s' (Observe.groupOf c Observe.EDGE) = Some g
    /\ sgId g = "edge--sg".
Proof.
  destruct (group_names_and_outbound_flags _ _ _ _ _ namedProps_run Observe.EDGE)
    as (g & Hg & _ & Hname & _).
  eexists _, _, g. split; [exact namedProps_run|]. split; [reflexivity|].
  split; [exact Hg|].
  destruct (Hname "edge/sg" eq_refl) as (Hid & _); [discriminate|].
  rewrite Hid. reflexivity.
Defined.

(** Props without a script path, in a checkout with the scripts and in one
    without. *)
Lemma no_script_path_reads_nothing_witness :
  (AppTierAsg.userDataScriptPath Sample.noScriptProps = None
   \/ AppTierAsg.userDataScriptPath Sample.noScriptProps = Some EmptyString)
  /\ exists c s' a,
       AppTierAsg.AppTierAsgConstruct Sample.noScriptProps Example.devEnv [] = Ok (c, s')
       /\ AppTierAsg.AppTierAsgConstruct Sample.noScriptProps Sample.bareEnv []
          = Ok (c, s')
       /\ Observe.autoScalingGroupAt s' (AppTierAsg.autoScalingGroup c) = Some a
       /\ asgUserData a = [].
Proof.
  split; [left; reflexivity|].
  apply (no_script_path_reads_nothing Sample.noScriptProps Example.devEnv
           Sample.bareEnv []).
  left; reflexivity.
Defined.

(** Props with the path of the directory of the scripts: the construct
    fails. *)
Lemma script_path_is_read_or_the_construct_fails_witness :
  AppTierAsg.userDataScriptPath Sample.directoryProps = Some "/repo/scripts"
  /\ files Example.devEnv "/repo/scripts" = Some Directory
  /\ exists msg,
       AppTierAsg.AppTierAsgConstruct Sample.directoryProps Example.devEnv [] = Err msg.
Proof.
  split; [reflexivity|]. split; [reflexivity|].
  apply (script_path_is_read_or_the_construct_fails Sample.directoryProps
           Example.devEnv [] "/repo/scripts"); [reflexivity | discriminate |].
  intros script. discriminate.
Defined.

(** Props that switch IMDSv2 off, and props that say nothing. *)
Lemma imdsv2_is_required_unless_disabled_witness :
  (exists c s' a,
     AppTierAsg.AppTierAsgConstruct Sample.noScriptProps Sample.bareEnv [] = Ok (c, s')
     /\ Observe.autoScalingGroupAt s' (AppTierAsg.autoScalingGroup c) = Some a
     /\ (asgRequireImdsv2 a = false
         <-> AppTierAsg.requireImdsv2 Sample.noScriptProps = Some false))
  /\ (exists c s' a,
        AppTierAsg.AppTierAsgConstruct Example.unknownSubnetProps Example.devEnv []
        = Ok (c, s')
        /\ Observe.autoScalingGroupAt s' (AppTierAsg.autoScalingGroup c) = Some a
        /\ (asgRequireImdsv2 a = false
            <-> AppTierAsg.requireImdsv2 Example.unknownSubnetProps = Some false)).
Proof.
  split.
  - eexists _, _.
    assert (Hrun : AppTierAsg.AppTierAsgConstruct Sample.noScriptProps Sample.bareEnv []
                   = Ok (AppTierAsg.mkConstruct 0,
                         Derived.appTierResources Sample.noScriptProps [] 0))
      by reflexivity.
    destruct (imdsv2_is_required_unless_disabled _ _ _ _ _ Hrun) as (a & Ha & Hiff).
    exists a. split; [exact Hrun|]. split; assumption.
  - eexists _, _.
    assert (Hrun : AppTierAsg.AppTierAsgConstruct Example.unknownSubnetProps
                     Example.devEnv []
                   = Ok (AppTierAsg.mkConstruct 0,
                         Derived.appTierResources Example.unknownSubnetProps
                           ["#!/bin/bash"] 0))
      by reflexivity.
    destruct (imdsv2_is_required_unless_disabled _ _ _ _ _ Hrun) as (a & Ha & Hiff).
    exists a. split; [exact Hrun|]. split; assumption.
Defined.

(** The construct in a scope that already holds a VPC. *)
Lemma app_tier_appends_a_group_and_its_policy_witness :
  exists c s' a p,
    AppTierAsg.AppTierAsgConstruct Example.unknownSubnetProps Example.devEnv
      [RVpc (mkVpc "Vpc" "10.0.0.0/16" 2 24)] = Ok (c, s')
    /\ s' = [RVpc (mkVpc "Vpc" "10.0.0.0/16" 2 24); RAutoScalingGroup a; RScalingPolicy p]
    /\ AppTierAsg.autoScalingGroup c = 1%nat
    /\ spGroup p = 1%nat
    /\ spCooldown p = asgCooldown a.
Proof.
  eexists _, _.
  assert (Hrun : AppTierAsg.AppTierAsgConstruct Example.unknownSubnetProps Example.devEnv
                   [RVpc (mkVpc "Vpc" "10.0.0.0/16" 2 24)]
                 = Ok (AppTierAsg.mkConstruct 1,
                       RVpc (mkVpc "Vpc" "10.0.0.0/16" 2 24)
                       :: Derived.appTierResources Example.unknownSubnetProps
                            ["#!/bin/bash"] 1))
    by reflexivity.
  destruct (app_tier_appends_a_group_and_its_policy _ _ _ _ _ Hrun)
    as (a & p & Hs & Hc & Hp & Hcool & _).
  exists a, p. split; [exact Hrun|]. repeat split; assumption.
Defined.

(** The development configuration in a checkout without boot scripts: the
    stack looks for [/repo/scripts/app-tier-user-data-dev.sh] and returns no
    graph. *)
Lemma stack_needs_the_application_tier_script_witness :
  Path.join [dirname Sample.bareEnv; ".."; "scripts";
             "app-tier-user-data-"
             +:+ StackConfig.name (StackConfig.environment Example.devConfig) +:+ ".sh"]
  = "/repo/scripts/app-tier-user-data-dev.sh"
  /\ exists msg,
       Stack.HighlyAvailableStack Sample.bareEnv "WebApp-Dev-MultiAZ-3TierInfra"
         Example.devConfig = Err msg.
Proof.
  split; [vm_compute; reflexivity|].
  apply (stack_needs_the_application_tier_script Sample.bareEnv
           "WebApp-Dev-MultiAZ-3TierInfra" Example.devConfig).
  intros script. discriminate.
Defined.

(** The development configuration. *)
Lemma stack_wires_the_application_tier_witness :
  exists g ref a sg,
    Stack.HighlyAvailableStack Example.devEnv "WebApp-Dev-MultiAZ-3TierInfra"
      Example.devConfig = Ok g
    /\ Observe.autoScalingGroupAt (Stack.resources g) ref = Some a
    /\ asgUserData a = ["#!/bin/bash"]
    /\ Observe.securityGroupAt (Stack.resources g) (asgSecurityGroup a) = Some sg
    /\ sgDescription sg = "Security group for Application Tier instances"
    /\ asgTargetGroups a = []
    /\ asgMinCapacity a = 2
    /\ asgMaxCapacity a = 6.
Proof.
  destruct (stack_wires_the_application_tier _ _ _ _ devConfig_run)
    as (ref & a & sg & p & script & Ha & Hfile & Hdata & _ & Hsg & Hdesc & Htg
        & Hmin & Hmax & _).
  eexists _, ref, a, sg. split; [exact devConfig_run|].
  assert (Hscript : script = "#!/bin/bash") by (vm_compute in Hfile; congruence).
  subst script.
  repeat split; assumption.
Defined.

(** The development configuration: the reader of the credentials is the
    group the database admits on port 3306. *)
Lemma stack_grants_the_application_tier_the_credentials_witness :
  exists g secret reader a database,
    Stack.HighlyAvailableStack Example.devEnv "WebApp-Dev-MultiAZ-3TierInfra"
      Example.devConfig = Ok g
    /\ In (RSecret secret) (Stack.resources g)
    /\ In reader (secReaders secret)
    /\ Observe.autoScalingGroupAt (Stack.resources g) reader = Some a
    /\ asgTargetGroups a = []
    /\ nth_error (Observe.securityGroupsOf (Stack.resources g)) 3 = Some database
    /\ sgIngress database
       = [ mkRule (SecurityGroupPeer (asgSecurityGroup a)) (Port_tcp 3306)
             "Allow MySQL/MariaDB traffic from App Tier instances only" ].
Proof.
  destruct (stack_grants_the_application_tier_the_credentials _ _ _ _ devConfig_run)
    as (secret & reader & a & database & Hsecret & Hreader & Ha & Htg & _ & Hdb & _
        & Hingress).
  eexists _, secret, reader, a, database. split; [exact devConfig_run|].
  repeat split; assumption.
Defined.

(** Two development stacks with different VPCs: their VPC ids are exported
    under one name. *)
Lemma export_names_do_not_clash_witness :
  let o1 := CfnOutputs.mkCfnOutput "VpcId" "vpc-0a1b" "VPC ID"
              (Some "dev-HighlyAvailable3Tier-VpcId") in
  let o2 := CfnOutputs.mkCfnOutput "VpcId" "vpc-9y8z" "VPC ID"
              (Some "dev-HighlyAvailable3Tier-VpcId") in
  In o1 (CfnOutputs.OutputsConstruct (Sample.outputsProps "dev" "vpc-0a1b"))
  /\ In o2 (CfnOutputs.OutputsConstruct (Sample.outputsProps "dev" "vpc-9y8z"))
  /\ CfnOutputs.exportName o1 = CfnOutputs.exportName o2
  /\ CfnOutputs.id o1 = CfnOutputs.id o2
  /\ CfnOutputs.environment (Sample.outputsProps "dev" "vpc-0a1b")
     = CfnOutputs.environment (Sample.outputsProps "dev" "vpc-9y8z").
Proof.
  cbv zeta.
  split; [left; reflexivity|]. split; [left; reflexivity|]. split; [reflexivity|].
  apply (export_names_do_not_clash (Sample.outputsProps "dev" "vpc-0a1b")
           (Sample.outputsProps "dev" "vpc-9y8z")
           (CfnOutputs.mkCfnOutput "VpcId" "vpc-0a1b" "VPC ID"
              (Some "dev-HighlyAvailable3Tier-VpcId"))
           (CfnOutputs.mkCfnOutput "VpcId" "vpc-9y8z" "VPC ID"
              (Some "dev-HighlyAvailable3Tier-VpcId"))
           "dev-HighlyAvailable3Tier-VpcId");
    first [left; reflexivity | reflexivity].
Defined.


End FurtherInstances.
